(** * EGMSweb: the batch fetch path of [egms_web.py]

    A shallow embedding of [fetch_file_data], [create_batch_zip] and the four
    download handlers of [main], followed by the properties of the
    request/extract/aggregate pipeline.

    Conventions.
    - Python [int] is [Z]; [str] is [string]; [bytes] is [list byte].
    - An argument that may be [None] is an [option]; truthiness is written
      out ([truthy_str], [truthy_bytes]).
    - The network, the zip decoder and the zip encoder are library code: they
      are the Variables of the section ([curl_get], [ZipFile],
      [zip_getvalue]).  The network threads an abstract [World], so that a
      server may answer the same URL differently at different times.
    - Opening an archive and reading one of its members can both raise; an
      opened archive lists, for each member, what reading it gives.
    - Streamlit calls, the GET and [sleep] are recorded, in program order, in
      the [ui] trace of the runtime.
    - The [try]/[except Exception] block of [fetch_file_data] is an error
      monad [T] run under [try_except]. *)

From Stdlib Require Import ZArith List String Ascii Bool Lia DecimalString.
From Stdlib Require Import Init.Byte.
Import ListNotations.

Open Scope string_scope.
Open Scope Z_scope.

(* ------------------------------------------------------------------ *)
(** ** Python values *)

Definition bytes := list byte.

(** [str(z)] for an [int]. *)
Definition str_int (z : Z) : string := NilZero.string_of_int (Z.to_int z).

(** [f"{x}"] for a value that is a [str] or [None]. *)
Definition str_opt (x : option string) : string :=
  match x with
  | Some s => s
  | None => "None"
  end.

(** Truthiness of a [str] or [None] value. *)
Definition truthy_str (x : option string) : bool :=
  match x with
  | Some s => negb (String.eqb s "")
  | None => false
  end.

(** Truthiness of a [bytes] or [None] value. *)
Definition truthy_bytes (x : option bytes) : bool :=
  match x with
  | Some (_ :: _) => true
  | _ => false
  end.

(** Python's [all]. *)
Definition all (bs : list bool) : bool := forallb (fun b => b) bs.

(** [s.endswith(suffix)]. *)
Definition endswith (s suffix : string) : bool :=
  let ls := String.length s in
  let lf := String.length suffix in
  (lf <=? ls)%nat && String.eqb (substring (ls - lf) lf s) suffix.

(** [sub in s] for two strings. *)
Fixpoint str_in (sub s : string) : bool :=
  String.prefix sub s ||
  match s with
  | EmptyString => false
  | String _ t => str_in sub t
  end.

(** [range(lo, hi)]. *)
Definition py_range (lo hi : Z) : list Z :=
  map (fun i => lo + Z.of_nat i) (seq 0 (Z.to_nat (hi - lo))).

(** [f"{z:0{w}d}"]: sign-aware zero padding to a minimum width. *)
Definition zeros (k : nat) : string := string_of_list_ascii (repeat "0"%char k).

Definition format_0d (w : nat) (z : Z) : string :=
  let digits := str_int (Z.abs z) in
  let sign := if z <? 0 then "-" else "" in
  sign ++ zeros (w - String.length sign - String.length digits) ++ digits.

(* ------------------------------------------------------------------ *)
(** ** Configuration (lines 13-18) *)

Definition DISPLACEMENTS : list string := ["E"; "U"].
Definition DEFAULT_YEAR : string := "2019_2023".
Definition DEFAULT_ID : string := "fcf61f768a6141ca81d6e4851c86cf89".

Definition ARCHIVE_ROOT : string :=
  "https://egms.land.copernicus.eu/insar-api/archive/download/".

(** [BASE_URL_L3.format(data_type=.., e=.., n=.., d=.., year=.., id=..)]. *)
Definition BASE_URL_L3 (data_type : string) (e n : Z) (d year id : string) : string :=
  ARCHIVE_ROOT ++ "EGMS_" ++ data_type ++ "_E" ++ str_int e ++ "N" ++ str_int n
    ++ "_100km_" ++ d ++ "_" ++ year ++ "_1.zip?id=" ++ id.

(** [BASE_URL_L2.format(data_type=.., relative_orbit=.., ...)]. *)
Definition BASE_URL_L2 (data_type relative_orbit burst_cycle swath polarization
                        year id : string) : string :=
  ARCHIVE_ROOT ++ "EGMS_" ++ data_type ++ "_" ++ relative_orbit ++ "_" ++ burst_cycle
    ++ "_" ++ swath ++ "_" ++ polarization ++ "_" ++ year ++ "_1.zip?id=" ++ id.

(* ------------------------------------------------------------------ *)
(** ** Exceptions *)

(** An exception, as [f"{e}"] renders it. *)
Definition exn := string.

(* ------------------------------------------------------------------ *)
(** ** Zip archives, as [zipfile] presents them

    An opened archive is the list of its members in stored order.  Opening
    an archive reads its directory only; a member is decoded when it is
    read, and decoding can raise (a bad CRC-32, an encrypted member, an
    unsupported compression method).  So a member is its name together
    with what reading it gives: the exception, or the bytes.

    [namelist] keeps the stored order (and repeated names); [read(name)]
    goes through the archive's name table, in which a later member of the
    same name replaces an earlier one. *)

Definition archive := list (string * (exn + bytes)).

Definition namelist (z : archive) : list string := map fst z.

(** The member [read(name)] decodes, if the name is in the name table. *)
Definition zread (z : archive) (name : string) : option (exn + bytes) :=
  match find (fun m => String.eqb (fst m) name) (rev z) with
  | Some m => Some (snd m)
  | None => None
  end.

(* ------------------------------------------------------------------ *)
(** ** HTTP responses *)

Record response := { status_code : Z; content : bytes }.

(* ------------------------------------------------------------------ *)
(** ** The observable trace *)

Inductive event :=
| StError (msg : string)            (* st.error *)
| StSuccess (msg : string)          (* st.success *)
| StWarning (msg : string)          (* st.warning *)
| StSpinner (msg : string)          (* st.spinner *)
| HttpGet (url : string)            (* curl_requests.get *)
| Progress (num den : Z)            (* progress_bar.progress(num / den) *)
| StatusText (msg : string)         (* status_placeholder.text *)
| Sleep (secs : Z).                 (* time.sleep *)

Definition is_outcome (ev : event) : bool :=
  match ev with
  | StError _ | StSuccess _ => true
  | _ => false
  end.

Definition is_error (ev : event) : bool :=
  match ev with
  | StError _ => true
  | _ => false
  end.

Definition is_success (ev : event) : bool :=
  match ev with
  | StSuccess _ => true
  | _ => false
  end.

Definition is_get (ev : event) : bool :=
  match ev with
  | HttpGet _ => true
  | _ => false
  end.

Definition is_progress (ev : event) : bool :=
  match ev with
  | Progress _ _ => true
  | _ => false
  end.

(** [st.progress] accepts a fraction between 0 and 1. *)
Definition progress_in_range (ev : event) : Prop :=
  match ev with
  | Progress num den => 0 <= num <= den /\ 0 < den
  | _ => True
  end.

Definition is_sleep (ev : event) : bool :=
  match ev with
  | Sleep _ => true
  | _ => false
  end.

Definition get_url (ev : event) : option string :=
  match ev with
  | HttpGet u => Some u
  | _ => None
  end.

Definition status_msg (ev : event) : option string :=
  match ev with
  | StatusText m => Some m
  | _ => None
  end.

Fixpoint filter_map {A B} (f : A -> option B) (xs : list A) : list B :=
  match xs with
  | [] => []
  | x :: xs' =>
      match f x with
      | Some y => y :: filter_map f xs'
      | None => filter_map f xs'
      end
  end.

(** The URLs requested, in order. *)
Definition requested (tr : list event) : list string := filter_map get_url tr.

(** The status lines shown, in order. *)
Definition status_lines (tr : list event) : list string := filter_map status_msg tr.

(** [st.session_state], restricted to the fields the handlers write. *)
Record session_state := {
  download_ready : bool;
  download_data : option bytes;
  download_filename : string
}.

(** What a handler runs in: the world behind the network, the trace so far,
    and the session state. *)
Record runtime (World : Type) := {
  world : World;
  ui : list event;
  session : session_state
}.

Arguments world {World} _.
Arguments ui {World} _.
Arguments session {World} _.

(* ------------------------------------------------------------------ *)
(** ** Request identity (lines 62-80), the pure part of [fetch_file_data] *)

(** Line 64, with [tile_code] of line 63 substituted. *)
Definition filename_prefix_L3 (data_type : string) (e n : Z) (d year : string) : string :=
  let tile_code := "E" ++ str_int e ++ "N" ++ str_int n in
  "EGMS_" ++ data_type ++ "_" ++ tile_code ++ "_100km_" ++ d ++ "_" ++ year ++ "_1".

(** Line 71. *)
Definition filename_prefix_L2 (data_type : string)
    (relative_orbit burst_cycle swath polarization : option string) (year : string) : string :=
  "EGMS_" ++ data_type ++ "_" ++ str_opt relative_orbit ++ "_" ++ str_opt burst_cycle
    ++ "_" ++ str_opt swath ++ "_" ++ str_opt polarization ++ "_" ++ year ++ "_1".

(** Lines 72-80. *)
Definition url_L2 (data_type : string)
    (relative_orbit burst_cycle swath polarization : option string) (year id : string) : string :=
  BASE_URL_L2 (if String.eqb data_type "L2A" then "L2a" else "L2b")
              (str_opt relative_orbit) (str_opt burst_cycle)
              (str_opt swath) (str_opt polarization) year id.

(** Line 349. *)
Definition l3_label (e n : Z) (d : string) (task_count total_tasks : Z) : string :=
  "Fetching E" ++ str_int e ++ "N" ++ str_int n ++ " " ++ d
    ++ " (" ++ str_int task_count ++ "/" ++ str_int total_tasks ++ ")".

(** Line 451. *)
Definition l2_label (data_type rel_orbit_str burst_cycle_str swath polarization : string)
    (task_count total_combinations : Z) : string :=
  "Fetching " ++ data_type ++ "_" ++ rel_orbit_str ++ "_" ++ burst_cycle_str ++ "_"
    ++ swath ++ "_" ++ polarization
    ++ " (" ++ str_int task_count ++ "/" ++ str_int total_combinations ++ ")".

(** The condition of line 93. *)
Definition is_payload (filename_prefix name : string) : bool :=
  endswith name ".csv" && str_in filename_prefix name.

(** Truthiness of a list: [if files_data:]. *)
Definition truthy_list {A} (xs : list A) : bool :=
  match xs with
  | [] => false
  | _ :: _ => true
  end.

(** [len(xs)] as an [int]. *)
Definition len {A} (xs : list A) : Z := Z.of_nat (List.length xs).

(** The filename of a fetch result that passed [fetched_ok]. *)
Definition filename_of (res : option bytes * option string) : string :=
  match snd res with
  | Some csv_filename => csv_filename
  | None => ""
  end.

Definition files := list (string * option bytes).

(** The condition [csv_data and csv_filename] of lines 199, 257, 352, 457. *)
Definition fetched_ok (res : option bytes * option string) : bool :=
  truthy_bytes (fst res) && truthy_str (snd res).

(** [files_data.append((csv_filename, csv_data))] under that condition. *)
Definition keep (files_data : files) (res : option bytes * option string) : files :=
  if fetched_ok res then
    match snd res with
    | Some csv_filename => (files_data ++ [(csv_filename, fst res)])%list
    | None => files_data
    end
  else files_data.

(** [files_data[0]] of lines 268-269 (only reached on a list of length 1). *)
Definition item0 (files_data : files) : string * option bytes :=
  nth 0 files_data ("", None).

(** The members [create_batch_zip] writes, in call order (lines 111-113). *)
Fixpoint written (files_data : files) : list (string * bytes) :=
  match files_data with
  | [] => []
  | (filename, data) :: rest =>
      match data with
      | Some b => (filename, b) :: written rest
      | None => written rest
      end
  end.

(* ------------------------------------------------------------------ *)
(** ** Stand-ins for the library calls, used to run the model on examples *)

Module Demo.

(** A member list the demo decoder knows. *)
Definition tile_archive : archive :=
  [ ("readme.txt", inr [x68; x69]);
    ("EGMS_L3_E32N31_100km_E_2019_2023_1.csv", inr [x31; x2c; x32]) ].

(** The same member name stored twice. *)
Definition twice_archive : archive :=
  [ ("EGMS_L3_E32N31_100km_E_2019_2023_1.csv", inr [x61]);
    ("EGMS_L3_E32N31_100km_E_2019_2023_1.csv", inr [x62]) ].

(** A matching member of length zero. *)
Definition empty_member_archive : archive :=
  [ ("EGMS_L3_E32N31_100km_E_2019_2023_1.csv", inr []) ].

(** A member named after the file the orbit-mode URL asks for. *)
Definition orbit_archive : archive :=
  [ ("EGMS_L2a_052_0716_IW2_VV_2019_2023_1.csv", inr [x31]) ].

(** A matching member that fails its CRC check when read, stored before a
    sound member that matches as well. *)
Definition damaged_archive : archive :=
  [ ("EGMS_L3_E32N31_100km_E_2019_2023_1.csv",
     inl "Bad CRC-32 for file 'EGMS_L3_E32N31_100km_E_2019_2023_1.csv'");
    ("copy_of_EGMS_L3_E32N31_100km_E_2019_2023_1.csv", inr [x31; x2c; x32]) ].

(** The decoder: a one-byte tag selects the member list. *)
Definition ZipFile (b : bytes) : exn + archive :=
  match b with
  | [x01] => inr tile_archive
  | [x02] => inr twice_archive
  | [x03] => inr empty_member_archive
  | [x04] => inr orbit_archive
  | [x05] => inr damaged_archive
  | _ => inl "File is not a zip file"
  end.

(** The encoder: only the number of members is kept. *)
Definition zip_getvalue (members : list (string * bytes)) : bytes :=
  x50 :: x4b :: repeat x00 (List.length members).

(** The world counts the requests made. *)
Definition World := nat.

(** A server that answers every request with [code] and body [body]. *)
Definition always (code : Z) (body : bytes) (url : string) (w : World)
  : (exn + response) * World :=
  (inr {| status_code := code; content := body |}, S w).

(** A server that cannot be reached. *)
Definition unreachable (url : string) (w : World) : (exn + response) * World :=
  (inl "Connection refused", S w).

(** A server that serves [tile_archive] for east index 32 only, and 404 elsewhere. *)
Definition east32 (url : string) (w : World) : (exn + response) * World :=
  if str_in "_E32N" url
  then (inr {| status_code := 200; content := [x01] |}, S w)
  else (inr {| status_code := 404; content := [] |}, S w).

Definition fresh_session : session_state :=
  {| download_ready := false; download_data := None; download_filename := "" |}.

(** A fresh run: no request made, nothing shown. *)
Definition r0 : runtime World :=
  {| world := 0%nat; ui := []; session := fresh_session |}.

End Demo.

(* ------------------------------------------------------------------ *)
(** ** Vocabulary of the statements *)

(** What one call of [fetch_file_data] reports last: an [st.error] with the
    pair [(None, None)], or an [st.success] naming a member that passes the
    test of line 93, with that member's bytes. *)
Inductive fetch_outcome (filename_prefix : string)
  : option bytes * option string -> event -> Prop :=
| fo_error (msg : string) :
    fetch_outcome filename_prefix (None, None) (StError msg)
| fo_success (data : bytes) (name : string) :
    is_payload filename_prefix name = true ->
    fetch_outcome filename_prefix (Some data, Some name)
                  (StSuccess ("Successfully fetched " ++ name)).

(** What one turn of a batch loop adds to the trace. *)
Definition step_post (label filename_prefix : string) (urls : list string)
    (res : option bytes * option string) (tr : list event) : Prop :=
  status_lines tr = [label] /\
  requested tr = urls /\
  filter is_sleep tr = [Sleep 1] /\
  exists oc, filter is_outcome tr = [oc] /\ fetch_outcome filename_prefix res oc.

(** A run over the tasks [xs], numbered from [tc + 1]: the fetch results and
    the trace, task by task. *)
Inductive run_post {A : Type}
    (post : A -> Z -> option bytes * option string -> list event -> Prop)
  : list A -> Z -> list (option bytes * option string) -> list event -> Prop :=
| run_nil (tc : Z) : run_post post [] tc [] []
| run_cons (x : A) (xs : list A) (tc : Z) res tr ress trs :
    post x (tc + 1) res tr ->
    run_post post xs (tc + 1) ress trs ->
    run_post post (x :: xs) tc (res :: ress) (tr ++ trs)%list.

(** [files_data] lists, in the order of [prefixes], a payload for some of
    them: each filename ends in [.csv] and contains the prefix of its task. *)
Inductive in_order_of : files -> list string -> Prop :=
| io_nil (prefixes : list string) : in_order_of [] prefixes
| io_skip (fd : files) (p : string) (prefixes : list string) :
    in_order_of fd prefixes -> in_order_of fd (p :: prefixes)
| io_take (name : string) (data : option bytes) (fd : files) (p : string)
          (prefixes : list string) :
    is_payload p name = true ->
    in_order_of fd prefixes ->
    in_order_of ((name, data) :: fd) (p :: prefixes).

(** The status lines of the tasks [xs], numbered from [tc + 1]. *)
Fixpoint labels_from {A : Type} (label : A -> Z -> string) (xs : list A) (tc : Z)
  : list string :=
  match xs with
  | [] => []
  | x :: xs' => label x (tc + 1) :: labels_from label xs' (tc + 1)
  end.

(** What a sequence of fetch results leaves in [files_data]. *)
Fixpoint kept (ress : list (option bytes * option string)) : files :=
  match ress with
  | [] => []
  | res :: ress' => (keep [] res ++ kept ress')%list
  end.

(** [files_data] holding the given successful payloads. *)
Definition as_files (successes : list (string * bytes)) : files :=
  map (fun s => (fst s, Some (snd s))) successes.

(** Length of [range(lo, hi + 1)]. *)
Definition span (lo hi : Z) : nat := Z.to_nat (hi + 1 - lo).

(** The [k]-th task (from 0) of a grid batch in nested order: east index
    outermost, then north index, then channel. *)
Definition l3_task_at (min_e min_n : Z) (Nn : nat) (displacements : list string)
    (k : nat) : Z * Z * string :=
  let Nd := List.length displacements in
  (min_e + Z.of_nat (k / (Nn * Nd)),
   min_n + Z.of_nat ((k / Nd) mod Nn),
   nth (k mod Nd) displacements "").

Definition l3_tasks (min_e max_e min_n max_n : Z) (displacements : list string)
  : list (Z * Z * string) :=
  map (l3_task_at min_e min_n (span min_n max_n) displacements)
      (seq 0 (span min_e max_e * span min_n max_n * List.length displacements)).

(** The [k]-th task (from 0) of an orbit batch in nested order: orbit
    outermost, then burst cycle, then swath, then polarization. *)
Definition l2_task_at (min_o min_b : Z) (Nb : nat) (swaths pols : list string)
    (k : nat) : Z * Z * string * string :=
  let Ns := List.length swaths in
  let Np := List.length pols in
  (min_o + Z.of_nat (k / (Nb * Ns * Np)),
   min_b + Z.of_nat ((k / (Ns * Np)) mod Nb),
   nth ((k / Np) mod Ns) swaths "",
   nth (k mod Np) pols "").

Definition l2_tasks (min_o max_o min_b max_b : Z) (swaths pols : list string)
  : list (Z * Z * string * string) :=
  map (l2_task_at min_o min_b (span min_b max_b) swaths pols)
      (seq 0 (span min_o max_o * span min_b max_b
              * List.length swaths * List.length pols)).

(** The request of a grid task. *)
Definition l3_task_prefix (year : string) (t : Z * Z * string) : string :=
  let '(e, n, d) := t in filename_prefix_L3 "L3" e n d year.

Definition l3_task_url (year id : string) (t : Z * Z * string) : string :=
  let '(e, n, d) := t in BASE_URL_L3 "L3" e n d year id.

Definition l3_task_label (total_tasks : Z) (t : Z * Z * string) (task_count : Z)
  : string :=
  let '(e, n, d) := t in l3_label e n d task_count total_tasks.

(** The request of an orbit task, as the batch loop passes it on. *)
Definition l2_task_args (t : Z * Z * string * string)
  : option string * option string * option string * option string :=
  let '(o, b, s, p) := t in
  (Some (format_0d 3 o), Some (format_0d 4 b), Some s, Some p).

Definition l2_task_prefix (data_type year : string) (t : Z * Z * string * string)
  : string :=
  let '(ro, bc, sw, pol) := l2_task_args t in
  filename_prefix_L2 data_type ro bc sw pol year.

Definition l2_task_urls (data_type year id : string) (t : Z * Z * string * string)
  : list string :=
  let '(ro, bc, sw, pol) := l2_task_args t in
  if all [truthy_str ro; truthy_str bc; truthy_str sw; truthy_str pol]
  then [url_L2 data_type ro bc sw pol year id]
  else [].

(** The URL of an orbit task all of whose parameters are present. *)
Definition l2_task_url (data_type year id : string) (t : Z * Z * string * string)
  : string :=
  let '(ro, bc, sw, pol) := l2_task_args t in
  url_L2 data_type ro bc sw pol year id.

Definition l2_task_label (data_type : string) (total_combinations : Z)
    (t : Z * Z * string * string) (task_count : Z) : string :=
  let '(o, b, s, p) := t in
  l2_label data_type (format_0d 3 o) (format_0d 4 b) s p task_count total_combinations.

(* ------------------------------------------------------------------ *)
(** ** What [main] shows around the handlers *)

(** The arguments of one [st.download_button] call. *)
Record download_button := {
  btn_label : string;
  btn_data : option bytes;
  btn_file_name : string;
  btn_mime : string
}.

(** The test [download_ready and download_data] of lines 205, 281, 371, 476. *)
Definition ready_with_data (ss : session_state) : bool :=
  download_ready ss && truthy_bytes (download_data ss).

(** Lines 205-212. *)
Definition render_l2_single (ss : session_state) : option download_button :=
  if ready_with_data ss then
    Some {| btn_label := "💾 Download File";
            btn_data := download_data ss;
            btn_file_name := download_filename ss;
            btn_mime := "text/csv" |}
  else None.

(** Lines 281-289. *)
Definition render_l3_single (ss : session_state) : option download_button :=
  if ready_with_data ss then
    let file_type := if endswith (download_filename ss) ".zip"
                     then "application/zip" else "text/csv" in
    Some {| btn_label := "💾 Download File";
            btn_data := download_data ss;
            btn_file_name := download_filename ss;
            btn_mime := file_type |}
  else None.

(** Lines 371-378. *)
Definition render_l3_batch (ss : session_state) : option download_button :=
  if ready_with_data ss && endswith (download_filename ss) ".zip" then
    Some {| btn_label := "💾 Download Batch ZIP";
            btn_data := download_data ss;
            btn_file_name := download_filename ss;
            btn_mime := "application/zip" |}
  else None.

(** Lines 476-483. *)
Definition render_l2_batch (ss : session_state) : option download_button :=
  if ready_with_data ss && endswith (download_filename ss) ".zip" then
    Some {| btn_label := "💾 Download L2 Batch ZIP";
            btn_data := download_data ss;
            btn_file_name := download_filename ss;
            btn_mime := "application/zip" |}
  else None.

(** Lines 322-326: the counts announced before a grid batch. *)
Definition l3_total_tiles (min_e max_e min_n max_n : Z) : Z :=
  (max_e - min_e + 1) * (max_n - min_n + 1).

Definition l3_total_files (min_e max_e min_n max_n : Z) (disp_choice : string) : Z :=
  let total_tiles := l3_total_tiles min_e max_e min_n max_n in
  if String.eqb disp_choice "Both" then total_tiles * 2 else total_tiles.

(** Line 328. *)
Definition l3_info (min_e max_e min_n max_n : Z) (disp_choice : string) : string :=
  "This will attempt to download "
    ++ str_int (l3_total_files min_e max_e min_n max_n disp_choice)
    ++ " files from " ++ str_int (l3_total_tiles min_e max_e min_n max_n) ++ " tiles".

(** Lines 422-426: the count announced before an orbit batch. *)
Definition l2_total_combinations (min_relative_orbit max_relative_orbit
                                  min_burst_cycle max_burst_cycle : Z)
    (selected_swaths selected_polarizations : list string) : Z :=
  let orbit_count := max_relative_orbit - min_relative_orbit + 1 in
  let burst_count := max_burst_cycle - min_burst_cycle + 1 in
  let swath_count := len selected_swaths in
  let pol_count := len selected_polarizations in
  orbit_count * burst_count * swath_count * pol_count.

(** Line 428. *)
Definition l2_info (min_relative_orbit max_relative_orbit
                    min_burst_cycle max_burst_cycle : Z)
    (selected_swaths selected_polarizations : list string) : string :=
  "This will attempt to download "
    ++ str_int (l2_total_combinations min_relative_orbit max_relative_orbit
                  min_burst_cycle max_burst_cycle selected_swaths selected_polarizations)
    ++ " files".

(** A trace is paced when a [sleep] separates any two requests: [armed]
    says that a request was made since the last [sleep]. *)
Fixpoint paced_from (armed : bool) (tr : list event) : bool :=
  match tr with
  | [] => true
  | HttpGet _ :: rest => negb armed && paced_from true rest
  | Sleep _ :: rest => paced_from false rest
  | _ :: rest => paced_from armed rest
  end.

Definition paced (tr : list event) : bool := paced_from false tr.

(** One turn of a batch loop: at most one request, then the [sleep]. *)
Definition turn_shape (tr : list event) : Prop :=
  exists body secs,
    tr = (body ++ [Sleep secs])%list
    /\ filter is_sleep body = []
    /\ (List.length (requested body) <= 1)%nat.

(** What one turn of the single-file grid loop (lines 252-260) adds to the
    trace, for the item [(i, d)] of [enumerate(displacements)]. *)
Definition l3_single_post (e_coord n_coord : Z) (year id_value : string)
    (displacements : list string) (item : Z * string)
    (res : option bytes * option string) (tr : list event) : Prop :=
  exists oc,
    tr = [Progress (fst item) (len displacements);
          StatusText ("Fetching " ++ snd item ++ " displacement data...");
          StSpinner ("Fetching " ++ filename_prefix_L3 "L3" e_coord n_coord (snd item) year
                     ++ "...");
          HttpGet (BASE_URL_L3 "L3" e_coord n_coord (snd item) year id_value);
          oc; Sleep 1]
    /\ fetch_outcome (filename_prefix_L3 "L3" e_coord n_coord (snd item) year) res oc.

#[global] Arguments str_int : simpl never.
#[global] Arguments format_0d : simpl never.
#[global] Arguments BASE_URL_L3 : simpl never.
#[global] Arguments BASE_URL_L2 : simpl never.
#[global] Arguments filename_prefix_L3 : simpl never.
#[global] Arguments filename_prefix_L2 : simpl never.
#[global] Arguments url_L2 : simpl never.
#[global] Arguments l3_label : simpl never.
#[global] Arguments l2_label : simpl never.

(* ------------------------------------------------------------------ *)
(** ** The effectful part *)

Section Pipeline.

Variable World : Type.

(** [curl_requests.get(url, timeout=3000)]: a response, or an exception. *)
Variable curl_get : string -> World -> (exn + response) * World.

(** [zipfile.ZipFile(BytesIO(content))]: the member list, or an exception. *)
Variable ZipFile : bytes -> exn + archive.

(** The bytes of a deflated archive holding the given members in order. *)
Variable zip_getvalue : list (string * bytes) -> bytes.

Definition mk (w : World) (tr : list event) (ss : session_state) : runtime World :=
  {| world := w; ui := tr; session := ss |}.

(** Statements that cannot raise. *)
Definition M (A : Type) : Type := runtime World -> A * runtime World.

Definition ret {A} (a : A) : M A := fun r => (a, r).

Definition bind {A B} (m : M A) (k : A -> M B) : M B :=
  fun r => let (a, r') := m r in k a r'.

(** Statements inside a [try]: an exception ends the block. *)
Definition T (A : Type) : Type := runtime World -> (exn + A) * runtime World.

Definition retT {A} (a : A) : T A := fun r => (inr a, r).

Definition raise {A} (e : exn) : T A := fun r => (inl e, r).

Definition bindT {A B} (m : T A) (k : A -> T B) : T B :=
  fun r =>
    match m r with
    | (inr a, r') => k a r'
    | (inl e, r') => (inl e, r')
    end.

Definition liftT {A} (m : M A) : T A :=
  fun r => let (a, r') := m r in (inr a, r').

(** [try: body except Exception as e: handler(e)]. *)
Definition try_except {A} (body : T A) (handler : exn -> M A) : M A :=
  fun r =>
    match body r with
    | (inr a, r') => (a, r')
    | (inl e, r') => handler e r'
    end.

Notation "x <- m ;; k" := (bind m (fun x => k))
  (at level 61, m at next level, right associativity).
Notation "m ;; k" := (bind m (fun _ => k))
  (at level 61, right associativity).
Notation "x <-! m ;; k" := (bindT m (fun x => k))
  (at level 61, m at next level, right associativity).
Notation "m ;;! k" := (bindT m (fun _ => k))
  (at level 61, right associativity).

Definition emit (ev : event) : M unit :=
  fun r => (tt, {| world := world r; ui := ui r ++ [ev]; session := session r |}).

Definition st_error (msg : string) : M unit := emit (StError msg).
Definition st_success (msg : string) : M unit := emit (StSuccess msg).
Definition st_warning (msg : string) : M unit := emit (StWarning msg).
Definition st_spinner (msg : string) : M unit := emit (StSpinner msg).
Definition progress (num den : Z) : M unit := emit (Progress num den).
Definition status_text (msg : string) : M unit := emit (StatusText msg).
Definition sleep (secs : Z) : M unit := emit (Sleep secs).

Definition set_session (ss : session_state) : M unit :=
  fun r => (tt, {| world := world r; ui := ui r; session := ss |}).

Definition get_session : M session_state := fun r => (session r, r).

(** Line 84. *)
Definition http_get (url : string) : T response :=
  fun r =>
    let (res, w') := curl_get url (world r) in
    (res, {| world := w'; ui := ui r ++ [HttpGet url]; session := session r |}).

(** Line 91. *)
Definition open_zip (b : bytes) : T archive :=
  match ZipFile b with
  | inr z => retT z
  | inl e => raise e
  end.

(** Line 94: [z.read(name)] looks the name up and decodes the member; it
    raises when the member cannot be decoded, or when no member has the
    name (which [scan_namelist] never asks for). *)
Definition read (z : archive) (name : string) : T bytes :=
  match zread z name with
  | Some (inr b) => retT b
  | Some (inl e) => raise e
  | None => raise ("There is no item named " ++ name ++ " in the archive")
  end.

(** Lines 92-97: the loop over [z.namelist()], left by [return] at the
    first name that passes the test of line 93. *)
Fixpoint scan_namelist (z : archive) (filename_prefix : string) (names : list string)
  : T (option (option bytes * option string)) :=
  match names with
  | [] => retT None
  | name :: rest =>
      if endswith name ".csv" && str_in filename_prefix name then
        csv_data <-! read z name ;;
        let csv_filename := name in
        liftT (st_success ("Successfully fetched " ++ csv_filename)) ;;!
        retT (Some (Some csv_data, Some csv_filename))
      else scan_namelist z filename_prefix rest
  end.

(** Lines 83-100: the body of the [try]. *)
Definition try_body (filename_prefix url : string) : T (option bytes * option string) :=
  liftT (st_spinner ("Fetching " ++ filename_prefix ++ "...")) ;;!
  response <-! http_get url ;;
  if negb (status_code response =? 200) then
    liftT (st_error ("Failed to fetch " ++ filename_prefix ++ " (Status: "
                     ++ str_int (status_code response) ++ ")")) ;;!
    retT (None, None)
  else
    z <-! open_zip (content response) ;;
    returned <-! scan_namelist z filename_prefix (namelist z) ;;
    match returned with
    | Some res => retT res
    | None =>
        liftT (st_error ("No matching CSV found in the downloaded zip for "
                         ++ filename_prefix)) ;;!
        retT (None, None)
    end.

(** Lines 82-104: the [try] with its [except Exception]. *)
Definition fetch (filename_prefix url : string) : M (option bytes * option string) :=
  try_except (try_body filename_prefix url)
    (fun e =>
       st_error ("Error fetching " ++ filename_prefix ++ ": " ++ e) ;;
       ret (None, None)).

(** Lines 59-104. *)
Definition fetch_file_data (e n : Z) (d data_type year id : string)
    (relative_orbit burst_cycle swath polarization : option string)
  : M (option bytes * option string) :=
  if String.eqb data_type "L3" then
    fetch (filename_prefix_L3 data_type e n d year)
          (BASE_URL_L3 data_type e n d year id)
  else
    if negb (all [truthy_str relative_orbit; truthy_str burst_cycle;
                  truthy_str swath; truthy_str polarization]) then
      st_error ("Missing parameters for " ++ data_type ++ " download") ;;
      ret (None, None)
    else
      fetch (filename_prefix_L2 data_type relative_orbit burst_cycle swath polarization year)
            (url_L2 data_type relative_orbit burst_cycle swath polarization year id).

(** Lines 106-116. *)
Definition create_batch_zip (files_data : list (string * option bytes))
    (batch_name : string) : bytes :=
  zip_getvalue (written files_data).

(** A [for] loop whose body updates the loop's local variables [S]. *)
Fixpoint for_each {A S} (xs : list A) (body : A -> S -> M S) (s : S) : M S :=
  match xs with
  | [] => ret s
  | x :: xs' => s' <- body x s ;; for_each xs' body s'
  end.

(** [enumerate(xs)]. *)
Definition enumerate {A} (xs : list A) : list (Z * A) :=
  combine (map Z.of_nat (seq 0 (List.length xs))) xs.

(** Assignments to [st.session_state]. *)
Definition set_download_data (v : option bytes) : M unit :=
  ss <- get_session ;;
  set_session {| download_ready := download_ready ss; download_data := v;
                 download_filename := download_filename ss |}.

Definition set_download_filename (v : string) : M unit :=
  ss <- get_session ;;
  set_session {| download_ready := download_ready ss; download_data := download_data ss;
                 download_filename := v |}.

Definition set_download_ready (v : bool) : M unit :=
  ss <- get_session ;;
  set_session {| download_ready := v; download_data := download_data ss;
                 download_filename := download_filename ss |}.

(** *** Single file, L2A/L2B (lines 197-202) *)
Definition prepare_l2_single
    (data_type year id_value relative_orbit burst_cycle swath polarization : string)
  : M unit :=
  res <- fetch_file_data 0 0 "" data_type year id_value
           (Some relative_orbit) (Some burst_cycle) (Some swath) (Some polarization) ;;
  if fetched_ok res then
    set_download_data (fst res) ;;
    set_download_filename (filename_of res) ;;
    set_download_ready true
  else ret tt.

(** Lines 242-245, 331-334. *)
Definition displacements_of (disp_choice : string) : list string :=
  if String.eqb disp_choice "Both" then ["E"; "U"] else [disp_choice].

(** *** Single file, L3 (lines 241-278) *)

(** Lines 252-260: one turn of the loop. *)
Definition l3_single_step (e_coord n_coord : Z) (year id_value : string)
    (displacements : list string) (item : Z * string) (files_data : files) : M files :=
  let '(i, d) := item in
  progress i (len displacements) ;;
  status_text ("Fetching " ++ d ++ " displacement data...") ;;
  res <- fetch_file_data e_coord n_coord d "L3" year id_value None None None None ;;
  let files_data := keep files_data res in
  sleep 1 ;;
  ret files_data.

(** Lines 265-278. *)
Definition deliver_single (e_coord n_coord : Z) (year : string) (files_data : files)
  : M unit :=
  if truthy_list files_data then
    (if (List.length files_data =? 1)%nat then
       set_download_data (snd (item0 files_data)) ;;
       set_download_filename (fst (item0 files_data))
     else
       let zip_name := "EGMS_L3_E" ++ str_int e_coord ++ "N" ++ str_int n_coord
                         ++ "_" ++ year ++ "_batch.zip" in
       let zip_data := create_batch_zip files_data zip_name in
       set_download_data (Some zip_data) ;;
       set_download_filename zip_name) ;;
    set_download_ready true ;;
    status_text "✅ Ready for download!"
  else ret tt.

Definition prepare_l3_single (e_coord n_coord : Z) (disp_choice year id_value : string)
  : M unit :=
  let displacements := displacements_of disp_choice in
  progress 0 1 ;;
  files_data <- for_each (enumerate displacements)
                  (l3_single_step e_coord n_coord year id_value displacements) [] ;;
  progress 1 1 ;;
  status_text "Preparing download..." ;;
  deliver_single e_coord n_coord year files_data.

(** *** Batches: the tail shared by lines 360-368 and 465-473 *)
Definition deliver_batch (zip_name : string) (files_data : files) : M unit :=
  if truthy_list files_data then
    let zip_data := create_batch_zip files_data zip_name in
    set_download_data (Some zip_data) ;;
    set_download_filename zip_name ;;
    set_download_ready true ;;
    status_text ("✅ Ready! " ++ str_int (len files_data) ++ " files prepared for download")
  else
    status_text "❌ No files could be downloaded".

(** *** Batch, L3 (lines 330-368) *)

(** Lines 346-355: one turn of the innermost loop. *)
Definition l3_batch_step (year id_value : string) (total_tasks : Z)
    (e n : Z) (d : string) (st : files * Z) : M (files * Z) :=
  let '(files_data, task_count) := st in
  let task_count := task_count + 1 in
  progress task_count total_tasks ;;
  status_text (l3_label e n d task_count total_tasks) ;;
  res <- fetch_file_data e n d "L3" year id_value None None None None ;;
  let files_data := keep files_data res in
  sleep 1 ;;
  ret (files_data, task_count).

(** The same turn, for a task given as a triple. *)
Definition l3_task_step (year id_value : string) (total_tasks : Z)
    (t : Z * Z * string) : files * Z -> M (files * Z) :=
  l3_batch_step year id_value total_tasks (fst (fst t)) (snd (fst t)) (snd t).

(** Lines 343-355. *)
Definition l3_batch_loop (min_e max_e min_n max_n : Z) (displacements : list string)
    (year id_value : string) (total_tasks : Z) (st : files * Z) : M (files * Z) :=
  for_each (py_range min_e (max_e + 1)) (fun e =>
    for_each (py_range min_n (max_n + 1)) (fun n =>
      for_each displacements (fun d =>
        l3_batch_step year id_value total_tasks e n d))) st.

Definition prepare_l3_batch (min_e max_e min_n max_n : Z)
    (disp_choice year id_value : string) : M unit :=
  let displacements := displacements_of disp_choice in
  progress 0 1 ;;
  let total_tasks := (max_e - min_e + 1) * (max_n - min_n + 1) * len displacements in
  st <- l3_batch_loop min_e max_e min_n max_n displacements year id_value
          total_tasks ([], 0) ;;
  let files_data := fst st in
  progress 1 1 ;;
  status_text "Creating batch download..." ;;
  let zip_name := "EGMS_L3_E" ++ str_int min_e ++ "-" ++ str_int max_e
                    ++ "_N" ++ str_int min_n ++ "-" ++ str_int max_n
                    ++ "_" ++ year ++ "_batch.zip" in
  deliver_batch zip_name files_data.

(** *** Batch, L2A/L2B (lines 422-473) *)

(** Lines 443-460: one turn of the innermost loop. *)
Definition l2_batch_step (data_type year id_value : string) (total_combinations : Z)
    (rel_orbit burst_cycle : Z) (swath polarization : string) (st : files * Z)
  : M (files * Z) :=
  let '(files_data, task_count) := st in
  let task_count := task_count + 1 in
  let rel_orbit_str := format_0d 3 rel_orbit in
  let burst_cycle_str := format_0d 4 burst_cycle in
  progress task_count total_combinations ;;
  status_text (l2_label data_type rel_orbit_str burst_cycle_str swath polarization
                        task_count total_combinations) ;;
  res <- fetch_file_data 0 0 "" data_type year id_value
           (Some rel_orbit_str) (Some burst_cycle_str) (Some swath) (Some polarization) ;;
  let files_data := keep files_data res in
  sleep 1 ;;
  ret (files_data, task_count).

(** The same turn, for a task given as a quadruple. *)
Definition l2_task_step (data_type year id_value : string) (total_combinations : Z)
    (t : Z * Z * string * string) : files * Z -> M (files * Z) :=
  l2_batch_step data_type year id_value total_combinations
    (fst (fst (fst t))) (snd (fst (fst t))) (snd (fst t)) (snd t).

(** Lines 439-460. *)
Definition l2_batch_loop (min_relative_orbit max_relative_orbit
                          min_burst_cycle max_burst_cycle : Z)
    (selected_swaths selected_polarizations : list string)
    (data_type year id_value : string) (total_combinations : Z) (st : files * Z)
  : M (files * Z) :=
  for_each (py_range min_relative_orbit (max_relative_orbit + 1)) (fun rel_orbit =>
    for_each (py_range min_burst_cycle (max_burst_cycle + 1)) (fun burst_cycle =>
      for_each selected_swaths (fun swath =>
        for_each selected_polarizations (fun polarization =>
          l2_batch_step data_type year id_value total_combinations
                        rel_orbit burst_cycle swath polarization)))) st.

Definition prepare_l2_batch (min_relative_orbit max_relative_orbit
                             min_burst_cycle max_burst_cycle : Z)
    (selected_swaths selected_polarizations : list string)
    (data_type year id_value : string) : M unit :=
  let orbit_count := max_relative_orbit - min_relative_orbit + 1 in
  let burst_count := max_burst_cycle - min_burst_cycle + 1 in
  let swath_count := len selected_swaths in
  let pol_count := len selected_polarizations in
  let total_combinations := orbit_count * burst_count * swath_count * pol_count in
  if negb (truthy_list selected_swaths) || negb (truthy_list selected_polarizations) then
    st_warning "Please select at least one swath and one polarization."
  else
    progress 0 1 ;;
    st <- l2_batch_loop min_relative_orbit max_relative_orbit
            min_burst_cycle max_burst_cycle selected_swaths selected_polarizations
            data_type year id_value total_combinations ([], 0) ;;
    let files_data := fst st in
    progress 1 1 ;;
    status_text "Creating batch download..." ;;
    let zip_name := "EGMS_" ++ data_type ++ "_batch_" ++ year ++ ".zip" in
    deliver_batch zip_name files_data.

(** *** The batch result, read off the answers of the library calls

    The next definitions are not taken from the code.  They say, from the
    answers of [curl_get], [ZipFile] and [read] alone, which payload a
    request yields and which payloads a list of tasks yields, task after
    task; the loops and the handlers are compared with them. *)

(** The payload of one request made in world [w]: the response has status
    200, its body opens as an archive, and the first name that passes the
    test of line 93 reads. *)
Definition payload_of (filename_prefix url : string) (w : World) : option (string * bytes) :=
  match fst (curl_get url w) with
  | inr response =>
      if status_code response =? 200 then
        match ZipFile (content response) with
        | inr z =>
            match find (is_payload filename_prefix) (namelist z) with
            | Some name =>
                match zread z name with
                | Some (inr data) => Some (name, data)
                | _ => None
                end
            | None => None
            end
        | inl _ => None
        end
      else None
  | inl _ => None
  end.

(** One task, given by its expected prefix and its URLs (none when a
    parameter is missing, so that no request is made): the payload it
    yields and the world it leaves. *)
Definition task_payload (filename_prefix : string) (urls : list string) (w : World)
  : option (string * bytes) * World :=
  match urls with
  | url :: _ => (payload_of filename_prefix url w, snd (curl_get url w))
  | [] => (None, w)
  end.

(** A payload is a success when it has at least one byte. *)
Definition success_of (found : option (string * bytes)) : list (string * bytes) :=
  match found with
  | Some (name, b :: data) => [(name, b :: data)]
  | _ => []
  end.

(** The successes of the tasks [tasks], run one after another from world
    [w]: one (filename, bytes) pair for each task that yields a payload of
    at least one byte, in the order of the tasks. *)
Fixpoint batch_successes {A : Type} (prefix_of : A -> string) (urls_of : A -> list string)
    (tasks : list A) (w : World) : list (string * bytes) :=
  match tasks with
  | [] => []
  | t :: rest =>
      let (found, w') := task_payload (prefix_of t) (urls_of t) w in
      (success_of found ++ batch_successes prefix_of urls_of rest w')%list
  end.

(** The pair [fetch_file_data] returns for a payload, and for none. *)
Definition returned (found : option (string * bytes)) : option bytes * option string :=
  match found with
  | Some (name, data) => (Some data, Some name)
  | None => (None, None)
  end.

(** The URLs of a single-file orbit request: none when a field is empty. *)
Definition l2_single_urls (data_type year id_value : string)
    (relative_orbit burst_cycle swath polarization : string) : list string :=
  if all [truthy_str (Some relative_orbit); truthy_str (Some burst_cycle);
          truthy_str (Some swath); truthy_str (Some polarization)]
  then [url_L2 data_type (Some relative_orbit) (Some burst_cycle)
               (Some swath) (Some polarization) year id_value]
  else [].

(* ---------------------------------------------------------------- *)
(** ** Properties *)

Ltac solve_step_post :=
  unfold step_post; cbn;
  repeat (split; [reflexivity|]);
  eexists; split; [reflexivity|constructor; assumption].

Arguments fetch : simpl never.
Arguments fetch_file_data : simpl never.
Arguments create_batch_zip : simpl never.

(** *** Strings, archives *)

Lemma find_app_none {A} (f : A -> bool) (xs ys : list A) :
  find f xs = None -> find f (xs ++ ys) = find f ys.
Proof.
  induction xs as [|x xs IH]; simpl; [reflexivity|].
  destruct (f x); [discriminate|exact IH].
Qed.

Lemma find_app_some {A} (f : A -> bool) (xs ys : list A) (a : A) :
  find f xs = Some a -> find f (xs ++ ys) = Some a.
Proof.
  induction xs as [|x xs IH]; simpl; [discriminate|].
  destruct (f x); [trivial|exact IH].
Qed.

Lemma find_name_none (name : string) (post : archive) :
  ~ In name (namelist post) ->
  find (fun m => String.eqb (fst m) name) (rev post) = None.
Proof.
  intros Hnot.
  destruct (find _ (rev post)) as [m|] eqn:E; [|reflexivity].
  apply find_some in E. destruct E as [Hin Heq].
  apply String.eqb_eq in Heq. exfalso. apply Hnot.
  rewrite <- Heq. unfold namelist. apply in_map. now apply in_rev.
Qed.

(** [read] finds the bytes of a member that no later member shadows. *)
Lemma zread_unshadowed (pre post : archive) (name : string) (data : exn + bytes) :
  ~ In name (namelist post) ->
  zread (pre ++ (name, data) :: post)%list name = Some data.
Proof.
  intros Hnot. unfold zread.
  rewrite rev_app_distr. simpl rev. rewrite <- app_assoc. simpl.
  rewrite find_app_none by now apply find_name_none.
  simpl. now rewrite String.eqb_refl.
Qed.

(** Every name of [namelist] is in the name table. *)
Lemma zread_in (z : archive) (name : string) :
  In name (namelist z) -> exists b, zread z name = Some b.
Proof.
  intros Hin. unfold zread.
  destruct (find _ (rev z)) as [m|] eqn:E; [now eexists|].
  exfalso. unfold namelist in Hin. apply in_map_iff in Hin.
  destruct Hin as [m [Hm Hin]].
  assert (Hf := find_none _ _ E m). cbn in Hf.
  rewrite Hm, String.eqb_refl in Hf.
  assert (true = false) by (apply Hf; now apply in_rev in Hin).
  discriminate.
Qed.

(** The first name that passes the test, when no earlier member does. *)
Lemma find_first_payload (filename_prefix : string) (pre post : archive)
    (name : string) (data : exn + bytes) :
  forallb (fun m => negb (is_payload filename_prefix (fst m))) pre = true ->
  is_payload filename_prefix name = true ->
  find (is_payload filename_prefix) (namelist (pre ++ (name, data) :: post)%list) = Some name.
Proof.
  intros Hpre Hname. unfold namelist. rewrite map_app. simpl.
  rewrite find_app_none.
  - simpl. now rewrite Hname.
  - induction pre as [|m pre IH]; simpl in *; [reflexivity|].
    apply andb_true_iff in Hpre. destruct Hpre as [Hm Hpre].
    apply negb_true_iff in Hm. rewrite Hm. now apply IH.
Qed.

Lemma payload_name_nonempty (filename_prefix name : string) :
  is_payload filename_prefix name = true -> truthy_str (Some name) = true.
Proof.
  unfold is_payload. intros H. apply andb_true_iff in H. destruct H as [H _].
  destruct name; [discriminate|reflexivity].
Qed.

(** *** One fetch *)

Lemma scan_namelist_find (z : archive) (filename_prefix : string) (names : list string)
    (r : runtime World) :
  scan_namelist z filename_prefix names r =
  match find (is_payload filename_prefix) names with
  | None => (inr None, r)
  | Some name =>
      match zread z name with
      | Some (inr b) =>
          (inr (Some (Some b, Some name)),
           mk (world r) (ui r ++ [StSuccess ("Successfully fetched " ++ name)]) (session r))
      | Some (inl e) => (inl e, r)
      | None => (inl ("There is no item named " ++ name ++ " in the archive"), r)
      end
  end.
Proof.
  induction names as [|name rest IH]; simpl; [reflexivity|].
  unfold is_payload at 1.
  destruct (endswith name ".csv" && str_in filename_prefix name); [|exact IH].
  unfold bindT, read. destruct (zread z name) as [[e|b]|]; reflexivity.
Qed.

(** A 200 response whose body opens as an archive: the result is decided
    by the first name of [namelist] that passes the test of line 93, and
    by what reading that name gives. *)
Lemma fetch_200 (filename_prefix url : string) (r : runtime World) (resp : response)
    (w' : World) (z : archive) :
  curl_get url (world r) = (inr resp, w') ->
  status_code resp = 200 ->
  ZipFile (content resp) = inr z ->
  fetch filename_prefix url r =
  let tr := (ui r ++ [StSpinner ("Fetching " ++ filename_prefix ++ "..."); HttpGet url])%list in
  match find (is_payload filename_prefix) (namelist z) with
  | Some name =>
      match zread z name with
      | Some (inr b) =>
          ((Some b, Some name),
           mk w' (tr ++ [StSuccess ("Successfully fetched " ++ name)]) (session r))
      | Some (inl e) =>
          ((None, None),
           mk w' (tr ++ [StError ("Error fetching " ++ filename_prefix ++ ": " ++ e)])
              (session r))
      | None =>
          ((None, None),
           mk w' (tr ++ [StError ("Error fetching " ++ filename_prefix ++ ": "
                                  ++ "There is no item named " ++ name
                                  ++ " in the archive")]) (session r))
      end
  | None =>
      ((None, None),
       mk w' (tr ++ [StError ("No matching CSV found in the downloaded zip for "
                              ++ filename_prefix)]) (session r))
  end.
Proof.
  intros Hget Hcode Hzip.
  unfold fetch, try_except, try_body, bindT, liftT, st_spinner, http_get, emit.
  cbn. rewrite Hget. cbn. rewrite Hcode. cbn.
  unfold open_zip. rewrite Hzip. cbn.
  rewrite scan_namelist_find. cbn.
  destruct (find (is_payload filename_prefix) (namelist z)) as [name|].
  - destruct (zread z name) as [[e|b]|]; cbn; rewrite <- !app_assoc; reflexivity.
  - cbn. rewrite <- !app_assoc. reflexivity.
Qed.

(** Any other status code is reported and ends the fetch. *)
Lemma fetch_not_200 (filename_prefix url : string) (r : runtime World) (resp : response)
    (w' : World) :
  curl_get url (world r) = (inr resp, w') ->
  status_code resp <> 200 ->
  fetch filename_prefix url r =
  ((None, None),
   mk w' (ui r ++ [StSpinner ("Fetching " ++ filename_prefix ++ "..."); HttpGet url;
                   StError ("Failed to fetch " ++ filename_prefix ++ " (Status: "
                            ++ str_int (status_code resp) ++ ")")])
      (session r)).
Proof.
  intros Hget Hcode.
  unfold fetch, try_except, try_body, bindT, liftT, st_spinner, http_get, emit.
  cbn. rewrite Hget. cbn.
  apply Z.eqb_neq in Hcode. rewrite Hcode. cbn.
  rewrite <- !app_assoc. reflexivity.
Qed.

(** Every fetch ends with exactly one report, after exactly one request;
    no exception leaves it. *)
Lemma fetch_spec (filename_prefix url : string) (r : runtime World) :
  exists res oc w',
    fetch filename_prefix url r =
    (res, mk w' (ui r ++ [StSpinner ("Fetching " ++ filename_prefix ++ "...");
                          HttpGet url; oc]) (session r))
    /\ fetch_outcome filename_prefix res oc.
Proof.
  destruct (curl_get url (world r)) as [[e|resp] w'] eqn:Hget.
  - exists (None, None), (StError ("Error fetching " ++ filename_prefix ++ ": " ++ e)), w'.
    split; [|constructor].
    unfold fetch, try_except, try_body, bindT, liftT, st_spinner, http_get, emit.
    cbn. rewrite Hget. cbn. rewrite <- !app_assoc. reflexivity.
  - destruct (Z.eq_dec (status_code resp) 200) as [Hcode|Hcode].
    + destruct (ZipFile (content resp)) as [e|z] eqn:Hzip.
      * exists (None, None),
          (StError ("Error fetching " ++ filename_prefix ++ ": " ++ e)), w'.
        split; [|constructor].
        unfold fetch, try_except, try_body, bindT, liftT, st_spinner, http_get, emit.
        cbn. rewrite Hget. cbn. rewrite Hcode. cbn.
        unfold open_zip. rewrite Hzip. cbn. rewrite <- !app_assoc. reflexivity.
      * rewrite (fetch_200 _ _ _ _ _ _ Hget Hcode Hzip). cbn zeta.
        destruct (find (is_payload filename_prefix) (namelist z)) as [name|] eqn:Hfind.
        -- destruct (zread z name) as [[e|b]|].
           ++ eexists (None, None), (StError _), w'.
              split; [now rewrite <- app_assoc|constructor].
           ++ exists (Some b, Some name), (StSuccess ("Successfully fetched " ++ name)), w'.
              split; [now rewrite <- app_assoc|].
              constructor. now apply find_some in Hfind.
           ++ eexists (None, None), (StError _), w'.
              split; [now rewrite <- app_assoc|constructor].
        -- eexists (None, None), (StError _), w'.
           split; [now rewrite <- app_assoc|constructor].
    + rewrite (fetch_not_200 _ _ _ _ _ Hget Hcode).
      eexists (None, None), (StError _), w'. split; [reflexivity|constructor].
Qed.

(** *** One call of [fetch_file_data] *)

Lemma fetch_file_data_L3 (e n : Z) (d year id : string)
    (ro bc sw pol : option string) (r : runtime World) :
  fetch_file_data e n d "L3" year id ro bc sw pol r =
  fetch (filename_prefix_L3 "L3" e n d year) (BASE_URL_L3 "L3" e n d year id) r.
Proof. reflexivity. Qed.

Lemma fetch_file_data_L2 (e n : Z) (d data_type year id : string)
    (ro bc sw pol : option string) (r : runtime World) :
  data_type <> "L3" ->
  all [truthy_str ro; truthy_str bc; truthy_str sw; truthy_str pol] = true ->
  fetch_file_data e n d data_type year id ro bc sw pol r =
  fetch (filename_prefix_L2 data_type ro bc sw pol year)
        (url_L2 data_type ro bc sw pol year id) r.
Proof.
  intros Hdt Hall. unfold fetch_file_data.
  apply String.eqb_neq in Hdt. rewrite Hdt, Hall. reflexivity.
Qed.

Lemma fetch_file_data_missing (e n : Z) (d data_type year id : string)
    (ro bc sw pol : option string) (r : runtime World) :
  data_type <> "L3" ->
  all [truthy_str ro; truthy_str bc; truthy_str sw; truthy_str pol] = false ->
  fetch_file_data e n d data_type year id ro bc sw pol r =
  ((None, None),
   mk (world r) (ui r ++ [StError ("Missing parameters for " ++ data_type ++ " download")])
      (session r)).
Proof.
  intros Hdt Hall. unfold fetch_file_data.
  apply String.eqb_neq in Hdt. rewrite Hdt, Hall. reflexivity.
Qed.

(** *** One turn of a batch loop *)

Lemma l3_batch_step_spec (year id_value : string) (total_tasks e n : Z) (d : string)
    (fd : files) (tc : Z) (r : runtime World) :
  exists res tr w',
    l3_batch_step year id_value total_tasks e n d (fd, tc) r =
    ((keep fd res, tc + 1), mk w' (ui r ++ tr) (session r))
    /\ step_post (l3_label e n d (tc + 1) total_tasks)
                 (l3_task_prefix year (e, n, d))
                 [l3_task_url year id_value (e, n, d)] res tr.
Proof.
  destruct (fetch_spec (filename_prefix_L3 "L3" e n d year)
              (BASE_URL_L3 "L3" e n d year id_value)
              (mk (world r)
                  (ui r ++ [Progress (tc + 1) total_tasks;
                            StatusText (l3_label e n d (tc + 1) total_tasks)])
                  (session r)))
    as (res & oc & w' & Hf & Ho).
  exists res,
    [Progress (tc + 1) total_tasks; StatusText (l3_label e n d (tc + 1) total_tasks);
     StSpinner ("Fetching " ++ filename_prefix_L3 "L3" e n d year ++ "...");
     HttpGet (BASE_URL_L3 "L3" e n d year id_value); oc; Sleep 1], w'.
  split.
  - unfold l3_batch_step, bind, progress, status_text, sleep, emit, ret. cbn.
    rewrite fetch_file_data_L3. rewrite <- app_assoc. cbn [app].
    unfold mk in Hf. cbn in Hf. rewrite Hf. cbn.
    unfold mk. rewrite <- !app_assoc. reflexivity.
  - destruct Ho; solve_step_post.
Qed.

Lemma l2_batch_step_spec (data_type year id_value : string) (total o b : Z)
    (s p : string) (fd : files) (tc : Z) (r : runtime World) :
  data_type <> "L3" ->
  exists res tr w',
    l2_batch_step data_type year id_value total o b s p (fd, tc) r =
    ((keep fd res, tc + 1), mk w' (ui r ++ tr) (session r))
    /\ step_post (l2_label data_type (format_0d 3 o) (format_0d 4 b) s p (tc + 1) total)
                 (l2_task_prefix data_type year (o, b, s, p))
                 (l2_task_urls data_type year id_value (o, b, s, p)) res tr.
Proof.
  intros Hdt.
  set (lbl := l2_label data_type (format_0d 3 o) (format_0d 4 b) s p (tc + 1) total).
  set (r1 := mk (world r) (ui r ++ [Progress (tc + 1) total; StatusText lbl]) (session r)).
  assert (Hstep : forall res r2,
             fetch_file_data 0 0 "" data_type year id_value
               (Some (format_0d 3 o)) (Some (format_0d 4 b)) (Some s) (Some p) r1
             = (res, r2) ->
             l2_batch_step data_type year id_value total o b s p (fd, tc) r =
             ((keep fd res, tc + 1), mk (world r2) (ui r2 ++ [Sleep 1]) (session r2))).
  { intros res r2 Hf.
    unfold l2_batch_step, bind, progress, status_text, sleep, emit, ret. cbn.
    rewrite <- app_assoc. cbn [app]. fold lbl. fold r1.
    unfold mk in r1. fold r1. rewrite Hf. reflexivity. }
  destruct (all [truthy_str (Some (format_0d 3 o)); truthy_str (Some (format_0d 4 b));
                 truthy_str (Some s); truthy_str (Some p)]) eqn:Hall.
  - destruct (fetch_spec
                (filename_prefix_L2 data_type (Some (format_0d 3 o))
                   (Some (format_0d 4 b)) (Some s) (Some p) year)
                (url_L2 data_type (Some (format_0d 3 o)) (Some (format_0d 4 b))
                   (Some s) (Some p) year id_value) r1)
      as (res & oc & w' & Hf & Ho).
    rewrite <- (fetch_file_data_L2 0 0 "" _ _ _ _ _ _ _ _ Hdt Hall) in Hf.
    exists res,
      [Progress (tc + 1) total; StatusText lbl;
       StSpinner ("Fetching " ++ filename_prefix_L2 data_type (Some (format_0d 3 o))
                    (Some (format_0d 4 b)) (Some s) (Some p) year ++ "...");
       HttpGet (url_L2 data_type (Some (format_0d 3 o)) (Some (format_0d 4 b))
                  (Some s) (Some p) year id_value); oc; Sleep 1], w'.
    split.
    + rewrite (Hstep _ _ Hf). unfold mk, r1. cbn. rewrite <- !app_assoc. reflexivity.
    + unfold l2_task_urls, l2_task_prefix, l2_task_args. rewrite Hall.
      destruct Ho; solve_step_post.
  - assert (Hf := fetch_file_data_missing 0 0 "" data_type year id_value
                    _ _ _ _ r1 Hdt Hall).
    exists (None, None),
      [Progress (tc + 1) total; StatusText lbl;
       StError ("Missing parameters for " ++ data_type ++ " download"); Sleep 1],
      (world r).
    split.
    + rewrite (Hstep _ _ Hf). unfold mk, r1. cbn. rewrite <- !app_assoc. reflexivity.
    + unfold l2_task_urls, l2_task_prefix, l2_task_args. rewrite Hall.
      solve_step_post.
Qed.

(** *** A loop of such turns *)

Section Loop.

Context {A : Type}.
Variable step : A -> files * Z -> M (files * Z).
Variable post : A -> Z -> option bytes * option string -> list event -> Prop.

Hypothesis step_spec :
  forall x fd tc r, exists res tr w',
    step x (fd, tc) r = ((keep fd res, tc + 1), mk w' (ui r ++ tr) (session r))
    /\ post x (tc + 1) res tr.

(** The loop runs every turn, whatever the turns return. *)
Lemma for_each_run (xs : list A) :
  forall fd tc r, exists ress trs w',
    for_each xs step (fd, tc) r =
    ((fold_left keep ress fd, tc + len xs), mk w' (ui r ++ trs) (session r))
    /\ run_post post xs tc ress trs.
Proof.
  induction xs as [|x xs IH]; intros fd tc r.
  - exists [], [], (world r). split; [|constructor].
    cbn. unfold ret, mk, len. cbn. rewrite app_nil_r, Z.add_0_r.
    destruct r; reflexivity.
  - destruct (step_spec x fd tc r) as (res & tr & w1 & Hs & Hp).
    destruct (IH (keep fd res) (tc + 1) (mk w1 (ui r ++ tr) (session r)))
      as (ress & trs & w2 & Hl & Hr).
    exists (res :: ress), (tr ++ trs)%list, w2. split.
    + cbn [for_each]. unfold bind. rewrite Hs, Hl. cbn.
      rewrite <- app_assoc. unfold len.
      f_equal. f_equal. lia.
    + now constructor.
Qed.

End Loop.

Lemma filter_map_app {A B} (f : A -> option B) (xs ys : list A) :
  filter_map f (xs ++ ys) = (filter_map f xs ++ filter_map f ys)%list.
Proof.
  induction xs as [|x xs IH]; cbn; [reflexivity|].
  destruct (f x); cbn; now rewrite IH.
Qed.

Lemma keep_app (fd : files) (res : option bytes * option string) :
  keep fd res = (fd ++ keep [] res)%list.
Proof.
  unfold keep. destruct (fetched_ok res); [|now rewrite app_nil_r].
  destruct (snd res); [reflexivity|now rewrite app_nil_r].
Qed.

Lemma fold_keep (ress : list (option bytes * option string)) :
  forall fd, fold_left keep ress fd = (fd ++ kept ress)%list.
Proof.
  induction ress as [|res ress IH]; intros fd; cbn [fold_left kept].
  - now rewrite app_nil_r.
  - rewrite IH, (keep_app fd res), <- app_assoc. reflexivity.
Qed.

Lemma keep_failed (fd : files) : keep fd (None, None) = fd.
Proof. reflexivity. Qed.

(** *** What a run leaves in the trace and in [files_data] *)

Section Runs.

Context {A : Type}.
Variable label : A -> Z -> string.
Variable prefix_of : A -> string.
Variable urls_of : A -> list string.

Local Abbreviation post :=
  (fun (x : A) (k : Z) (res : option bytes * option string) (tr : list event) =>
     step_post (label x k) (prefix_of x) (urls_of x) res tr).

Lemma run_status_lines xs tc ress trs :
  run_post post xs tc ress trs -> status_lines trs = labels_from label xs tc.
Proof.
  induction 1 as [|x xs tc res tr ress trs Hp _ IH]; [reflexivity|].
  unfold status_lines in *. rewrite filter_map_app, IH.
  destruct Hp as (Hl & _). unfold status_lines in Hl. now rewrite Hl.
Qed.

Lemma run_requested xs tc ress trs :
  run_post post xs tc ress trs -> requested trs = flat_map urls_of xs.
Proof.
  induction 1 as [|x xs tc res tr ress trs Hp _ IH]; [reflexivity|].
  unfold requested in *. rewrite filter_map_app, IH.
  destruct Hp as (_ & Hu & _). unfold requested in Hu. now rewrite Hu.
Qed.

Lemma run_outcomes xs tc ress trs :
  run_post post xs tc ress trs ->
  List.length (filter is_outcome trs) = List.length xs.
Proof.
  induction 1 as [|x xs tc res tr ress trs Hp _ IH]; [reflexivity|].
  rewrite filter_app, length_app, IH.
  destruct Hp as (_ & _ & _ & oc & Ho & _). now rewrite Ho.
Qed.

Lemma run_sleeps xs tc ress trs :
  run_post post xs tc ress trs ->
  filter is_sleep trs = repeat (Sleep 1) (List.length xs).
Proof.
  induction 1 as [|x xs tc res tr ress trs Hp _ IH]; [reflexivity|].
  rewrite filter_app, IH.
  destruct Hp as (_ & _ & Hs & _). now rewrite Hs.
Qed.

Lemma run_results xs tc ress trs :
  run_post post xs tc ress trs -> List.length ress = List.length xs.
Proof. induction 1; cbn; congruence. Qed.

Lemma outcome_success (oc : event) (tr : list event) :
  filter is_outcome tr = [oc] -> filter is_success tr = filter is_success [oc].
Proof.
  intros H. rewrite <- H. clear H.
  induction tr as [|ev tr IH]; [reflexivity|].
  destruct ev; cbn; try exact IH; now rewrite <- IH.
Qed.

Lemma outcome_error (oc : event) (tr : list event) :
  filter is_outcome tr = [oc] -> filter is_error tr = filter is_error [oc].
Proof.
  intros H. rewrite <- H. clear H.
  induction tr as [|ev tr IH]; [reflexivity|].
  destruct ev; cbn; try exact IH; now rewrite <- IH.
Qed.

(** A run in which no task reports success keeps nothing and reports one
    error per task. *)
Lemma run_all_failed xs tc ress trs :
  run_post post xs tc ress trs ->
  filter is_success trs = [] ->
  kept ress = [] /\ List.length (filter is_error trs) = List.length xs.
Proof.
  induction 1 as [|x xs tc res tr ress trs Hp _ IH]; [now split|].
  rewrite filter_app. intros Hnone.
  apply app_eq_nil in Hnone. destruct Hnone as [Htr Htrs].
  destruct (IH Htrs) as [Hk He].
  destruct Hp as (_ & _ & _ & oc & Ho & Hf).
  rewrite (outcome_success _ _ Ho) in Htr.
  rewrite filter_app, length_app, He, (outcome_error _ _ Ho).
  destruct Hf; [|discriminate].
  cbn. now rewrite Hk.
Qed.

(** What is kept follows the order of the tasks. *)
Lemma run_in_order xs tc ress trs :
  run_post post xs tc ress trs -> in_order_of (kept ress) (map prefix_of xs).
Proof.
  induction 1 as [|x xs tc res tr ress trs Hp _ IH]; [constructor|].
  destruct Hp as (_ & _ & _ & oc & _ & Hf).
  cbn [kept map]. destruct Hf as [msg|data name Hpay].
  - cbn. now constructor.
  - unfold keep. destruct (fetched_ok (Some data, Some name)).
    + cbn. now constructor.
    + cbn. now constructor.
Qed.

End Runs.

(** *** Nested loops and the order of their turns *)

Lemma for_each_ext {A S} (xs : list A) (b1 b2 : A -> S -> M S) :
  (forall x s r, b1 x s r = b2 x s r) ->
  forall s r, for_each xs b1 s r = for_each xs b2 s r.
Proof.
  intros Hb. induction xs as [|x xs IH]; intros s r; [reflexivity|].
  cbn [for_each]. unfold bind. rewrite Hb.
  destruct (b2 x s r) as [s' r']. apply IH.
Qed.

Lemma for_each_app {A S} (xs ys : list A) (body : A -> S -> M S) :
  forall s r,
    for_each (xs ++ ys) body s r =
    let (s', r') := for_each xs body s r in for_each ys body s' r'.
Proof.
  induction xs as [|x xs IH]; intros s r; [reflexivity|].
  cbn [for_each app]. unfold bind.
  destruct (body x s r) as [s' r']. apply IH.
Qed.

Lemma for_each_map {A B S} (f : A -> B) (xs : list A) (body : B -> S -> M S) :
  forall s r, for_each (map f xs) body s r = for_each xs (fun x => body (f x)) s r.
Proof.
  induction xs as [|x xs IH]; intros s r; [reflexivity|].
  cbn [for_each map]. unfold bind.
  destruct (body (f x) s r) as [s' r']. apply IH.
Qed.

(** Two nested loops are one loop over the pairs, first component slowest. *)
Lemma for_each_prod {A B S} (xs : list A) (ys : list B) (body : A -> B -> S -> M S) :
  forall s r,
    for_each xs (fun x => for_each ys (body x)) s r =
    for_each (list_prod xs ys) (fun p => body (fst p) (snd p)) s r.
Proof.
  induction xs as [|x xs IH]; intros s r; [reflexivity|].
  cbn [for_each list_prod]. rewrite for_each_app, for_each_map. unfold bind.
  cbn [fst snd].
  replace (for_each ys (fun y => body x y) s r) with (for_each ys (body x) s r)
    by reflexivity.
  destruct (for_each ys (body x) s r) as [s' r']. apply IH.
Qed.

Lemma map_nth_seq {A} (ys : list A) (d : A) :
  map (fun k => nth k ys d) (seq 0 (List.length ys)) = ys.
Proof.
  induction ys as [|y ys IH]; [reflexivity|].
  cbn [List.length seq map nth]. f_equal.
  rewrite <- seq_shift, map_map. exact IH.
Qed.

Lemma list_prod_nil_r {A B} (xs : list A) : list_prod xs (@nil B) = [].
Proof. induction xs; [reflexivity|exact IHxs]. Qed.

(** The [k]-th pair of [list_prod] is at row [k / |ys|], column [k mod |ys|]. *)
Lemma list_prod_at {A B} (xs : list A) (ys : list B) (dx : A) (dy : B) :
  list_prod xs ys =
  map (fun k => (nth (k / List.length ys) xs dx, nth (k mod List.length ys) ys dy))
      (seq 0 (List.length xs * List.length ys)).
Proof.
  destruct ys as [|y0 ys0] eqn:Eys.
  { rewrite list_prod_nil_r, Nat.mul_0_r. reflexivity. }
  rewrite <- Eys.
  assert (Hpos : List.length ys <> 0%nat) by (subst ys; discriminate).
  clear Eys y0 ys0.
  induction xs as [|x xs IH]; [reflexivity|].
  cbn [list_prod List.length Nat.mul]. rewrite seq_app, map_app. f_equal.
  - rewrite <- (map_nth_seq ys dy) at 1. rewrite map_map.
    apply map_ext_in. intros k Hk. apply in_seq in Hk.
    rewrite Nat.div_small, Nat.mod_small by lia. reflexivity.
  - rewrite IH. cbn [Nat.add].
    replace (seq (List.length ys) (List.length xs * List.length ys))
      with (map (Nat.add (List.length ys)) (seq 0 (List.length xs * List.length ys))).
    + rewrite map_map. apply map_ext. intros k.
      replace (List.length ys + k)%nat with (k + 1 * List.length ys)%nat by lia.
      rewrite Nat.div_add, Nat.Div0.mod_add by exact Hpos.
      replace (k / List.length ys + 1)%nat with (S (k / List.length ys)) by lia.
      reflexivity.
    + generalize (List.length xs * List.length ys)%nat as m.
      generalize (List.length ys) as a. intros a m. clear.
      rewrite <- (Nat.add_0_r a) at 2. generalize 0%nat as s0.
      induction m as [|m IHm]; intros s0; [reflexivity|].
      cbn [seq map]. f_equal. rewrite IHm. f_equal. lia.
Qed.

Lemma py_range_length (lo hi : Z) : List.length (py_range lo (hi + 1)) = span lo hi.
Proof. unfold py_range, span. now rewrite length_map, length_seq. Qed.

Lemma nth_map_seq {A} (f : nat -> A) (m j : nat) (d : A) :
  (j < m)%nat -> nth j (map f (seq 0 m)) d = f j.
Proof.
  intros Hj. rewrite (nth_indep _ d (f 0%nat)) by now rewrite length_map, length_seq.
  rewrite map_nth, seq_nth by exact Hj. reflexivity.
Qed.

Lemma py_range_nth (lo hi : Z) (i : nat) :
  (i < span lo hi)%nat -> nth i (py_range lo (hi + 1)) 0 = lo + Z.of_nat i.
Proof.
  intros Hi. unfold py_range. fold (span lo hi).
  now rewrite (nth_map_seq (fun i => lo + Z.of_nat i)).
Qed.

Lemma div_bound (k a b : nat) : (k < a * b)%nat -> (k / b < a)%nat.
Proof.
  intros H. apply Nat.Div0.div_lt_upper_bound. now rewrite Nat.mul_comm.
Qed.

Lemma mod_bound (k a b : nat) : (k < a * b)%nat -> (k mod b < b)%nat.
Proof. intros H. apply Nat.mod_upper_bound. destruct b; lia. Qed.

(** The nested loops of lines 343-345 enumerate [l3_tasks]. *)
Lemma l3_nested_tasks (min_e max_e min_n max_n : Z) (ds : list string) :
  list_prod (list_prod (py_range min_e (max_e + 1)) (py_range min_n (max_n + 1))) ds
  = l3_tasks min_e max_e min_n max_n ds.
Proof.
  rewrite (list_prod_at _ ds (0, 0) "").
  rewrite length_prod, !py_range_length.
  unfold l3_tasks. apply map_ext_in. intros k Hk. apply in_seq in Hk.
  destruct Hk as [_ Hk]. cbn [Nat.add] in Hk.
  unfold l3_task_at.
  rewrite (list_prod_at _ _ 0 0), !py_range_length.
  assert (H1 : (k / List.length ds < span min_e max_e * span min_n max_n)%nat)
    by now apply div_bound.
  rewrite nth_map_seq by exact H1.
  rewrite !py_range_nth by (first [now apply div_bound | now apply (mod_bound _ _ _ H1)]).
  rewrite Nat.Div0.div_div, (Nat.mul_comm (List.length ds)). reflexivity.
Qed.

(** The nested loops of lines 439-442 enumerate [l2_tasks]. *)
Lemma l2_nested_tasks (min_o max_o min_b max_b : Z) (ss ps : list string) :
  list_prod (list_prod (list_prod (py_range min_o (max_o + 1))
                                  (py_range min_b (max_b + 1))) ss) ps
  = l2_tasks min_o max_o min_b max_b ss ps.
Proof.
  rewrite (list_prod_at _ ps (0, 0, "") "").
  rewrite !length_prod, !py_range_length.
  unfold l2_tasks. apply map_ext_in. intros k Hk. apply in_seq in Hk.
  destruct Hk as [_ Hk]. cbn [Nat.add] in Hk.
  unfold l2_task_at.
  assert (H1 : (k / List.length ps
                < span min_o max_o * span min_b max_b * List.length ss)%nat)
    by now apply div_bound.
  rewrite (list_prod_at _ ss (0, 0) ""), length_prod, !py_range_length.
  rewrite nth_map_seq by exact H1.
  assert (H2 : (k / List.length ps / List.length ss
                < span min_o max_o * span min_b max_b)%nat)
    by now apply div_bound.
  rewrite (list_prod_at _ _ 0 0), !py_range_length.
  rewrite nth_map_seq by exact H2.
  rewrite !py_range_nth by (first [now apply div_bound | now apply (mod_bound _ _ _ H2)]).
  rewrite !Nat.Div0.div_div.
  replace (List.length ps * (List.length ss * span min_b max_b))%nat
    with (span min_b max_b * List.length ss * List.length ps)%nat by lia.
  replace (List.length ps * List.length ss)%nat
    with (List.length ss * List.length ps)%nat by lia.
  reflexivity.
Qed.

(** The nested loops are one loop over the enumerated tasks. *)
Lemma l3_batch_loop_flat (min_e max_e min_n max_n : Z) (ds : list string)
    (year id_value : string) (total_tasks : Z) (s : files * Z) (r0 : runtime World) :
  l3_batch_loop min_e max_e min_n max_n ds year id_value total_tasks s r0 =
  for_each (l3_tasks min_e max_e min_n max_n ds)
           (l3_task_step year id_value total_tasks) s r0.
Proof.
  unfold l3_batch_loop, l3_task_step. rewrite <- l3_nested_tasks.
  etransitivity.
  { apply (for_each_prod _ _
             (fun e n => for_each ds (fun d =>
                l3_batch_step year id_value total_tasks e n d))). }
  apply (for_each_prod _ _
           (fun p d => l3_batch_step year id_value total_tasks (fst p) (snd p) d)).
Qed.

Lemma l2_batch_loop_flat (min_o max_o min_b max_b : Z) (ss ps : list string)
    (data_type year id_value : string) (total : Z) (s : files * Z) (r0 : runtime World) :
  l2_batch_loop min_o max_o min_b max_b ss ps data_type year id_value total s r0 =
  for_each (l2_tasks min_o max_o min_b max_b ss ps)
           (l2_task_step data_type year id_value total) s r0.
Proof.
  unfold l2_batch_loop, l2_task_step. rewrite <- l2_nested_tasks.
  etransitivity.
  { apply (for_each_prod _ _
             (fun o b => for_each ss (fun sw => for_each ps (fun pol =>
                l2_batch_step data_type year id_value total o b sw pol)))). }
  etransitivity.
  { apply (for_each_prod _ _
             (fun q sw => for_each ps (fun pol =>
                l2_batch_step data_type year id_value total (fst q) (snd q) sw pol))). }
  apply (for_each_prod _ _
           (fun q pol => l2_batch_step data_type year id_value total
                           (fst (fst q)) (snd (fst q)) (snd q) pol)).
Qed.

Lemma l3_task_step_spec (year id_value : string) (total_tasks : Z)
    (t : Z * Z * string) (fd : files) (tc : Z) (r : runtime World) :
  exists res tr w',
    l3_task_step year id_value total_tasks t (fd, tc) r =
    ((keep fd res, tc + 1), mk w' (ui r ++ tr) (session r))
    /\ step_post (l3_task_label total_tasks t (tc + 1))
                 (l3_task_prefix year t) [l3_task_url year id_value t] res tr.
Proof.
  destruct t as [[e n] d].
  exact (l3_batch_step_spec year id_value total_tasks e n d fd tc r).
Qed.

(** The grid loop, as one run over [l3_tasks]. *)
Lemma l3_batch_loop_run (min_e max_e min_n max_n : Z) (ds : list string)
    (year id_value : string) (total_tasks : Z) (fd : files) (tc : Z) (r : runtime World) :
  exists ress trs w',
    l3_batch_loop min_e max_e min_n max_n ds year id_value total_tasks (fd, tc) r =
    (((fd ++ kept ress)%list, tc + len (l3_tasks min_e max_e min_n max_n ds)),
     mk w' (ui r ++ trs) (session r))
    /\ run_post (fun t k => step_post (l3_task_label total_tasks t k)
                              (l3_task_prefix year t) [l3_task_url year id_value t])
                (l3_tasks min_e max_e min_n max_n ds) tc ress trs.
Proof.
  rewrite l3_batch_loop_flat.
  destruct (for_each_run (l3_task_step year id_value total_tasks)
              (fun t k => step_post (l3_task_label total_tasks t k)
                            (l3_task_prefix year t) [l3_task_url year id_value t])
              (l3_task_step_spec year id_value total_tasks)
              (l3_tasks min_e max_e min_n max_n ds) fd tc r)
    as (ress & trs & w' & Hrun & Hpost).
  exists ress, trs, w'. split; [|exact Hpost].
  rewrite Hrun, fold_keep. reflexivity.
Qed.

Lemma l2_task_step_spec (data_type year id_value : string) (total : Z)
    (t : Z * Z * string * string) (fd : files) (tc : Z) (r : runtime World) :
  data_type <> "L3" ->
  exists res tr w',
    l2_task_step data_type year id_value total t (fd, tc) r =
    ((keep fd res, tc + 1), mk w' (ui r ++ tr) (session r))
    /\ step_post (l2_task_label data_type total t (tc + 1))
                 (l2_task_prefix data_type year t)
                 (l2_task_urls data_type year id_value t) res tr.
Proof.
  intros Hdt. destruct t as [[[o b] sw] pol].
  exact (l2_batch_step_spec data_type year id_value total o b sw pol fd tc r Hdt).
Qed.

(** The orbit loop, as one run over [l2_tasks]. *)
Lemma l2_batch_loop_run (min_o max_o min_b max_b : Z) (ss ps : list string)
    (data_type year id_value : string) (total : Z) (fd : files) (tc : Z)
    (r : runtime World) :
  data_type <> "L3" ->
  exists ress trs w',
    l2_batch_loop min_o max_o min_b max_b ss ps data_type year id_value total (fd, tc) r =
    (((fd ++ kept ress)%list, tc + len (l2_tasks min_o max_o min_b max_b ss ps)),
     mk w' (ui r ++ trs) (session r))
    /\ run_post (fun t k => step_post (l2_task_label data_type total t k)
                              (l2_task_prefix data_type year t)
                              (l2_task_urls data_type year id_value t))
                (l2_tasks min_o max_o min_b max_b ss ps) tc ress trs.
Proof.
  intros Hdt. rewrite l2_batch_loop_flat.
  destruct (for_each_run (l2_task_step data_type year id_value total)
              (fun t k => step_post (l2_task_label data_type total t k)
                            (l2_task_prefix data_type year t)
                            (l2_task_urls data_type year id_value t))
              (fun t fd0 tc0 r0 =>
                 l2_task_step_spec data_type year id_value total t fd0 tc0 r0 Hdt)
              (l2_tasks min_o max_o min_b max_b ss ps) fd tc r)
    as (ress & trs & w' & Hrun & Hpost).
  exists ress, trs, w'. split; [|exact Hpost].
  rewrite Hrun, fold_keep. reflexivity.
Qed.

Lemma flat_map_singleton {A B} (f : A -> B) (l : list A) :
  flat_map (fun x => [f x]) l = map f l.
Proof. induction l as [|x l IH]; [reflexivity|]. cbn. now rewrite IH. Qed.

(** *** The ways one task fails *)

Lemma fetch_transport_error (filename_prefix url : string) (r : runtime World) (e : exn)
    (w' : World) :
  curl_get url (world r) = (inl e, w') ->
  fetch filename_prefix url r =
  ((None, None),
   mk w' (ui r ++ [StSpinner ("Fetching " ++ filename_prefix ++ "..."); HttpGet url;
                   StError ("Error fetching " ++ filename_prefix ++ ": " ++ e)])
      (session r)).
Proof.
  intros Hget.
  unfold fetch, try_except, try_body, bindT, liftT, st_spinner, http_get, emit.
  cbn. rewrite Hget. cbn. rewrite <- !app_assoc. reflexivity.
Qed.

Lemma fetch_corrupt_archive (filename_prefix url : string) (r : runtime World)
    (resp : response) (e : exn) (w' : World) :
  curl_get url (world r) = (inr resp, w') ->
  status_code resp = 200 ->
  ZipFile (content resp) = inl e ->
  fetch filename_prefix url r =
  ((None, None),
   mk w' (ui r ++ [StSpinner ("Fetching " ++ filename_prefix ++ "..."); HttpGet url;
                   StError ("Error fetching " ++ filename_prefix ++ ": " ++ e)])
      (session r)).
Proof.
  intros Hget Hcode Hzip.
  unfold fetch, try_except, try_body, bindT, liftT, st_spinner, http_get, emit.
  cbn. rewrite Hget. cbn. rewrite Hcode. cbn.
  unfold open_zip. rewrite Hzip. cbn. rewrite <- !app_assoc. reflexivity.
Qed.

Lemma fetch_unreadable_member (filename_prefix url : string) (r : runtime World)
    (resp : response) (w' : World) (z : archive) (name : string) (e : exn) :
  curl_get url (world r) = (inr resp, w') ->
  status_code resp = 200 ->
  ZipFile (content resp) = inr z ->
  find (is_payload filename_prefix) (namelist z) = Some name ->
  zread z name = Some (inl e) ->
  fetch filename_prefix url r =
  ((None, None),
   mk w' (ui r ++ [StSpinner ("Fetching " ++ filename_prefix ++ "..."); HttpGet url;
                   StError ("Error fetching " ++ filename_prefix ++ ": " ++ e)])
      (session r)).
Proof.
  intros Hget Hcode Hzip Hfind Hread.
  rewrite (fetch_200 _ _ _ _ _ _ Hget Hcode Hzip). cbn zeta.
  rewrite Hfind, Hread, <- app_assoc. reflexivity.
Qed.

(** *** The loops against the batch result *)

Lemma payload_of_name (filename_prefix url : string) (w : World) (name : string)
    (data : bytes) :
  payload_of filename_prefix url w = Some (name, data) ->
  is_payload filename_prefix name = true.
Proof.
  unfold payload_of. destruct (fst (curl_get url w)) as [e|resp]; [discriminate|].
  destruct (status_code resp =? 200); [|discriminate].
  destruct (ZipFile (content resp)) as [e|z]; [discriminate|].
  destruct (find (is_payload filename_prefix) (namelist z)) as [nm|] eqn:Hfind;
    [|discriminate].
  destruct (zread z nm) as [[e|b]|]; try discriminate.
  intros H. inversion H; subst. apply find_some in Hfind. exact (proj2 Hfind).
Qed.

(** One fetch returns the payload of its request, and leaves the world the
    request leaves. *)
Lemma fetch_payload (filename_prefix url : string) (r : runtime World) :
  exists oc,
    fetch filename_prefix url r =
    (returned (payload_of filename_prefix url (world r)),
     mk (snd (curl_get url (world r)))
        (ui r ++ [StSpinner ("Fetching " ++ filename_prefix ++ "..."); HttpGet url; oc])
        (session r)).
Proof.
  unfold payload_of.
  destruct (curl_get url (world r)) as [[e|resp] w'] eqn:Hget; cbn [fst snd].
  - eexists. exact (fetch_transport_error _ _ _ _ _ Hget).
  - destruct (Z.eq_dec (status_code resp) 200) as [Hcode|Hcode].
    + rewrite (proj2 (Z.eqb_eq _ _) Hcode).
      destruct (ZipFile (content resp)) as [e|z] eqn:Hzip.
      * eexists. exact (fetch_corrupt_archive _ _ _ _ _ _ Hget Hcode Hzip).
      * rewrite (fetch_200 _ _ _ _ _ _ Hget Hcode Hzip). cbn zeta.
        destruct (find (is_payload filename_prefix) (namelist z)) as [name|].
        -- destruct (zread z name) as [[e|b]|];
             eexists; cbn [returned]; rewrite <- app_assoc; reflexivity.
        -- eexists. cbn [returned]. rewrite <- app_assoc. reflexivity.
    + rewrite (proj2 (Z.eqb_neq _ _) Hcode).
      eexists. exact (fetch_not_200 _ _ _ _ _ Hget Hcode).
Qed.

(** The callers' test keeps exactly the payloads of at least one byte. *)
Lemma keep_returned (filename_prefix : string) (found : option (string * bytes))
    (fd : files) :
  (forall name data, found = Some (name, data) -> is_payload filename_prefix name = true) ->
  keep fd (returned found) = (fd ++ as_files (success_of found))%list.
Proof.
  intros Hname. destruct found as [[name data]|]; cbn [returned success_of].
  - destruct data as [|b data].
    + cbn. now rewrite app_nil_r.
    + unfold keep, fetched_ok. cbn [fst snd truthy_bytes andb].
      rewrite (payload_name_nonempty _ _ (Hname _ _ eq_refl)). reflexivity.
  - cbn. now rewrite app_nil_r.
Qed.

Lemma keep_fetched (filename_prefix url : string) (w : World) (fd : files) :
  keep fd (returned (payload_of filename_prefix url w))
  = (fd ++ as_files (success_of (payload_of filename_prefix url w)))%list.
Proof.
  apply (keep_returned filename_prefix). intros name data H.
  exact (payload_of_name _ _ _ _ _ H).
Qed.

(** One turn of the grid loop adds the success of its task, if any. *)
Lemma l3_task_step_exact (year id_value : string) (total_tasks : Z)
    (t : Z * Z * string) (fd : files) (tc : Z) (r : runtime World) :
  exists tr,
    l3_task_step year id_value total_tasks t (fd, tc) r =
    (((fd ++ as_files (success_of (fst (task_payload (l3_task_prefix year t)
                                          [l3_task_url year id_value t] (world r)))))%list,
      tc + 1),
     mk (snd (task_payload (l3_task_prefix year t) [l3_task_url year id_value t] (world r)))
        (ui r ++ tr) (session r)).
Proof.
  destruct t as [[e n] d]. unfold l3_task_step.
  cbn [fst snd task_payload l3_task_prefix l3_task_url].
  destruct (fetch_payload (filename_prefix_L3 "L3" e n d year)
              (BASE_URL_L3 "L3" e n d year id_value)
              (mk (world r)
                  (ui r ++ [Progress (tc + 1) total_tasks;
                            StatusText (l3_label e n d (tc + 1) total_tasks)])
                  (session r)))
    as [oc Hf].
  exists [Progress (tc + 1) total_tasks; StatusText (l3_label e n d (tc + 1) total_tasks);
          StSpinner ("Fetching " ++ filename_prefix_L3 "L3" e n d year ++ "...");
          HttpGet (BASE_URL_L3 "L3" e n d year id_value); oc; Sleep 1].
  unfold l3_batch_step, bind, progress, status_text, sleep, emit, ret. cbn.
  rewrite fetch_file_data_L3. rewrite <- app_assoc. cbn [app].
  unfold mk in Hf. cbn in Hf. rewrite Hf. cbn.
  rewrite keep_fetched. unfold mk. rewrite <- !app_assoc. reflexivity.
Qed.

(** One turn of the orbit loop does the same; a task with a missing
    parameter makes no request and adds nothing. *)
Lemma l2_task_step_exact (data_type year id_value : string) (total : Z)
    (t : Z * Z * string * string) (fd : files) (tc : Z) (r : runtime World) :
  data_type <> "L3" ->
  exists tr,
    l2_task_step data_type year id_value total t (fd, tc) r =
    (((fd ++ as_files (success_of (fst (task_payload (l2_task_prefix data_type year t)
                                          (l2_task_urls data_type year id_value t)
                                          (world r)))))%list,
      tc + 1),
     mk (snd (task_payload (l2_task_prefix data_type year t)
                (l2_task_urls data_type year id_value t) (world r)))
        (ui r ++ tr) (session r)).
Proof.
  intros Hdt. destruct t as [[[o b] s] p]. unfold l2_task_step. cbn [fst snd].
  set (lbl := l2_label data_type (format_0d 3 o) (format_0d 4 b) s p (tc + 1) total).
  set (r1 := mk (world r) (ui r ++ [Progress (tc + 1) total; StatusText lbl]) (session r)).
  assert (Hstep : forall res r2,
             fetch_file_data 0 0 "" data_type year id_value
               (Some (format_0d 3 o)) (Some (format_0d 4 b)) (Some s) (Some p) r1
             = (res, r2) ->
             l2_batch_step data_type year id_value total o b s p (fd, tc) r =
             ((keep fd res, tc + 1), mk (world r2) (ui r2 ++ [Sleep 1]) (session r2))).
  { intros res r2 Hf.
    unfold l2_batch_step, bind, progress, status_text, sleep, emit, ret. cbn.
    rewrite <- app_assoc. cbn [app]. fold lbl. fold r1.
    unfold mk in r1. fold r1. rewrite Hf. reflexivity. }
  unfold l2_task_urls, l2_task_prefix, l2_task_args.
  destruct (all [truthy_str (Some (format_0d 3 o)); truthy_str (Some (format_0d 4 b));
                 truthy_str (Some s); truthy_str (Some p)]) eqn:Hall.
  - destruct (fetch_payload
                (filename_prefix_L2 data_type (Some (format_0d 3 o))
                   (Some (format_0d 4 b)) (Some s) (Some p) year)
                (url_L2 data_type (Some (format_0d 3 o)) (Some (format_0d 4 b))
                   (Some s) (Some p) year id_value) r1)
      as [oc Hf].
    rewrite <- (fetch_file_data_L2 0 0 "" _ _ _ _ _ _ _ _ Hdt Hall) in Hf.
    exists [Progress (tc + 1) total; StatusText lbl;
            StSpinner ("Fetching " ++ filename_prefix_L2 data_type (Some (format_0d 3 o))
                         (Some (format_0d 4 b)) (Some s) (Some p) year ++ "...");
            HttpGet (url_L2 data_type (Some (format_0d 3 o)) (Some (format_0d 4 b))
                       (Some s) (Some p) year id_value); oc; Sleep 1].
    rewrite (Hstep _ _ Hf). cbn [task_payload fst snd].
    rewrite keep_fetched. unfold mk, r1. cbn. rewrite <- !app_assoc. reflexivity.
  - assert (Hf := fetch_file_data_missing 0 0 "" data_type year id_value
                    _ _ _ _ r1 Hdt Hall).
    exists [Progress (tc + 1) total; StatusText lbl;
            StError ("Missing parameters for " ++ data_type ++ " download"); Sleep 1].
    rewrite (Hstep _ _ Hf). cbn [task_payload fst snd success_of as_files map].
    rewrite keep_failed, app_nil_r.
    unfold mk, r1. cbn. rewrite <- !app_assoc. reflexivity.
Qed.

Section Successes.

Context {A : Type}.
Variable step : A -> files * Z -> M (files * Z).
Variable prefix_of : A -> string.
Variable urls_of : A -> list string.

Hypothesis step_exact :
  forall x fd tc r, exists tr,
    step x (fd, tc) r =
    (((fd ++ as_files (success_of (fst (task_payload (prefix_of x) (urls_of x)
                                          (world r)))))%list,
      tc + 1),
     mk (snd (task_payload (prefix_of x) (urls_of x) (world r)))
        (ui r ++ tr) (session r)).

(** A loop of such turns leaves in [files_data] the successes of its
    tasks, in the order of the tasks. *)
Lemma for_each_successes (xs : list A) :
  forall fd tc r, exists trs w',
    for_each xs step (fd, tc) r =
    (((fd ++ as_files (batch_successes prefix_of urls_of xs (world r)))%list,
      tc + len xs),
     mk w' (ui r ++ trs) (session r)).
Proof.
  induction xs as [|x xs IH]; intros fd tc r.
  - exists [], (world r).
    cbn. unfold ret, mk, len. cbn. rewrite !app_nil_r, Z.add_0_r.
    destruct r; reflexivity.
  - destruct (step_exact x fd tc r) as (tr & Hs).
    cbn [batch_successes for_each]. unfold bind. rewrite Hs.
    destruct (task_payload (prefix_of x) (urls_of x) (world r)) as [found w1].
    cbn [fst snd].
    destruct (IH (fd ++ as_files (success_of found))%list (tc + 1)
                (mk w1 (ui r ++ tr) (session r)))
      as (trs & w2 & Hl).
    exists (tr ++ trs)%list, w2.
    etransitivity; [exact Hl|]. cbn [world ui session mk].
    unfold as_files. rewrite map_app, <- !app_assoc. unfold len.
    cbn [List.length]. rewrite Nat2Z.inj_succ.
    f_equal. f_equal. lia.
Qed.

End Successes.

(** The grid loop leaves the successes of its tasks, in nested order. *)
Lemma l3_batch_loop_successes (min_e max_e min_n max_n : Z) (ds : list string)
    (year id_value : string) (total_tasks : Z) (fd : files) (tc : Z) (r : runtime World) :
  exists trs w',
    l3_batch_loop min_e max_e min_n max_n ds year id_value total_tasks (fd, tc) r =
    (((fd ++ as_files (batch_successes (l3_task_prefix year)
                         (fun t => [l3_task_url year id_value t])
                         (l3_tasks min_e max_e min_n max_n ds) (world r)))%list,
      tc + len (l3_tasks min_e max_e min_n max_n ds)),
     mk w' (ui r ++ trs) (session r)).
Proof.
  rewrite l3_batch_loop_flat.
  exact (for_each_successes (l3_task_step year id_value total_tasks)
           (l3_task_prefix year) (fun t => [l3_task_url year id_value t])
           (l3_task_step_exact year id_value total_tasks)
           (l3_tasks min_e max_e min_n max_n ds) fd tc r).
Qed.

(** The orbit loop leaves the successes of its tasks, in nested order. *)
Lemma l2_batch_loop_successes (min_o max_o min_b max_b : Z) (ss ps : list string)
    (data_type year id_value : string) (total : Z) (fd : files) (tc : Z)
    (r : runtime World) :
  data_type <> "L3" ->
  exists trs w',
    l2_batch_loop min_o max_o min_b max_b ss ps data_type year id_value total (fd, tc) r =
    (((fd ++ as_files (batch_successes (l2_task_prefix data_type year)
                         (l2_task_urls data_type year id_value)
                         (l2_tasks min_o max_o min_b max_b ss ps) (world r)))%list,
      tc + len (l2_tasks min_o max_o min_b max_b ss ps)),
     mk w' (ui r ++ trs) (session r)).
Proof.
  intros Hdt. rewrite l2_batch_loop_flat.
  exact (for_each_successes (l2_task_step data_type year id_value total)
           (l2_task_prefix data_type year) (l2_task_urls data_type year id_value)
           (fun t fd0 tc0 r0 =>
              l2_task_step_exact data_type year id_value total t fd0 tc0 r0 Hdt)
           (l2_tasks min_o max_o min_b max_b ss ps) fd tc r).
Qed.

(** *** The batch loops *)

(** C1. Both batch loops run one turn per enumerated task, in order, and
    reach their end whatever the network and the archives do: the status
    lines are those of all the tasks, numbered consecutively; every task
    leaves exactly one report ([st.error] with the pair [(None, None)], or
    [st.success]) and is followed by its [sleep]; the grid loop requests
    the URL of every task.  The turn-by-turn account is [run_post]. *)
Theorem batch_loops_visit_every_task
    (min_e max_e min_n max_n : Z) (ds : list string)
    (min_o max_o min_b max_b : Z) (ss ps : list string)
    (data_type year id_value : string) (total : Z) (fd : files) (tc : Z)
    (r : runtime World) :
  data_type <> "L3" ->
  (exists ress trs w',
      l3_batch_loop min_e max_e min_n max_n ds year id_value total (fd, tc) r =
      (((fd ++ kept ress)%list, tc + len (l3_tasks min_e max_e min_n max_n ds)),
       mk w' (ui r ++ trs) (session r))
      /\ run_post (fun t k => step_post (l3_task_label total t k)
                                (l3_task_prefix year t) [l3_task_url year id_value t])
                  (l3_tasks min_e max_e min_n max_n ds) tc ress trs
      /\ status_lines trs
         = labels_from (l3_task_label total) (l3_tasks min_e max_e min_n max_n ds) tc
      /\ requested trs
         = map (l3_task_url year id_value) (l3_tasks min_e max_e min_n max_n ds)
      /\ List.length (filter is_outcome trs)
         = List.length (l3_tasks min_e max_e min_n max_n ds)
      /\ filter is_sleep trs
         = repeat (Sleep 1) (List.length (l3_tasks min_e max_e min_n max_n ds)))
  /\
  (exists ress trs w',
      l2_batch_loop min_o max_o min_b max_b ss ps data_type year id_value total (fd, tc) r =
      (((fd ++ kept ress)%list, tc + len (l2_tasks min_o max_o min_b max_b ss ps)),
       mk w' (ui r ++ trs) (session r))
      /\ run_post (fun t k => step_post (l2_task_label data_type total t k)
                                (l2_task_prefix data_type year t)
                                (l2_task_urls data_type year id_value t))
                  (l2_tasks min_o max_o min_b max_b ss ps) tc ress trs
      /\ status_lines trs
         = labels_from (l2_task_label data_type total)
                       (l2_tasks min_o max_o min_b max_b ss ps) tc
      /\ requested trs
         = flat_map (l2_task_urls data_type year id_value)
                    (l2_tasks min_o max_o min_b max_b ss ps)
      /\ List.length (filter is_outcome trs)
         = List.length (l2_tasks min_o max_o min_b max_b ss ps)
      /\ filter is_sleep trs
         = repeat (Sleep 1) (List.length (l2_tasks min_o max_o min_b max_b ss ps))).
Proof.
  intros Hdt. split.
  - destruct (l3_batch_loop_run min_e max_e min_n max_n ds year id_value total fd tc r)
      as (ress & trs & w' & Hrun & Hpost).
    exists ress, trs, w'.
    split; [exact Hrun|]. split; [exact Hpost|].
    split; [exact (run_status_lines _ _ _ _ _ _ _ Hpost)|].
    split.
    { rewrite (run_requested _ _ _ _ _ _ _ Hpost). apply flat_map_singleton. }
    split; [exact (run_outcomes _ _ _ _ _ _ _ Hpost)|].
    exact (run_sleeps _ _ _ _ _ _ _ Hpost).
  - destruct (l2_batch_loop_run min_o max_o min_b max_b ss ps data_type year id_value
                total fd tc r Hdt)
      as (ress & trs & w' & Hrun & Hpost).
    exists ress, trs, w'.
    split; [exact Hrun|]. split; [exact Hpost|].
    split; [exact (run_status_lines _ _ _ _ _ _ _ Hpost)|].
    split; [exact (run_requested _ _ _ _ _ _ _ Hpost)|].
    split; [exact (run_outcomes _ _ _ _ _ _ _ Hpost)|].
    exact (run_sleeps _ _ _ _ _ _ _ Hpost).
Qed.

Lemma nth_error_map_seq {A} (f : nat -> A) (m k : nat) :
  (k < m)%nat -> nth_error (map f (seq 0 m)) k = Some (f k).
Proof.
  intros Hk.
  rewrite (nth_error_nth' _ (f 0%nat)) by now rewrite length_map, length_seq.
  now rewrite nth_map_seq.
Qed.

Lemma labels_from_nth {A} (label : A -> Z -> string) (f : nat -> A) (m : nat) :
  forall (s0 : nat) (tc : Z) (k : nat),
    (k < m)%nat ->
    nth_error (labels_from label (map f (seq s0 m)) tc) k
    = Some (label (f (s0 + k)%nat) (tc + Z.of_nat k + 1)).
Proof.
  induction m as [|m IH]; intros s0 tc k Hk; [lia|].
  cbn [seq map labels_from]. destruct k as [|k].
  - cbn. rewrite Nat.add_0_r, Z.add_0_r. reflexivity.
  - cbn [nth_error]. rewrite IH by lia.
    f_equal. f_equal; [f_equal|]; lia.
Qed.

(** C7. The turns of a batch loop follow the nested order.  In the grid
    loop, turn [k] (from 0) shows and requests the tile with east index
    [min_e + k / (Nn * Nd)], north index [min_n + (k / Nd) mod Nn] and
    channel number [k mod Nd]: east outermost, channel innermost.  In the
    orbit loop, turn [k] shows orbit [min_o + k / (Nb * Ns * Np)], burst
    cycle [min_b + (k / (Ns * Np)) mod Nb], swath number [(k / Np) mod Ns]
    and polarization number [k mod Np].  What the loop leaves in
    [files_data] is the batch result in the same order: exactly one entry
    (member name, bytes) for each task whose request yields a payload of at
    least one byte, these entries standing in the order of their tasks
    ([batch_successes] over the enumerated tasks), each filename matching
    the prefix of its task ([in_order_of]). *)
Theorem batch_order_is_nested
    (min_e max_e min_n max_n : Z) (ds : list string)
    (min_o max_o min_b max_b : Z) (ss ps : list string)
    (data_type year id_value : string) (total : Z) (r : runtime World) :
  data_type <> "L3" ->
  (exists ress trs w',
      l3_batch_loop min_e max_e min_n max_n ds year id_value total ([], 0) r =
      ((kept ress, len (l3_tasks min_e max_e min_n max_n ds)),
       mk w' (ui r ++ trs) (session r))
      /\ (forall k : nat,
             (k < span min_e max_e * span min_n max_n * List.length ds)%nat ->
             let e := min_e + Z.of_nat (k / (span min_n max_n * List.length ds)) in
             let n := min_n + Z.of_nat ((k / List.length ds) mod span min_n max_n) in
             let d := nth (k mod List.length ds) ds "" in
             nth_error (status_lines trs) k
             = Some (l3_label e n d (Z.of_nat k + 1) total)
             /\ nth_error (requested trs) k
                = Some (BASE_URL_L3 "L3" e n d year id_value))
      /\ in_order_of (kept ress)
           (map (l3_task_prefix year) (l3_tasks min_e max_e min_n max_n ds))
      /\ kept ress
         = as_files (batch_successes (l3_task_prefix year)
                       (fun t => [l3_task_url year id_value t])
                       (l3_tasks min_e max_e min_n max_n ds) (world r)))
  /\
  (exists ress trs w',
      l2_batch_loop min_o max_o min_b max_b ss ps data_type year id_value total ([], 0) r =
      ((kept ress, len (l2_tasks min_o max_o min_b max_b ss ps)),
       mk w' (ui r ++ trs) (session r))
      /\ (forall k : nat,
             (k < span min_o max_o * span min_b max_b
                  * List.length ss * List.length ps)%nat ->
             let o := min_o + Z.of_nat (k / (span min_b max_b * List.length ss
                                             * List.length ps)) in
             let b := min_b + Z.of_nat ((k / (List.length ss * List.length ps))
                                        mod span min_b max_b) in
             let sw := nth ((k / List.length ps) mod List.length ss) ss "" in
             let pol := nth (k mod List.length ps) ps "" in
             nth_error (status_lines trs) k
             = Some (l2_label data_type (format_0d 3 o) (format_0d 4 b) sw pol
                              (Z.of_nat k + 1) total))
      /\ in_order_of (kept ress)
           (map (l2_task_prefix data_type year)
                (l2_tasks min_o max_o min_b max_b ss ps))
      /\ kept ress
         = as_files (batch_successes (l2_task_prefix data_type year)
                       (l2_task_urls data_type year id_value)
                       (l2_tasks min_o max_o min_b max_b ss ps) (world r))).
Proof.
  intros Hdt. split.
  - destruct (l3_batch_loop_run min_e max_e min_n max_n ds year id_value total [] 0 r)
      as (ress & trs & w' & Hrun & Hpost).
    exists ress, trs, w'.
    split; [exact Hrun|]. split.
    + intros k Hk e n d.
      rewrite (run_status_lines _ _ _ _ _ _ _ Hpost).
      rewrite (run_requested _ _ _ _ _ _ _ Hpost).
      rewrite flat_map_singleton. unfold l3_tasks. split.
      * rewrite labels_from_nth by exact Hk. reflexivity.
      * rewrite map_map, nth_error_map_seq by exact Hk. reflexivity.
    + split; [exact (run_in_order _ _ _ _ _ _ _ Hpost)|].
      destruct (l3_batch_loop_successes min_e max_e min_n max_n ds year id_value
                  total [] 0 r) as (trs2 & w2 & Hex).
      assert (H := eq_trans (eq_sym Hrun) Hex).
      exact (f_equal (fun x => fst (fst x)) H).
  - destruct (l2_batch_loop_run min_o max_o min_b max_b ss ps data_type year id_value
                total [] 0 r Hdt)
      as (ress & trs & w' & Hrun & Hpost).
    exists ress, trs, w'.
    split; [exact Hrun|]. split.
    + intros k Hk o b sw pol.
      rewrite (run_status_lines _ _ _ _ _ _ _ Hpost).
      unfold l2_tasks. rewrite labels_from_nth by exact Hk. reflexivity.
    + split; [exact (run_in_order _ _ _ _ _ _ _ Hpost)|].
      destruct (l2_batch_loop_successes min_o max_o min_b max_b ss ps data_type year
                  id_value total [] 0 r Hdt) as (trs2 & w2 & Hex).
      assert (H := eq_trans (eq_sym Hrun) Hex).
      exact (f_equal (fun x => fst (fst x)) H).
Qed.

(** *** Extraction *)

(** C2 (amended). On a 200 response whose body opens as an archive, the
    fetch scans the members in stored order and stops at the first member
    whose name ends in [.csv] and contains the expected prefix; that name
    is always in the name table.  If reading the name gives bytes, the
    fetch returns these bytes with that name and reports success.  If
    reading it raises (the member cannot be decoded), the fetch returns
    [(None, None)] and reports "Error fetching" with the exception's text;
    no later member is tried.  What is read is that first member itself
    whenever no later member repeats its name. *)
Theorem extract_first_payload (filename_prefix url : string) (r : runtime World)
    (resp : response) (w' : World) (pre post : archive) (name : string)
    (member : exn + bytes) :
  curl_get url (world r) = (inr resp, w') ->
  status_code resp = 200 ->
  ZipFile (content resp) = inr (pre ++ (name, member) :: post)%list ->
  forallb (fun m => negb (is_payload filename_prefix (fst m))) pre = true ->
  is_payload filename_prefix name = true ->
  (exists got, zread (pre ++ (name, member) :: post)%list name = Some got)
  /\ (forall data : bytes,
         zread (pre ++ (name, member) :: post)%list name = Some (inr data) ->
         fetch filename_prefix url r =
         ((Some data, Some name),
          mk w' (ui r ++ [StSpinner ("Fetching " ++ filename_prefix ++ "...");
                          HttpGet url;
                          StSuccess ("Successfully fetched " ++ name)])
             (session r)))
  /\ (forall e : exn,
         zread (pre ++ (name, member) :: post)%list name = Some (inl e) ->
         fetch filename_prefix url r =
         ((None, None),
          mk w' (ui r ++ [StSpinner ("Fetching " ++ filename_prefix ++ "...");
                          HttpGet url;
                          StError ("Error fetching " ++ filename_prefix ++ ": " ++ e)])
             (session r)))
  /\ (~ In name (namelist post) ->
      zread (pre ++ (name, member) :: post)%list name = Some member).
Proof.
  intros Hget Hcode Hzip Hpre Hname.
  assert (Hfind := find_first_payload filename_prefix pre post name member Hpre Hname).
  assert (Hin : In name (namelist (pre ++ (name, member) :: post)%list)).
  { unfold namelist. rewrite map_app. apply in_or_app. right. now left. }
  assert (Hfetch := fetch_200 filename_prefix _ _ _ _ _ Hget Hcode Hzip).
  cbn zeta in Hfetch. rewrite Hfind in Hfetch.
  split; [exact (zread_in _ _ Hin)|].
  split.
  { intros data Hread. rewrite Hfetch, Hread, <- app_assoc. reflexivity. }
  split.
  { intros e Hread. rewrite Hfetch, Hread, <- app_assoc. reflexivity. }
  intros Hnot. now apply zread_unshadowed.
Qed.

(** *** Status codes *)

(** C5 (amended). A response whose status code is not 200 ends the fetch
    with the pair [(None, None)] and an error that records the code.  A
    response with status 200 is passed on to extraction, and it is the
    extraction that decides: a body that does not open, or a matching
    member that cannot be read, ends in "Error fetching"; an archive
    without a matching member ends in "No matching CSV found"; a matching
    member that reads makes the fetch a success.  None of these reports is
    the status error. *)
Theorem status_200_is_the_only_success (filename_prefix url : string) (r : runtime World)
    (resp : response) (w' : World) :
  curl_get url (world r) = (inr resp, w') ->
  (status_code resp <> 200 ->
   fetch filename_prefix url r =
   ((None, None),
    mk w' (ui r ++ [StSpinner ("Fetching " ++ filename_prefix ++ "..."); HttpGet url;
                    StError ("Failed to fetch " ++ filename_prefix ++ " (Status: "
                             ++ str_int (status_code resp) ++ ")")])
       (session r)))
  /\
  (status_code resp = 200 ->
   (forall e : exn,
       ZipFile (content resp) = inl e ->
       fetch filename_prefix url r =
       ((None, None),
        mk w' (ui r ++ [StSpinner ("Fetching " ++ filename_prefix ++ "..."); HttpGet url;
                        StError ("Error fetching " ++ filename_prefix ++ ": " ++ e)])
           (session r)))
   /\
   (forall z : archive,
       ZipFile (content resp) = inr z ->
       (find (is_payload filename_prefix) (namelist z) = None ->
        fetch filename_prefix url r =
        ((None, None),
         mk w' (ui r ++ [StSpinner ("Fetching " ++ filename_prefix ++ "..."); HttpGet url;
                         StError ("No matching CSV found in the downloaded zip for "
                                  ++ filename_prefix)])
            (session r)))
       /\
       (forall name : string,
           find (is_payload filename_prefix) (namelist z) = Some name ->
           (exists got, zread z name = Some got)
           /\ (forall b : bytes,
                  zread z name = Some (inr b) ->
                  fetch filename_prefix url r =
                  ((Some b, Some name),
                   mk w' (ui r ++ [StSpinner ("Fetching " ++ filename_prefix ++ "...");
                                   HttpGet url;
                                   StSuccess ("Successfully fetched " ++ name)])
                      (session r)))
           /\ (forall e : exn,
                  zread z name = Some (inl e) ->
                  fetch filename_prefix url r =
                  ((None, None),
                   mk w' (ui r ++ [StSpinner ("Fetching " ++ filename_prefix ++ "...");
                                   HttpGet url;
                                   StError ("Error fetching " ++ filename_prefix
                                            ++ ": " ++ e)])
                      (session r)))))).
Proof.
  intros Hget. split.
  - intros Hcode. now apply fetch_not_200.
  - intros Hcode. split.
    + intros e Hzip. now apply (fetch_corrupt_archive _ _ _ resp).
    + intros z Hzip.
      assert (Hfetch := fetch_200 filename_prefix _ _ _ _ _ Hget Hcode Hzip).
      cbn zeta in Hfetch.
      split.
      * intros Hfind. rewrite Hfetch, Hfind, <- app_assoc. reflexivity.
      * intros name Hfind. rewrite Hfind in Hfetch.
        assert (Hin : In name (namelist z))
          by (apply find_some in Hfind; exact (proj1 Hfind)).
        split; [exact (zread_in _ _ Hin)|].
        split.
        -- intros b Hread. rewrite Hfetch, Hread, <- app_assoc. reflexivity.
        -- intros e Hread. rewrite Hfetch, Hread, <- app_assoc. reflexivity.
Qed.

(** *** Missing parameters *)

(** C6. An orbit-mode call in which one of relative orbit, burst cycle,
    swath, polarization is [None] or empty reports "Missing parameters",
    returns [(None, None)] and makes no request: the world is untouched and
    the only event is the error. *)
Theorem missing_parameter_makes_no_request (e n : Z) (d data_type year id : string)
    (relative_orbit burst_cycle swath polarization : option string) (r : runtime World) :
  data_type <> "L3" ->
  truthy_str relative_orbit = false \/ truthy_str burst_cycle = false \/
  truthy_str swath = false \/ truthy_str polarization = false ->
  fetch_file_data e n d data_type year id relative_orbit burst_cycle swath polarization r
  = ((None, None),
     mk (world r)
        (ui r ++ [StError ("Missing parameters for " ++ data_type ++ " download")])
        (session r))
  /\ requested
       (ui (snd (fetch_file_data e n d data_type year id
                   relative_orbit burst_cycle swath polarization r)))
     = requested (ui r).
Proof.
  intros Hdt Hmiss.
  assert (Hall : all [truthy_str relative_orbit; truthy_str burst_cycle;
                      truthy_str swath; truthy_str polarization] = false).
  { unfold all. cbn.
    destruct Hmiss as [H|[H|[H|H]]]; rewrite H;
      repeat rewrite ?andb_false_r, ?andb_false_l; reflexivity. }
  rewrite (fetch_file_data_missing _ _ _ _ _ _ _ _ _ _ _ Hdt Hall).
  split; [reflexivity|].
  cbn. unfold requested. rewrite filter_map_app. cbn. now rewrite app_nil_r.
Qed.

(** *** Zero-length payloads *)

(** C10. When the first matching member of the fetched archive has no
    bytes, the fetch returns the pair (empty bytes, name) and reports
    success, but the pair fails the test [csv_data and csv_filename]: the
    callers keep [files_data] as it was, as they do for [(None, None)]; the
    grid loop's turn leaves [files_data] unchanged. *)
Theorem empty_payload_is_dropped (e n : Z) (d year id_value : string) (total : Z)
    (r : runtime World) (resp : response) (w' : World) (z : archive) (name : string)
    (fd : files) (tc : Z) :
  curl_get (BASE_URL_L3 "L3" e n d year id_value) (world r) = (inr resp, w') ->
  status_code resp = 200 ->
  ZipFile (content resp) = inr z ->
  find (is_payload (filename_prefix_L3 "L3" e n d year)) (namelist z) = Some name ->
  zread z name = Some (inr []) ->
  fetch_file_data e n d "L3" year id_value None None None None r
  = ((Some [], Some name),
     mk w' (ui r ++ [StSpinner ("Fetching " ++ filename_prefix_L3 "L3" e n d year ++ "...");
                     HttpGet (BASE_URL_L3 "L3" e n d year id_value);
                     StSuccess ("Successfully fetched " ++ name)])
        (session r))
  /\ fetched_ok (Some [], Some name) = false
  /\ keep fd (Some [], Some name) = fd
  /\ keep fd (None, None) = fd
  /\ fst (l3_batch_step year id_value total e n d (fd, tc) r) = (fd, tc + 1).
Proof.
  intros Hget Hcode Hzip Hfind Hread.
  assert (Hfetch : forall tr0,
             fetch_file_data e n d "L3" year id_value None None None None
               (mk (world r) tr0 (session r))
             = ((Some [], Some name),
                mk w' (tr0 ++ [StSpinner ("Fetching "
                                 ++ filename_prefix_L3 "L3" e n d year ++ "...");
                               HttpGet (BASE_URL_L3 "L3" e n d year id_value);
                               StSuccess ("Successfully fetched " ++ name)])
                   (session r))).
  { intros tr0. rewrite fetch_file_data_L3.
    rewrite (fetch_200 _ _ (mk (world r) tr0 (session r)) resp w' z Hget Hcode Hzip).
    cbn zeta. rewrite Hfind, Hread. cbn. rewrite <- app_assoc. reflexivity. }
  split.
  { specialize (Hfetch (ui r)). destruct r as [w tr ss]. exact Hfetch. }
  repeat split.
  unfold l3_batch_step, bind, progress, status_text, sleep, emit, ret. cbn.
  rewrite <- app_assoc. cbn [app].
  specialize (Hfetch (ui r ++ [Progress (tc + 1) total;
                               StatusText (l3_label e n d (tc + 1) total)])%list).
  unfold mk in Hfetch. rewrite Hfetch. reflexivity.
Qed.

(** *** Delivery *)

Lemma written_as_files (successes : list (string * bytes)) :
  written (as_files successes) = successes.
Proof.
  induction successes as [|[f b] l IH]; [reflexivity|].
  cbn. f_equal. exact IH.
Qed.

Lemma fetch_file_data_spec (e n : Z) (d data_type year id : string)
    (ro bc sw pol : option string) (r : runtime World) :
  exists res tr w',
    fetch_file_data e n d data_type year id ro bc sw pol r
    = (res, mk w' (ui r ++ tr) (session r))
    /\ filter is_progress tr = [].
Proof.
  unfold fetch_file_data.
  destruct (String.eqb data_type "L3").
  - destruct (fetch_spec (filename_prefix_L3 data_type e n d year)
                (BASE_URL_L3 data_type e n d year id) r) as (res & oc & w' & Hf & Ho).
    rewrite Hf. eexists _, _, _. split; [reflexivity|]. destruct Ho; reflexivity.
  - destruct (negb (all [truthy_str ro; truthy_str bc; truthy_str sw; truthy_str pol])).
    + eexists _, _, _. split; reflexivity.
    + destruct (fetch_spec (filename_prefix_L2 data_type ro bc sw pol year)
                  (url_L2 data_type ro bc sw pol year id) r) as (res & oc & w' & Hf & Ho).
      rewrite Hf. eexists _, _, _. split; [reflexivity|]. destruct Ho; reflexivity.
Qed.

Lemma deliver_batch_none (zip_name : string) (r : runtime World) :
  deliver_batch zip_name [] r
  = (tt, mk (world r) (ui r ++ [StatusText "❌ No files could be downloaded"])
            (session r)).
Proof. reflexivity. Qed.

Lemma deliver_batch_some (zip_name : string) (f : string * option bytes) (fd : files)
    (r : runtime World) :
  deliver_batch zip_name (f :: fd) r
  = (tt, mk (world r)
            (ui r ++ [StatusText ("✅ Ready! " ++ str_int (len (f :: fd))
                                  ++ " files prepared for download")])
            {| download_ready := true;
               download_data := Some (zip_getvalue (written (f :: fd)));
               download_filename := zip_name |}).
Proof. reflexivity. Qed.

(** *** The batch handlers *)

Lemma deliver_batch_success_free (zip_name : string) (fd : files) (r : runtime World) :
  filter is_success (ui (snd (deliver_batch zip_name fd r))) = filter is_success (ui r).
Proof.
  destruct fd as [|f fd].
  - rewrite deliver_batch_none. cbn. rewrite filter_app. cbn. now rewrite app_nil_r.
  - rewrite deliver_batch_some. cbn. rewrite filter_app. cbn. now rewrite app_nil_r.
Qed.

Lemma prepare_l3_batch_run (min_e max_e min_n max_n : Z)
    (disp_choice year id_value : string) (r : runtime World) :
  exists ress trs w',
    run_post (fun t k =>
                step_post (l3_task_label
                             ((max_e - min_e + 1) * (max_n - min_n + 1)
                              * len (displacements_of disp_choice)) t k)
                          (l3_task_prefix year t) [l3_task_url year id_value t])
             (l3_tasks min_e max_e min_n max_n (displacements_of disp_choice))
             0 ress trs
    /\ prepare_l3_batch min_e max_e min_n max_n disp_choice year id_value r
       = deliver_batch
           ("EGMS_L3_E" ++ str_int min_e ++ "-" ++ str_int max_e
              ++ "_N" ++ str_int min_n ++ "-" ++ str_int max_n
              ++ "_" ++ year ++ "_batch.zip")
           (kept ress)
           (mk w' (ui r ++ [Progress 0 1] ++ trs
                     ++ [Progress 1 1; StatusText "Creating batch download..."])
               (session r)).
Proof.
  destruct (l3_batch_loop_run min_e max_e min_n max_n (displacements_of disp_choice)
              year id_value
              ((max_e - min_e + 1) * (max_n - min_n + 1)
               * len (displacements_of disp_choice))
              [] 0 (mk (world r) (ui r ++ [Progress 0 1]) (session r)))
    as (ress & trs & w' & Hrun & Hpost).
  exists ress, trs, w'. split; [exact Hpost|].
  unfold prepare_l3_batch, bind, progress, status_text, emit. cbn zeta.
  unfold mk, files in *. rewrite Hrun. cbn [fst snd world ui session app].
  rewrite <- !app_assoc. reflexivity.
Qed.

Lemma prepare_l2_batch_run (min_o max_o min_b max_b : Z) (ss ps : list string)
    (data_type year id_value : string) (r : runtime World) :
  data_type <> "L3" -> ss <> [] -> ps <> [] ->
  exists ress trs w',
    run_post (fun t k =>
                step_post (l2_task_label data_type
                             ((max_o - min_o + 1) * (max_b - min_b + 1)
                              * len ss * len ps) t k)
                          (l2_task_prefix data_type year t)
                          (l2_task_urls data_type year id_value t))
             (l2_tasks min_o max_o min_b max_b ss ps) 0 ress trs
    /\ prepare_l2_batch min_o max_o min_b max_b ss ps data_type year id_value r
       = deliver_batch ("EGMS_" ++ data_type ++ "_batch_" ++ year ++ ".zip")
           (kept ress)
           (mk w' (ui r ++ [Progress 0 1] ++ trs
                     ++ [Progress 1 1; StatusText "Creating batch download..."])
               (session r)).
Proof.
  intros Hdt Hss Hps.
  destruct (l2_batch_loop_run min_o max_o min_b max_b ss ps data_type year id_value
              ((max_o - min_o + 1) * (max_b - min_b + 1) * len ss * len ps)
              [] 0 (mk (world r) (ui r ++ [Progress 0 1]) (session r)) Hdt)
    as (ress & trs & w' & Hrun & Hpost).
  exists ress, trs, w'. split; [exact Hpost|].
  unfold prepare_l2_batch. cbn zeta.
  destruct ss as [|s0 ss]; [contradiction|].
  destruct ps as [|p0 ps]; [contradiction|].
  cbn [truthy_list negb orb].
  unfold bind, progress, status_text, emit.
  unfold mk, files in *. rewrite Hrun. cbn [fst snd world ui session app].
  rewrite <- !app_assoc. reflexivity.
Qed.

Lemma l3_tasks_length (min_e max_e min_n max_n : Z) (ds : list string) :
  List.length (l3_tasks min_e max_e min_n max_n ds)
  = (span min_e max_e * span min_n max_n * List.length ds)%nat.
Proof. unfold l3_tasks. now rewrite length_map, length_seq. Qed.

Lemma l2_tasks_length (min_o max_o min_b max_b : Z) (ss ps : list string) :
  List.length (l2_tasks min_o max_o min_b max_b ss ps)
  = (span min_o max_o * span min_b max_b * List.length ss * List.length ps)%nat.
Proof. unfold l2_tasks. now rewrite length_map, length_seq. Qed.

(** The trace of a batch handler that found nothing to deliver. *)
Lemma nothing_delivered {A : Type} (label : A -> Z -> string) (prefix_of : A -> string)
    (urls_of : A -> list string) (tasks : list A) (zip_name : string)
    (ress : list (option bytes * option string)) (trs : list event)
    (w' : World) (r : runtime World) :
  run_post (fun t k => step_post (label t k) (prefix_of t) (urls_of t))
           tasks 0 ress trs ->
  let r' := snd (deliver_batch zip_name (kept ress)
                   (mk w' (ui r ++ [Progress 0 1] ++ trs
                             ++ [Progress 1 1; StatusText "Creating batch download..."])
                       (session r))) in
  filter is_success (ui r') = filter is_success (ui r) ->
  session r' = session r
  /\ ui r' = (ui r ++ [Progress 0 1] ++ trs
                ++ [Progress 1 1; StatusText "Creating batch download...";
                    StatusText "❌ No files could be downloaded"])%list
  /\ filter is_success trs = []
  /\ List.length (filter is_error trs) = List.length tasks.
Proof.
  intros Hpost r' Hnone. subst r'.
  rewrite deliver_batch_success_free in Hnone. cbn [ui mk] in Hnone.
  rewrite !filter_app in Hnone. cbn in Hnone.
  rewrite <- (app_nil_r (filter is_success (ui r))) in Hnone at 2.
  apply app_inv_head in Hnone. rewrite app_nil_r in Hnone.
  destruct (run_all_failed _ _ _ _ _ _ _ Hpost Hnone) as [Hk He].
  rewrite Hk, deliver_batch_none. cbn [snd session ui world mk].
  repeat split; try assumption.
  rewrite <- !app_assoc. reflexivity.
Qed.

(** C4. A batch whose run reports no success delivers nothing: the run
    holds one error report for each of its N tasks and no success,
    [files_data] stays empty, the session state is left as it was (no
    archive is built, [download_ready] is not set) and the last status
    line is "No files could be downloaded".  Grid batch: N is the number
    of east indices times north indices times channels; orbit batch (which
    runs once a swath and a polarization are selected): orbits times burst
    cycles times swaths times polarizations. *)
Theorem all_failed_batch_delivers_nothing
    (min_e max_e min_n max_n : Z) (disp_choice : string)
    (min_o max_o min_b max_b : Z) (ss ps : list string)
    (data_type year id_value : string) (r : runtime World) :
  data_type <> "L3" -> ss <> [] -> ps <> [] ->
  filter is_success
    (ui (snd (prepare_l3_batch min_e max_e min_n max_n disp_choice year id_value r)))
  = filter is_success (ui r) ->
  filter is_success
    (ui (snd (prepare_l2_batch min_o max_o min_b max_b ss ps data_type year id_value r)))
  = filter is_success (ui r) ->
  (session (snd (prepare_l3_batch min_e max_e min_n max_n disp_choice year id_value r))
   = session r
   /\ exists trs,
       ui (snd (prepare_l3_batch min_e max_e min_n max_n disp_choice year id_value r))
       = (ui r ++ [Progress 0 1] ++ trs
            ++ [Progress 1 1; StatusText "Creating batch download...";
                StatusText "❌ No files could be downloaded"])%list
       /\ filter is_success trs = []
       /\ List.length (filter is_error trs)
          = (span min_e max_e * span min_n max_n
             * List.length (displacements_of disp_choice))%nat)
  /\
  (session (snd (prepare_l2_batch min_o max_o min_b max_b ss ps
                   data_type year id_value r))
   = session r
   /\ exists trs,
       ui (snd (prepare_l2_batch min_o max_o min_b max_b ss ps
                  data_type year id_value r))
       = (ui r ++ [Progress 0 1] ++ trs
            ++ [Progress 1 1; StatusText "Creating batch download...";
                StatusText "❌ No files could be downloaded"])%list
       /\ filter is_success trs = []
       /\ List.length (filter is_error trs)
          = (span min_o max_o * span min_b max_b
             * List.length ss * List.length ps)%nat).
Proof.
  intros Hdt Hss Hps H3 H2. split.
  - destruct (prepare_l3_batch_run min_e max_e min_n max_n disp_choice year id_value r)
      as (ress & trs & w' & Hpost & Heq).
    rewrite Heq in *.
    destruct (nothing_delivered _ _ _ _ _ _ _ _ _ Hpost H3) as (Hs & Hu & Hn & He).
    split; [exact Hs|]. exists trs.
    rewrite l3_tasks_length in He. now repeat split.
  - destruct (prepare_l2_batch_run min_o max_o min_b max_b ss ps data_type year id_value r
                Hdt Hss Hps)
      as (ress & trs & w' & Hpost & Heq).
    rewrite Heq in *.
    destruct (nothing_delivered _ _ _ _ _ _ _ _ _ Hpost H2) as (Hs & Hu & Hn & He).
    split; [exact Hs|]. exists trs.
    rewrite l2_tasks_length in He. now repeat split.
Qed.

(** *** Zero padding *)

Lemma append_length (a b : string) :
  String.length (a ++ b) = (String.length a + String.length b)%nat.
Proof. induction a as [|c a IH]; cbn; [reflexivity|now rewrite IH]. Qed.

Lemma append_assoc (a b c : string) : (a ++ b) ++ c = a ++ (b ++ c).
Proof. induction a as [|x a IH]; cbn; [reflexivity|now rewrite IH]. Qed.

Lemma zeros_length (k : nat) : String.length (zeros k) = k.
Proof. induction k as [|k IH]; cbn; [reflexivity|]. unfold zeros in IH. now rewrite IH. Qed.

Lemma format_0d_nonneg (w : nat) (z : Z) :
  0 <= z -> format_0d w z = zeros (w - String.length (str_int z)) ++ str_int z.
Proof.
  intros Hz. unfold format_0d.
  destruct (Z.ltb_spec z 0) as [Hlt|_]; [lia|].
  rewrite Z.abs_eq by exact Hz. cbn [String.length append].
  now rewrite Nat.sub_0_r.
Qed.

(** Up to 9999, [str(z)] has one to four characters; up to 999, at most three. *)
Lemma str_int_digits_checked :
  forallb (fun z => (1 <=? String.length (str_int z))%nat
                    && (String.length (str_int z) <=? 4)%nat
                    && ((999 <? z) || (String.length (str_int z) <=? 3)%nat))
          (py_range 0 10000) = true.
Proof. vm_compute. reflexivity. Qed.

Lemma str_int_digits (z : Z) :
  0 <= z <= 9999 ->
  (1 <= String.length (str_int z) <= 4)%nat
  /\ (z <= 999 -> (String.length (str_int z) <= 3)%nat).
Proof.
  intros Hz.
  assert (Hin : In z (py_range 0 10000)).
  { unfold py_range. apply in_map_iff. exists (Z.to_nat z). split; [lia|].
    apply in_seq. lia. }
  assert (H := proj1 (forallb_forall _ _) str_int_digits_checked z Hin).
  cbv beta in H.
  apply andb_true_iff in H. destruct H as [H H3].
  apply andb_true_iff in H. destruct H as [H1 H4].
  apply Nat.leb_le in H1, H4. split; [lia|].
  intros Hle. apply orb_true_iff in H3. destruct H3 as [H3|H3].
  - apply Z.ltb_lt in H3. lia.
  - now apply Nat.leb_le in H3.
Qed.

Lemma format_0d_3 (o : Z) :
  0 <= o <= 999 -> String.length (format_0d 3 o) = 3%nat.
Proof.
  intros Ho. rewrite format_0d_nonneg by lia.
  rewrite append_length, zeros_length.
  destruct (str_int_digits o ltac:(lia)) as [_ H]. specialize (H ltac:(lia)). lia.
Qed.

Lemma format_0d_4 (b : Z) :
  0 <= b <= 9999 -> String.length (format_0d 4 b) = 4%nat.
Proof.
  intros Hb. rewrite format_0d_nonneg by lia.
  rewrite append_length, zeros_length.
  destruct (str_int_digits b Hb) as [H _]. lia.
Qed.

Lemma truthy_of_length (s : string) (k : nat) :
  String.length s = S k -> truthy_str (Some s) = true.
Proof. destruct s; [discriminate|reflexivity]. Qed.

Lemma truthy_of_neq (s : string) : s <> "" -> truthy_str (Some s) = true.
Proof. destruct s; [contradiction|reflexivity]. Qed.

(** C9 (amended). In an orbit batch the loop formats the orbit number
    with [03d] and the burst cycle with [04d] before the call: for an orbit
    in 0..999 and a burst cycle in 0..9999 these are the decimal digits
    preceded by zeros up to exactly 3 and 4 characters, and it is these
    strings that appear in the status line, in the expected filename
    prefix and in the requested URL.  (A single-file request passes the
    typed text on as it is.) *)
Theorem batch_pads_orbit_and_burst (data_type year id_value : string) (total o b : Z)
    (s p : string) (fd : files) (tc : Z) (r : runtime World) :
  data_type <> "L3" -> 0 <= o <= 999 -> 0 <= b <= 9999 -> s <> "" -> p <> "" ->
  String.length (format_0d 3 o) = 3%nat
  /\ String.length (format_0d 4 b) = 4%nat
  /\ format_0d 3 o = zeros (3 - String.length (str_int o)) ++ str_int o
  /\ format_0d 4 b = zeros (4 - String.length (str_int b)) ++ str_int b
  /\ exists res oc w',
      l2_batch_step data_type year id_value total o b s p (fd, tc) r =
      ((keep fd res, tc + 1),
       mk w' (ui r ++
                [Progress (tc + 1) total;
                 StatusText (l2_label data_type (format_0d 3 o) (format_0d 4 b) s p
                                      (tc + 1) total);
                 StSpinner ("Fetching "
                            ++ filename_prefix_L2 data_type (Some (format_0d 3 o))
                                 (Some (format_0d 4 b)) (Some s) (Some p) year
                            ++ "...");
                 HttpGet (url_L2 data_type (Some (format_0d 3 o))
                            (Some (format_0d 4 b)) (Some s) (Some p) year id_value);
                 oc; Sleep 1])
          (session r)).
Proof.
  intros Hdt Ho Hb Hs Hp.
  split; [now apply format_0d_3|].
  split; [now apply format_0d_4|].
  split; [apply format_0d_nonneg; lia|].
  split; [apply format_0d_nonneg; lia|].
  assert (Hall : all [truthy_str (Some (format_0d 3 o)); truthy_str (Some (format_0d 4 b));
                      truthy_str (Some s); truthy_str (Some p)] = true).
  { unfold all. cbn [forallb].
    rewrite (truthy_of_length _ 2 (format_0d_3 o Ho)).
    rewrite (truthy_of_length _ 3 (format_0d_4 b Hb)).
    rewrite (truthy_of_neq s Hs), (truthy_of_neq p Hp). reflexivity. }
  set (lbl := l2_label data_type (format_0d 3 o) (format_0d 4 b) s p (tc + 1) total).
  set (r1 := mk (world r) (ui r ++ [Progress (tc + 1) total; StatusText lbl]) (session r)).
  destruct (fetch_spec
              (filename_prefix_L2 data_type (Some (format_0d 3 o))
                 (Some (format_0d 4 b)) (Some s) (Some p) year)
              (url_L2 data_type (Some (format_0d 3 o)) (Some (format_0d 4 b))
                 (Some s) (Some p) year id_value) r1)
    as (res & oc & w' & Hf & _).
  rewrite <- (fetch_file_data_L2 0 0 "" _ _ _ _ _ _ _ _ Hdt Hall) in Hf.
  exists res, oc, w'.
  unfold l2_batch_step, bind, progress, status_text, sleep, emit, ret. cbn.
  rewrite <- app_assoc. cbn [app]. fold lbl. fold r1.
  unfold mk in r1. fold r1. rewrite Hf. unfold mk, r1. cbn.
  rewrite <- !app_assoc. reflexivity.
Qed.

(** *** The fractions given to [st.progress] *)

Lemma deliver_batch_trace (zip_name : string) (fd : files) (r : runtime World) :
  exists line, ui (snd (deliver_batch zip_name fd r)) = (ui r ++ [StatusText line])%list.
Proof.
  destruct fd as [|f fd].
  - rewrite deliver_batch_none. now eexists.
  - rewrite deliver_batch_some. now eexists.
Qed.

Lemma l3_task_step_progress (year id_value : string) (total_tasks : Z)
    (t : Z * Z * string) (fd : files) (tc : Z) (r : runtime World) :
  exists res tr w',
    l3_task_step year id_value total_tasks t (fd, tc) r =
    ((keep fd res, tc + 1), mk w' (ui r ++ tr) (session r))
    /\ filter is_progress tr = [Progress (tc + 1) total_tasks].
Proof.
  destruct t as [[e n] d]. unfold l3_task_step. cbn [fst snd].
  destruct (fetch_spec (filename_prefix_L3 "L3" e n d year)
              (BASE_URL_L3 "L3" e n d year id_value)
              (mk (world r)
                  (ui r ++ [Progress (tc + 1) total_tasks;
                            StatusText (l3_label e n d (tc + 1) total_tasks)])
                  (session r)))
    as (res & oc & w' & Hf & Ho).
  exists res,
    [Progress (tc + 1) total_tasks; StatusText (l3_label e n d (tc + 1) total_tasks);
     StSpinner ("Fetching " ++ filename_prefix_L3 "L3" e n d year ++ "...");
     HttpGet (BASE_URL_L3 "L3" e n d year id_value); oc; Sleep 1], w'.
  split.
  - unfold l3_batch_step, bind, progress, status_text, sleep, emit, ret. cbn.
    rewrite fetch_file_data_L3. rewrite <- app_assoc. cbn [app].
    unfold mk in Hf. cbn in Hf. rewrite Hf. cbn.
    unfold mk. rewrite <- !app_assoc. reflexivity.
  - destruct Ho; reflexivity.
Qed.

Lemma l2_task_step_progress (data_type year id_value : string) (total : Z)
    (t : Z * Z * string * string) (fd : files) (tc : Z) (r : runtime World) :
  exists res tr w',
    l2_task_step data_type year id_value total t (fd, tc) r =
    ((keep fd res, tc + 1), mk w' (ui r ++ tr) (session r))
    /\ filter is_progress tr = [Progress (tc + 1) total].
Proof.
  destruct t as [[[o b] s] p]. unfold l2_task_step. cbn [fst snd].
  set (lbl := l2_label data_type (format_0d 3 o) (format_0d 4 b) s p (tc + 1) total).
  set (r1 := mk (world r) (ui r ++ [Progress (tc + 1) total; StatusText lbl]) (session r)).
  destruct (fetch_file_data_spec 0 0 "" data_type year id_value
              (Some (format_0d 3 o)) (Some (format_0d 4 b)) (Some s) (Some p) r1)
    as (res & tr & w' & Hf & Hnp).
  exists res, ([Progress (tc + 1) total; StatusText lbl] ++ tr ++ [Sleep 1])%list, w'.
  split.
  - unfold l2_batch_step, bind, progress, status_text, sleep, emit, ret. cbn.
    rewrite <- app_assoc. cbn [app]. fold lbl. fold r1.
    unfold mk in r1. fold r1. rewrite Hf. unfold mk, r1. cbn.
    rewrite <- !app_assoc. reflexivity.
  - cbn. rewrite filter_app, Hnp. reflexivity.
Qed.

Lemma progress_of_filter (tr : list event) :
  Forall progress_in_range (filter is_progress tr) -> Forall progress_in_range tr.
Proof.
  induction tr as [|ev tr IH]; intros H; [constructor|].
  destruct ev; cbn in H; try (constructor; [exact I|now apply IH]).
  inversion H; subst. constructor; [assumption|now apply IH].
Qed.

Lemma run_progress {A : Type} (total : Z) (xs : list A) (tc : Z)
    (ress : list (option bytes * option string)) (trs : list event) :
  run_post (fun _ k _ tr => filter is_progress tr = [Progress k total]) xs tc ress trs ->
  0 <= tc -> (xs <> [] -> tc + len xs <= total) ->
  Forall progress_in_range trs.
Proof.
  induction 1 as [|x xs tc res tr ress trs Hp _ IH]; intros Htc Hle; [constructor|].
  assert (Hx : tc + len (x :: xs) <= total) by (apply Hle; discriminate).
  unfold len in Hx. cbn [List.length] in Hx. rewrite Nat2Z.inj_succ in Hx.
  apply Forall_app. split.
  - apply progress_of_filter. rewrite Hp. constructor; [|constructor].
    cbn. lia.
  - apply IH; [lia|]. intros _. unfold len. lia.
Qed.

Lemma span_product (lo1 hi1 lo2 hi2 : Z) (m : nat) :
  (span lo1 hi1 * span lo2 hi2 * m <> 0)%nat ->
  Z.of_nat (span lo1 hi1 * span lo2 hi2 * m)
  = (hi1 - lo1 + 1) * (hi2 - lo2 + 1) * Z.of_nat m.
Proof.
  unfold span. intros Hne.
  assert (H1 : Z.to_nat (hi1 + 1 - lo1) <> 0%nat) by (intros E; rewrite E in Hne; lia).
  assert (H2 : Z.to_nat (hi2 + 1 - lo2) <> 0%nat)
    by (intros E; rewrite E, Nat.mul_0_r in Hne; lia).
  rewrite !Nat2Z.inj_mul, !Z2Nat.id by lia.
  replace (hi1 + 1 - lo1) with (hi1 - lo1 + 1) by lia.
  replace (hi2 + 1 - lo2) with (hi2 - lo2 + 1) by lia.
  reflexivity.
Qed.

(** X17. Every fraction a batch handler gives to [st.progress] lies between
    0 and 1, whatever the bounds and the selections are, so the progress bar
    never refuses it. *)
Lemma batch_progress_in_range
    (min_e max_e min_n max_n : Z) (disp_choice : string)
    (min_o max_o min_b max_b : Z) (ss ps : list string)
    (data_type year id_value : string) (r : runtime World) :
  (exists tr,
      ui (snd (prepare_l3_batch min_e max_e min_n max_n disp_choice year id_value r))
      = (ui r ++ tr)%list
      /\ Forall progress_in_range tr)
  /\
  (exists tr,
      ui (snd (prepare_l2_batch min_o max_o min_b max_b ss ps data_type year id_value r))
      = (ui r ++ tr)%list
      /\ Forall progress_in_range tr).
Proof.
  split.
  - set (ds := displacements_of disp_choice).
    set (total := (max_e - min_e + 1) * (max_n - min_n + 1) * len ds).
    set (r1 := mk (world r) (ui r ++ [Progress 0 1]) (session r)).
    destruct (for_each_run (l3_task_step year id_value total)
                (fun _ k _ tr => filter is_progress tr = [Progress k total])
                (l3_task_step_progress year id_value total)
                (l3_tasks min_e max_e min_n max_n ds) [] 0 r1)
      as (ress & trs & w' & Hrun & Hpost).
    rewrite <- l3_batch_loop_flat in Hrun.
    assert (Hok : Forall progress_in_range trs).
    { apply (run_progress total _ _ _ _ Hpost); [lia|].
      intros Hne. unfold len at 1. rewrite l3_tasks_length.
      rewrite Z.add_0_l. unfold total, len.
      rewrite span_product; [lia|].
      rewrite <- (l3_tasks_length min_e max_e min_n max_n ds).
      destruct (l3_tasks min_e max_e min_n max_n ds); [contradiction|discriminate]. }
    unfold prepare_l3_batch, bind, progress, status_text, emit. cbn zeta.
    fold ds. fold total. unfold mk, files in *. fold r1. rewrite Hrun.
    cbn [fst snd world ui session app].
    match goal with
    | |- context [deliver_batch ?zn ?fd ?r2] =>
        destruct (deliver_batch_trace zn fd r2) as [line Hl]; rewrite Hl
    end.
    exists ([Progress 0 1] ++ trs
              ++ [Progress 1 1; StatusText "Creating batch download...";
                  StatusText line])%list.
    split; [unfold r1; cbn; rewrite <- !app_assoc; reflexivity|].
    apply Forall_app. split; [constructor; [cbn; lia|constructor]|].
    apply Forall_app. split; [exact Hok|].
    repeat constructor; cbn; lia.
  - unfold prepare_l2_batch. cbn zeta.
    destruct (negb (truthy_list ss) || negb (truthy_list ps)) eqn:Hguard.
    { exists [StWarning "Please select at least one swath and one polarization."].
      split; [reflexivity|]. repeat constructor. }
    set (total := (max_o - min_o + 1) * (max_b - min_b + 1) * len ss * len ps).
    set (r1 := mk (world r) (ui r ++ [Progress 0 1]) (session r)).
    destruct (for_each_run (l2_task_step data_type year id_value total)
                (fun _ k _ tr => filter is_progress tr = [Progress k total])
                (l2_task_step_progress data_type year id_value total)
                (l2_tasks min_o max_o min_b max_b ss ps) [] 0 r1)
      as (ress & trs & w' & Hrun & Hpost).
    rewrite <- l2_batch_loop_flat in Hrun.
    assert (Hok : Forall progress_in_range trs).
    { apply (run_progress total _ _ _ _ Hpost); [lia|].
      intros Hne. unfold len at 1. rewrite l2_tasks_length.
      rewrite Z.add_0_l. unfold total, len.
      rewrite <- Nat.mul_assoc, span_product.
      - rewrite Nat2Z.inj_mul. lia.
      - rewrite Nat.mul_assoc.
        rewrite <- (l2_tasks_length min_o max_o min_b max_b ss ps).
        destruct (l2_tasks min_o max_o min_b max_b ss ps); [contradiction|discriminate]. }
    unfold bind, progress, status_text, emit.
    unfold mk, files in *. fold r1. rewrite Hrun.
    cbn [fst snd world ui session app].
    match goal with
    | |- context [deliver_batch ?zn ?fd ?r2] =>
        destruct (deliver_batch_trace zn fd r2) as [line Hl]; rewrite Hl
    end.
    exists ([Progress 0 1] ++ trs
              ++ [Progress 1 1; StatusText "Creating batch download...";
                  StatusText line])%list.
    split; [unfold r1; cbn; rewrite <- !app_assoc; reflexivity|].
    apply Forall_app. split; [constructor; [cbn; lia|constructor]|].
    apply Forall_app. split; [exact Hok|].
    repeat constructor; cbn; lia.
Qed.

(* ---------------------------------------------------------------- *)
(** ** Further properties of the code *)

(** *** The substring and suffix tests *)

Lemma prefix_iff (p s : string) :
  String.prefix p s = true <-> exists b, s = p ++ b.
Proof.
  revert s. induction p as [|c p IH]; intros s.
  - split; [intros _; now exists s|intros _; destruct s; reflexivity].
  - destruct s as [|c' s]; cbn; [split; [discriminate|intros [b Hb]; discriminate]|].
    destruct (Ascii.ascii_dec c c') as [->|Hne].
    + rewrite IH. split; intros [b Hb]; exists b; [now rewrite Hb|now inversion Hb].
    + split; [discriminate|]. intros [b Hb]. inversion Hb. congruence.
Qed.

Lemma str_in_iff (sub s : string) :
  str_in sub s = true <-> exists a b, s = a ++ sub ++ b.
Proof.
  induction s as [|c s IH]; cbn [str_in].
  - rewrite orb_false_r, prefix_iff. split.
    + intros [b Hb]. now exists "", b.
    + intros [a [b Hab]]. destruct a; [now exists b|discriminate].
  - rewrite orb_true_iff, prefix_iff, IH. split.
    + intros [[b Hb]|[a [b Hab]]]; [now exists "", b|].
      exists (String c a), b. cbn. now rewrite Hab.
    + intros [a [b Hab]]. destruct a as [|c' a].
      * left. now exists b.
      * right. exists a, b. cbn in Hab. now inversion Hab.
Qed.

Lemma substring_all (s : string) : substring 0 (String.length s) s = s.
Proof. induction s as [|c s IH]; cbn; [reflexivity|now rewrite IH]. Qed.

Lemma substring_skip (a b : string) :
  substring (String.length a) (String.length b) (a ++ b) = b.
Proof. induction a as [|c a IH]; cbn; [apply substring_all|exact IH]. Qed.

Lemma split_at (n : nat) :
  forall s, (n <= String.length s)%nat ->
            exists a, s = a ++ substring n (String.length s - n) s.
Proof.
  induction n as [|n IH]; intros s Hn.
  - exists "". cbn. now rewrite Nat.sub_0_r, substring_all.
  - destruct s as [|c s]; [cbn in Hn; lia|].
    destruct (IH s ltac:(cbn in Hn; lia)) as [a Ha].
    exists (String c a). cbn. now rewrite <- Ha.
Qed.

Lemma endswith_iff (s suffix : string) :
  endswith s suffix = true <-> exists a, s = a ++ suffix.
Proof.
  unfold endswith. rewrite andb_true_iff, Nat.leb_le, String.eqb_eq. split.
  - intros [Hle Heq].
    destruct (split_at (String.length s - String.length suffix) s ltac:(lia)) as [a Ha].
    exists a.
    replace (String.length s - (String.length s - String.length suffix))%nat
      with (String.length suffix) in Ha by lia.
    now rewrite Heq in Ha.
  - intros [a ->]. rewrite append_length. split; [lia|].
    replace (String.length a + String.length suffix - String.length suffix)%nat
      with (String.length a) by lia.
    apply substring_skip.
Qed.

Lemma endswith_append (a b suffix : string) :
  endswith b suffix = true -> endswith (a ++ b) suffix = true.
Proof.
  rewrite !endswith_iff. intros [c ->]. exists (a ++ c). now rewrite append_assoc.
Qed.

Lemma csv_is_not_zip (name : string) :
  endswith name ".csv" = true -> endswith name ".zip" = false.
Proof.
  intros H. apply endswith_iff in H. destruct H as [a ->].
  assert (Hsub : substring (String.length a) 4 (a ++ ".csv") = ".csv")
    by exact (substring_skip a ".csv").
  unfold endswith. rewrite append_length. cbn [String.length].
  replace (String.length a + 4 - 4)%nat with (String.length a) by lia.
  rewrite Hsub. apply andb_false_r.
Qed.

(** X1. The test of line 93 holds exactly for the names that are some text
    followed by [.csv] and that contain the expected prefix somewhere. *)
Theorem is_payload_iff (filename_prefix name : string) :
  is_payload filename_prefix name = true <->
  (exists a, name = a ++ ".csv") /\ (exists b c, name = b ++ filename_prefix ++ c).
Proof.
  unfold is_payload. rewrite andb_true_iff, endswith_iff, str_in_iff. reflexivity.
Qed.

(** X2. For every grid request the locator is the archive root, the expected
    filename prefix, [.zip?id=] and the token: the prefix is the stem of the
    file the URL names, so it occurs in the URL. *)
Theorem grid_prefix_is_url_stem (data_type : string) (e n : Z) (d year id : string) :
  BASE_URL_L3 data_type e n d year id
  = ARCHIVE_ROOT ++ filename_prefix_L3 data_type e n d year ++ ".zip?id=" ++ id
  /\ str_in (filename_prefix_L3 data_type e n d year)
            (BASE_URL_L3 data_type e n d year id) = true.
Proof.
  assert (H : BASE_URL_L3 data_type e n d year id
              = ARCHIVE_ROOT ++ filename_prefix_L3 data_type e n d year
                  ++ ".zip?id=" ++ id).
  { unfold BASE_URL_L3, filename_prefix_L3. f_equal.
    repeat rewrite !append_assoc. reflexivity. }
  split; [exact H|].
  apply str_in_iff. now exists ARCHIVE_ROOT, (".zip?id=" ++ id).
Qed.

Lemma str_int_nonempty (z : Z) : str_int z <> "".
Proof.
  unfold str_int, NilZero.string_of_int, NilZero.string_of_uint.
  destruct (Z.to_int z) as [d|d]; [|discriminate].
  destruct d; discriminate.
Qed.

Lemma format_0d_nonempty (w : nat) (z : Z) : format_0d w z <> "".
Proof.
  intros H. apply (f_equal String.length) in H.
  unfold format_0d in H. rewrite !append_length in H. cbn [String.length] in H.
  assert (Hd := str_int_nonempty (Z.abs z)).
  destruct (str_int (Z.abs z)); [contradiction|]. cbn [String.length] in H. lia.
Qed.

(** The swath and the polarization of an enumerated task are among the
    selected ones. *)
Lemma l2_tasks_in (min_o max_o min_b max_b : Z) (ss ps : list string)
    (o b : Z) (sw pol : string) :
  In (o, b, sw, pol) (l2_tasks min_o max_o min_b max_b ss ps) -> In sw ss /\ In pol ps.
Proof.
  rewrite <- l2_nested_tasks. intros H.
  apply in_prod_iff in H. destruct H as [H Hp].
  apply in_prod_iff in H. destruct H as [_ Hs].
  now split.
Qed.

Lemma flat_map_singleton_in {A B} (f : A -> list B) (g : A -> B) (l : list A) :
  (forall x, In x l -> f x = [g x]) -> flat_map f l = map g l.
Proof.
  induction l as [|x l IH]; intros H; [reflexivity|].
  cbn. rewrite (H x (or_introl eq_refl)), IH; [reflexivity|].
  intros y Hy. apply H. now right.
Qed.

(** X3. In an orbit batch no task is dropped for a missing parameter.  The
    padded orbit and burst-cycle texts are never empty, whatever the
    numbers are; so when the selected swath and polarization names are not
    empty (the page's options are not), every task of the loop makes its
    request: the requests are the URLs of the enumerated tasks, in order,
    one for each task. *)
Theorem orbit_batch_requests_every_task
    (min_o max_o min_b max_b : Z) (ss ps : list string)
    (data_type year id_value : string) (total : Z) (fd : files) (tc : Z)
    (r : runtime World) :
  data_type <> "L3" ->
  Forall (fun s => s <> "") ss ->
  Forall (fun p => p <> "") ps ->
  (forall (w : nat) (z : Z), truthy_str (Some (format_0d w z)) = true)
  /\ exists st' trs w',
      l2_batch_loop min_o max_o min_b max_b ss ps data_type year id_value total (fd, tc) r
      = (st', mk w' (ui r ++ trs) (session r))
      /\ requested trs
         = map (l2_task_url data_type year id_value)
               (l2_tasks min_o max_o min_b max_b ss ps)
      /\ List.length (requested trs)
         = (span min_o max_o * span min_b max_b * List.length ss * List.length ps)%nat.
Proof.
  intros Hdt Hss Hps.
  assert (Hfmt : forall (w : nat) (z : Z), truthy_str (Some (format_0d w z)) = true).
  { intros w z. apply truthy_of_neq, format_0d_nonempty. }
  split; [exact Hfmt|].
  destruct (l2_batch_loop_run min_o max_o min_b max_b ss ps data_type year id_value
              total fd tc r Hdt)
    as (ress & trs & w' & Hrun & Hpost).
  eexists _, trs, w'. split; [exact Hrun|].
  assert (Hurls : forall t, In t (l2_tasks min_o max_o min_b max_b ss ps) ->
                            l2_task_urls data_type year id_value t
                            = [l2_task_url data_type year id_value t]).
  { intros [[[o b] sw] pol] Hin.
    destruct (l2_tasks_in _ _ _ _ _ _ _ _ _ _ Hin) as [Hs Hp].
    unfold l2_task_urls, l2_task_url, l2_task_args, all. cbn [forallb].
    rewrite !Hfmt.
    rewrite (truthy_of_neq sw (proj1 (Forall_forall _ _) Hss sw Hs)).
    rewrite (truthy_of_neq pol (proj1 (Forall_forall _ _) Hps pol Hp)).
    reflexivity. }
  assert (Hreq : requested trs
                 = map (l2_task_url data_type year id_value)
                       (l2_tasks min_o max_o min_b max_b ss ps)).
  { rewrite (run_requested _ _ _ _ _ _ _ Hpost).
    now apply flat_map_singleton_in. }
  split; [exact Hreq|].
  now rewrite Hreq, length_map, l2_tasks_length.
Qed.

(** X4. [create_batch_zip] writes exactly the entries of [files_data] whose
    data is not [None], in order and with repetitions: a pair is written
    if and only if it is in [files_data], and an entry of zero bytes is
    written like any other. *)
Theorem written_entries (files_data more : files) (filename : string) (b : bytes) :
  (In (filename, b) (written files_data) <-> In (filename, Some b) files_data)
  /\ written (files_data ++ more)%list = (written files_data ++ written more)%list
  /\ written ((filename, None) :: files_data) = written files_data
  /\ written ((filename, Some []) :: files_data) = (filename, []) :: written files_data
  /\ (List.length (written files_data) <= List.length files_data)%nat.
Proof.
  split.
  { induction files_data as [|[f [d|]] l IH]; cbn.
    - reflexivity.
    - rewrite IH. split.
      + intros [H|H]; [left; now inversion H|now right].
      + intros [H|H]; [left; now inversion H|now right].
    - rewrite IH. split.
      + intros H. now right.
      + intros [H|H]; [discriminate|exact H]. }
  split.
  { induction files_data as [|[f [d|]] l IH]; cbn; [reflexivity| |exact IH].
    now rewrite IH. }
  split; [reflexivity|]. split; [reflexivity|].
  induction files_data as [|[f [d|]] l IH]; cbn; lia.
Qed.

(** *** One call, in general *)

(** The trace of one call: nothing but the report when a parameter is
    missing, otherwise the spinner, the request and the report. *)
Lemma fetch_file_data_shape (e n : Z) (d data_type year id : string)
    (ro bc sw pol : option string) (r : runtime World) :
  exists res pre oc w' fp,
    fetch_file_data e n d data_type year id ro bc sw pol r
    = (res, mk w' (ui r ++ pre ++ [oc]) (session r))
    /\ fetch_outcome fp res oc
    /\ ((pre = [] /\ w' = world r) \/ exists p u, pre = [StSpinner p; HttpGet u]).
Proof.
  unfold fetch_file_data.
  destruct (String.eqb data_type "L3").
  - destruct (fetch_spec (filename_prefix_L3 data_type e n d year)
                (BASE_URL_L3 data_type e n d year id) r) as (res & oc & w' & Hf & Ho).
    rewrite Hf. eexists res, [_; _], oc, w', _.
    split; [reflexivity|]. split; [exact Ho|]. right. now eexists _, _.
  - destruct (negb (all [truthy_str ro; truthy_str bc; truthy_str sw; truthy_str pol])).
    + eexists (None, None), [], (StError _), (world r), "".
      split; [reflexivity|]. split; [constructor|]. now left.
    + destruct (fetch_spec (filename_prefix_L2 data_type ro bc sw pol year)
                  (url_L2 data_type ro bc sw pol year id) r) as (res & oc & w' & Hf & Ho).
      rewrite Hf. eexists res, [_; _], oc, w', _.
      split; [reflexivity|]. split; [exact Ho|]. right. now eexists _, _.
Qed.

(** X5. A call of [fetch_file_data] returns either [(None, None)] or a pair
    of bytes and a filename that ends in [.csv]; the filename is then never
    empty, so the callers' test [csv_data and csv_filename] is the test that
    the bytes are not empty.  The call makes at most one request, leaves
    exactly one report and does not touch the session state. *)
Theorem fetch_returns_all_or_nothing (e n : Z) (d data_type year id : string)
    (relative_orbit burst_cycle swath polarization : option string) (r : runtime World) :
  exists res tr w',
    fetch_file_data e n d data_type year id relative_orbit burst_cycle swath polarization r
    = (res, mk w' (ui r ++ tr) (session r))
    /\ (res = (None, None)
        \/ exists data name,
            res = (Some data, Some name) /\ endswith name ".csv" = true /\ name <> "")
    /\ fetched_ok res = truthy_bytes (fst res)
    /\ (List.length (requested tr) <= 1)%nat
    /\ List.length (filter is_outcome tr) = 1%nat.
Proof.
  destruct (fetch_file_data_shape e n d data_type year id
              relative_orbit burst_cycle swath polarization r)
    as (res & pre & oc & w' & fp & Hf & Ho & Hpre).
  exists res, (pre ++ [oc])%list, w'. split; [exact Hf|].
  assert (Hreq : (List.length (requested (pre ++ [oc])) <= 1)%nat
                 /\ List.length (filter is_outcome (pre ++ [oc])) = 1%nat).
  { destruct Hpre as [[-> _]|(p & u & ->)]; destruct Ho; cbn; split; lia. }
  destruct Ho as [msg|data name Hpay].
  - split; [now left|]. split; [reflexivity|exact Hreq].
  - assert (Hname := payload_name_nonempty _ _ Hpay).
    split.
    + right. exists data, name. split; [reflexivity|].
      split; [unfold is_payload in Hpay; now apply andb_true_iff in Hpay|].
      intros ->. discriminate.
    + split; [|exact Hreq].
      unfold fetched_ok. cbn [fst snd]. rewrite Hname. apply andb_true_r.
Qed.

(** X6. An exception raised by the request, or by opening the body of a 200
    response as a zip archive, does not leave [fetch_file_data]'s [try]: the
    result is [(None, None)] and the report is "Error fetching", the prefix
    and the exception's text. *)
Theorem exceptions_end_in_error_report (filename_prefix url : string) (r : runtime World)
    (e : exn) (w' : World) :
  (curl_get url (world r) = (inl e, w')
   \/ exists resp, curl_get url (world r) = (inr resp, w')
                   /\ status_code resp = 200
                   /\ ZipFile (content resp) = inl e) ->
  fetch filename_prefix url r =
  ((None, None),
   mk w' (ui r ++ [StSpinner ("Fetching " ++ filename_prefix ++ "..."); HttpGet url;
                   StError ("Error fetching " ++ filename_prefix ++ ": " ++ e)])
      (session r)).
Proof.
  intros [Hget|(resp & Hget & Hcode & Hzip)].
  - now apply fetch_transport_error.
  - now apply (fetch_corrupt_archive _ _ _ resp).
Qed.

(** X7. A 200 response whose archive has no member passing the test of line
    93 (an empty archive included) gives [(None, None)] and the report "No
    matching CSV found in the downloaded zip for" the prefix. *)
Theorem no_matching_member_is_reported (filename_prefix url : string) (r : runtime World)
    (resp : response) (w' : World) (z : archive) :
  curl_get url (world r) = (inr resp, w') ->
  status_code resp = 200 ->
  ZipFile (content resp) = inr z ->
  forallb (fun name => negb (is_payload filename_prefix name)) (namelist z) = true ->
  fetch filename_prefix url r =
  ((None, None),
   mk w' (ui r ++ [StSpinner ("Fetching " ++ filename_prefix ++ "..."); HttpGet url;
                   StError ("No matching CSV found in the downloaded zip for "
                            ++ filename_prefix)])
      (session r)).
Proof.
  intros Hget Hcode Hzip Hnone.
  rewrite (fetch_200 _ _ _ _ _ _ Hget Hcode Hzip). cbn zeta.
  assert (Hfind : find (is_payload filename_prefix) (namelist z) = None).
  { induction (namelist z) as [|name names IH]; [reflexivity|].
    cbn in Hnone |- *. apply andb_true_iff in Hnone. destruct Hnone as [Hn Hrest].
    apply negb_true_iff in Hn. rewrite Hn. now apply IH. }
  rewrite Hfind, <- app_assoc. reflexivity.
Qed.

(** *** Pacing *)

Lemma paced_turn (body : list event) (secs : Z) (rest : list event) :
  filter is_sleep body = [] ->
  forall armed,
    paced_from armed (body ++ Sleep secs :: rest)
    = (if armed then (List.length (requested body) =? 0)%nat
       else (List.length (requested body) <=? 1)%nat)
      && paced_from false rest.
Proof.
  induction body as [|ev body IH]; intros Hns armed.
  - cbn. now destruct armed.
  - destruct ev; cbn in Hns; try discriminate;
      cbn [app paced_from requested filter_map get_url];
      try (rewrite (IH Hns); reflexivity).
    rewrite (IH Hns true). fold (requested body).
    destruct armed; cbn [negb andb List.length]; [reflexivity|].
    destruct (List.length (requested body)); reflexivity.
Qed.

Lemma run_paced {A : Type} (xs : list A) (tc : Z)
    (ress : list (option bytes * option string)) (trs : list event) :
  run_post (fun _ _ _ tr => turn_shape tr) xs tc ress trs ->
  forall rest, paced_from false (trs ++ rest) = paced_from false rest.
Proof.
  induction 1 as [|x xs tc res tr ress trs Hp _ IH]; intros rest; [reflexivity|].
  destruct Hp as (body & secs & -> & Hns & Hreq).
  rewrite <- !app_assoc. cbn [app].
  rewrite (paced_turn body secs _ Hns false), IH.
  apply Nat.leb_le in Hreq. now rewrite Hreq.
Qed.

Lemma l3_task_step_turn (year id_value : string) (total_tasks : Z)
    (t : Z * Z * string) (fd : files) (tc : Z) (r : runtime World) :
  exists res tr w',
    l3_task_step year id_value total_tasks t (fd, tc) r =
    ((keep fd res, tc + 1), mk w' (ui r ++ tr) (session r))
    /\ turn_shape tr.
Proof.
  destruct t as [[e n] d]. unfold l3_task_step. cbn [fst snd].
  set (lbl := l3_label e n d (tc + 1) total_tasks).
  set (r1 := mk (world r) (ui r ++ [Progress (tc + 1) total_tasks; StatusText lbl])
                (session r)).
  destruct (fetch_file_data_shape e n d "L3" year id_value None None None None r1)
    as (res & pre & oc & w' & fp & Hf & Ho & Hpre).
  exists res,
    (([Progress (tc + 1) total_tasks; StatusText lbl] ++ pre ++ [oc]) ++ [Sleep 1])%list, w'.
  split.
  - unfold l3_batch_step, bind, progress, status_text, sleep, emit, ret. cbn.
    rewrite <- app_assoc. cbn [app]. fold lbl. fold r1.
    unfold mk in r1. fold r1. rewrite Hf. unfold mk, r1. cbn.
    rewrite <- !app_assoc. reflexivity.
  - eexists _, 1. split; [reflexivity|].
    destruct Hpre as [[-> _]|(p & u & ->)]; destruct Ho; cbn; split;
      solve [reflexivity | lia].
Qed.

Lemma l2_task_step_turn (data_type year id_value : string) (total : Z)
    (t : Z * Z * string * string) (fd : files) (tc : Z) (r : runtime World) :
  exists res tr w',
    l2_task_step data_type year id_value total t (fd, tc) r =
    ((keep fd res, tc + 1), mk w' (ui r ++ tr) (session r))
    /\ turn_shape tr.
Proof.
  destruct t as [[[o b] s] p]. unfold l2_task_step. cbn [fst snd].
  set (lbl := l2_label data_type (format_0d 3 o) (format_0d 4 b) s p (tc + 1) total).
  set (r1 := mk (world r) (ui r ++ [Progress (tc + 1) total; StatusText lbl]) (session r)).
  destruct (fetch_file_data_shape 0 0 "" data_type year id_value
              (Some (format_0d 3 o)) (Some (format_0d 4 b)) (Some s) (Some p) r1)
    as (res & pre & oc & w' & fp & Hf & Ho & Hpre).
  exists res,
    (([Progress (tc + 1) total; StatusText lbl] ++ pre ++ [oc]) ++ [Sleep 1])%list, w'.
  split.
  - unfold l2_batch_step, bind, progress, status_text, sleep, emit, ret. cbn.
    rewrite <- app_assoc. cbn [app]. fold lbl. fold r1.
    unfold mk in r1. fold r1. rewrite Hf. unfold mk, r1. cbn.
    rewrite <- !app_assoc. reflexivity.
  - eexists _, 1. split; [reflexivity|].
    destruct Hpre as [[-> _]|(q & u & ->)]; destruct Ho; cbn; split;
      solve [reflexivity | lia].
Qed.

(** X8. In both batch loops a [sleep] separates any two requests: every
    turn makes at most one request and ends with its [sleep], so the trace of
    the whole loop is paced, whatever the turns return. *)
Theorem batch_requests_are_paced
    (min_e max_e min_n max_n : Z) (ds : list string)
    (min_o max_o min_b max_b : Z) (ss ps : list string)
    (data_type year id_value : string) (total : Z) (fd : files) (tc : Z)
    (r : runtime World) :
  (exists st' trs w',
      l3_batch_loop min_e max_e min_n max_n ds year id_value total (fd, tc) r
      = (st', mk w' (ui r ++ trs) (session r))
      /\ paced trs = true)
  /\
  (exists st' trs w',
      l2_batch_loop min_o max_o min_b max_b ss ps data_type year id_value total (fd, tc) r
      = (st', mk w' (ui r ++ trs) (session r))
      /\ paced trs = true).
Proof.
  split.
  - destruct (for_each_run (l3_task_step year id_value total)
                (fun _ _ _ tr => turn_shape tr)
                (l3_task_step_turn year id_value total)
                (l3_tasks min_e max_e min_n max_n ds) fd tc r)
      as (ress & trs & w' & Hrun & Hpost).
    rewrite <- l3_batch_loop_flat in Hrun.
    eexists _, trs, w'. split; [exact Hrun|].
    unfold paced. rewrite <- (app_nil_r trs). now rewrite (run_paced _ _ _ _ Hpost).
  - destruct (for_each_run (l2_task_step data_type year id_value total)
                (fun _ _ _ tr => turn_shape tr)
                (l2_task_step_turn data_type year id_value total)
                (l2_tasks min_o max_o min_b max_b ss ps) fd tc r)
      as (ress & trs & w' & Hrun & Hpost).
    rewrite <- l2_batch_loop_flat in Hrun.
    eexists _, trs, w'. split; [exact Hrun|].
    unfold paced. rewrite <- (app_nil_r trs). now rewrite (run_paced _ _ _ _ Hpost).
Qed.

(** *** What the batch handlers deliver *)

Lemma keep_cases (res : option bytes * option string) :
  keep [] res = []
  \/ exists name data,
      res = (Some data, Some name) /\ data <> [] /\ keep [] res = [(name, Some data)].
Proof.
  unfold keep, fetched_ok. destruct res as [[data|] [name|]]; cbn; try now left.
  - destruct data as [|b data]; cbn; [now left|].
    destruct (negb (String.eqb name "")); [|now left].
    right. exists name, (b :: data). now repeat split.
  - destruct data; now left.
Qed.

Lemma run_members {A : Type} (label : A -> Z -> string) (prefix_of : A -> string)
    (urls_of : A -> list string) (xs : list A) (tc : Z)
    (ress : list (option bytes * option string)) (trs : list event) :
  run_post (fun t k => step_post (label t k) (prefix_of t) (urls_of t)) xs tc ress trs ->
  exists members,
    kept ress = as_files members
    /\ Forall (fun m => snd m <> [] /\ endswith (fst m) ".csv" = true) members
    /\ (List.length members <= List.length xs)%nat.
Proof.
  induction 1 as [|x xs tc res tr ress trs Hp _ IH].
  - exists []. now repeat split.
  - destruct IH as (members & Hk & Hall & Hlen).
    destruct Hp as (_ & _ & _ & oc & _ & Hf).
    cbn [kept]. destruct (keep_cases res) as [Hnone|(name & data & Hres & Hdata & Hkeep)].
    + rewrite Hnone. exists members. cbn. repeat split; [exact Hk|exact Hall|lia].
    + rewrite Hkeep, Hk. exists ((name, data) :: members).
      split; [reflexivity|]. split; [|cbn; lia].
      constructor; [|exact Hall]. split; [exact Hdata|].
      rewrite Hres in Hf. inversion Hf as [|d0 n0 Hpay]; subst.
      unfold is_payload in Hpay. now apply andb_true_iff in Hpay.
Qed.

Lemma deliver_batch_as_files (zip_name : string) (m : string * bytes)
    (members : list (string * bytes)) (r : runtime World) :
  deliver_batch zip_name (as_files (m :: members)) r
  = (tt, mk (world r)
            (ui r ++ [StatusText ("✅ Ready! " ++ str_int (len (m :: members))
                                  ++ " files prepared for download")])
            {| download_ready := true;
               download_data := Some (zip_getvalue (m :: members));
               download_filename := zip_name |}).
Proof.
  unfold as_files. cbn [map]. rewrite deliver_batch_some.
  fold (as_files members).
  change ((fst m, Some (snd m)) :: as_files members) with (as_files (m :: members)).
  rewrite written_as_files. unfold len, as_files. now rewrite length_map.
Qed.

(** X9. A batch delivers exactly what it kept.  Every kept payload has at
    least one byte and a name ending in [.csv], and there are at most as many
    as tasks.  With none, the session state is untouched and the last line is
    "No files could be downloaded"; otherwise the session holds the archive
    of precisely these members under the batch's zip name, and the last line
    announces their number. *)
Theorem batch_delivers_what_it_kept
    (min_e max_e min_n max_n : Z) (disp_choice : string)
    (min_o max_o min_b max_b : Z) (ss ps : list string)
    (data_type year id_value : string) (r : runtime World) :
  data_type <> "L3" -> ss <> [] -> ps <> [] ->
  (exists members tr,
      Forall (fun m => snd m <> [] /\ endswith (fst m) ".csv" = true) members
      /\ (List.length members
          <= span min_e max_e * span min_n max_n
             * List.length (displacements_of disp_choice))%nat
      /\ ((members = []
           /\ snd (prepare_l3_batch min_e max_e min_n max_n disp_choice year id_value r)
              = mk (world (snd (prepare_l3_batch min_e max_e min_n max_n disp_choice
                                  year id_value r)))
                   (ui r ++ tr ++ [StatusText "❌ No files could be downloaded"])
                   (session r))
          \/ (members <> []
              /\ snd (prepare_l3_batch min_e max_e min_n max_n disp_choice year id_value r)
                 = mk (world (snd (prepare_l3_batch min_e max_e min_n max_n disp_choice
                                     year id_value r)))
                      (ui r ++ tr
                         ++ [StatusText ("✅ Ready! " ++ str_int (len members)
                                         ++ " files prepared for download")])
                      {| download_ready := true;
                         download_data := Some (zip_getvalue members);
                         download_filename :=
                           "EGMS_L3_E" ++ str_int min_e ++ "-" ++ str_int max_e
                             ++ "_N" ++ str_int min_n ++ "-" ++ str_int max_n
                             ++ "_" ++ year ++ "_batch.zip" |})))
  /\
  (exists members tr,
      Forall (fun m => snd m <> [] /\ endswith (fst m) ".csv" = true) members
      /\ (List.length members
          <= span min_o max_o * span min_b max_b * List.length ss * List.length ps)%nat
      /\ ((members = []
           /\ snd (prepare_l2_batch min_o max_o min_b max_b ss ps data_type year id_value r)
              = mk (world (snd (prepare_l2_batch min_o max_o min_b max_b ss ps
                                  data_type year id_value r)))
                   (ui r ++ tr ++ [StatusText "❌ No files could be downloaded"])
                   (session r))
          \/ (members <> []
              /\ snd (prepare_l2_batch min_o max_o min_b max_b ss ps
                        data_type year id_value r)
                 = mk (world (snd (prepare_l2_batch min_o max_o min_b max_b ss ps
                                     data_type year id_value r)))
                      (ui r ++ tr
                         ++ [StatusText ("✅ Ready! " ++ str_int (len members)
                                         ++ " files prepared for download")])
                      {| download_ready := true;
                         download_data := Some (zip_getvalue members);
                         download_filename :=
                           "EGMS_" ++ data_type ++ "_batch_" ++ year ++ ".zip" |}))).
Proof.
  intros Hdt Hss Hps. split.
  - destruct (prepare_l3_batch_run min_e max_e min_n max_n disp_choice year id_value r)
      as (ress & trs & w' & Hpost & Heq).
    destruct (run_members
                (l3_task_label ((max_e - min_e + 1) * (max_n - min_n + 1)
                                * len (displacements_of disp_choice)))
                (l3_task_prefix year) (fun t => [l3_task_url year id_value t])
                _ _ _ _ Hpost) as (members & Hk & Hall & Hlen).
    rewrite l3_tasks_length in Hlen.
    exists members,
      ([Progress 0 1] ++ trs ++ [Progress 1 1; StatusText "Creating batch download..."])%list.
    split; [exact Hall|]. split; [exact Hlen|].
    rewrite Heq, Hk. destruct members as [|m members].
    + left. split; [reflexivity|].
      change (as_files []) with (@nil (string * option bytes)).
      rewrite deliver_batch_none. unfold mk. cbn [snd world ui session].
      rewrite <- !app_assoc. reflexivity.
    + right. split; [discriminate|].
      rewrite deliver_batch_as_files. unfold mk. cbn [snd world ui session].
      rewrite <- !app_assoc. reflexivity.
  - destruct (prepare_l2_batch_run min_o max_o min_b max_b ss ps data_type year id_value r
                Hdt Hss Hps)
      as (ress & trs & w' & Hpost & Heq).
    destruct (run_members
                (l2_task_label data_type ((max_o - min_o + 1) * (max_b - min_b + 1)
                                          * len ss * len ps))
                (l2_task_prefix data_type year) (l2_task_urls data_type year id_value)
                _ _ _ _ Hpost) as (members & Hk & Hall & Hlen).
    rewrite l2_tasks_length in Hlen.
    exists members,
      ([Progress 0 1] ++ trs ++ [Progress 1 1; StatusText "Creating batch download..."])%list.
    split; [exact Hall|]. split; [exact Hlen|].
    rewrite Heq, Hk. destruct members as [|m members].
    + left. split; [reflexivity|].
      change (as_files []) with (@nil (string * option bytes)).
      rewrite deliver_batch_none. unfold mk. cbn [snd world ui session].
      rewrite <- !app_assoc. reflexivity.
    + right. split; [discriminate|].
      rewrite deliver_batch_as_files. unfold mk. cbn [snd world ui session].
      rewrite <- !app_assoc. reflexivity.
Qed.

(** *** The single-file grid handler *)

Lemma run_post_impl {A : Type}
    (P Q : A -> Z -> option bytes * option string -> list event -> Prop)
    (xs : list A) (tc : Z) (ress : list (option bytes * option string))
    (trs : list event) :
  (forall x k res tr, P x k res tr -> Q x k res tr) ->
  run_post P xs tc ress trs -> run_post Q xs tc ress trs.
Proof. intros HPQ. induction 1; constructor; auto. Qed.

Lemma l3_single_loop_run (e_coord n_coord : Z) (year id_value : string)
    (ds : list string) (items : list (Z * string)) :
  forall (fd : files) (r : runtime World),
  exists ress trs w',
    for_each items (l3_single_step e_coord n_coord year id_value ds) fd r
    = ((fd ++ kept ress)%list, mk w' (ui r ++ trs) (session r))
    /\ run_post (fun it _ => l3_single_post e_coord n_coord year id_value ds it)
                items 0 ress trs.
Proof.
  assert (Hgen : forall (tc : Z) (fd : files) (r : runtime World),
             exists ress trs w',
               for_each items (l3_single_step e_coord n_coord year id_value ds) fd r
               = ((fd ++ kept ress)%list, mk w' (ui r ++ trs) (session r))
               /\ run_post (fun it _ => l3_single_post e_coord n_coord year id_value ds it)
                           items tc ress trs).
  { induction items as [|[i d] items IH]; intros tc fd r.
    - exists [], [], (world r). split; [|constructor].
      cbn. unfold ret, mk. rewrite !app_nil_r. destruct r; reflexivity.
    - set (r1 := mk (world r)
                    (ui r ++ [Progress i (len ds);
                              StatusText ("Fetching " ++ d ++ " displacement data...")])
                    (session r)).
      destruct (fetch_spec (filename_prefix_L3 "L3" e_coord n_coord d year)
                  (BASE_URL_L3 "L3" e_coord n_coord d year id_value) r1)
        as (res & oc & w1 & Hf & Ho).
      destruct (IH (tc + 1) (keep fd res)
                  (mk w1 (ui r1 ++ [StSpinner ("Fetching "
                                      ++ filename_prefix_L3 "L3" e_coord n_coord d year
                                      ++ "...");
                                    HttpGet (BASE_URL_L3 "L3" e_coord n_coord d year id_value);
                                    oc; Sleep 1]) (session r)))
        as (ress & trs & w2 & Hl & Hr).
      exists (res :: ress),
        ([Progress i (len ds); StatusText ("Fetching " ++ d ++ " displacement data...");
          StSpinner ("Fetching " ++ filename_prefix_L3 "L3" e_coord n_coord d year ++ "...");
          HttpGet (BASE_URL_L3 "L3" e_coord n_coord d year id_value); oc; Sleep 1]
           ++ trs)%list, w2.
      split.
      + cbn [for_each]. unfold bind at 1.
        assert (Hstep : l3_single_step e_coord n_coord year id_value ds (i, d) fd r
                        = (keep fd res,
                           mk w1 (ui r1 ++ [StSpinner ("Fetching "
                                              ++ filename_prefix_L3 "L3" e_coord n_coord d year
                                              ++ "...");
                                            HttpGet (BASE_URL_L3 "L3" e_coord n_coord d
                                                       year id_value);
                                            oc; Sleep 1]) (session r))).
        { unfold l3_single_step, bind, progress, status_text, sleep, emit, ret.
          cbn -[append].
          rewrite fetch_file_data_L3. rewrite <- app_assoc. cbn [app].
          unfold r1, mk in Hf. cbn [world ui session] in Hf. rewrite Hf.
          unfold r1, mk. cbn [world ui session]. rewrite <- !app_assoc. reflexivity. }
        rewrite Hstep, Hl. cbn [kept]. rewrite (keep_app fd res).
        unfold r1, mk. cbn [ui session]. rewrite <- !app_assoc. reflexivity.
      + apply (run_cons _ (i, d) items tc res _ ress trs); [|exact Hr].
        exists oc. split; [reflexivity|exact Ho]. }
  exact (Hgen 0).
Qed.

Lemma l3_single_post_step (e_coord n_coord : Z) (year id_value : string)
    (ds : list string) (it : Z * string) (k : Z)
    (res : option bytes * option string) (tr : list event) :
  l3_single_post e_coord n_coord year id_value ds it res tr ->
  step_post ("Fetching " ++ snd it ++ " displacement data...")
            (filename_prefix_L3 "L3" e_coord n_coord (snd it) year)
            [BASE_URL_L3 "L3" e_coord n_coord (snd it) year id_value] res tr.
Proof. intros (oc & -> & Ho). destruct Ho; solve_step_post. Qed.

Lemma run_single_progress (e_coord n_coord : Z) (year id_value : string)
    (ds : list string) (items : list (Z * string)) (tc : Z)
    (ress : list (option bytes * option string)) (trs : list event) :
  run_post (fun it _ => l3_single_post e_coord n_coord year id_value ds it)
           items tc ress trs ->
  Forall (fun it => 0 <= fst it < len ds) items ->
  Forall progress_in_range trs.
Proof.
  induction 1 as [|x xs tc res tr ress trs Hp _ IH]; intros Hall; [constructor|].
  inversion Hall as [|? ? Hx Hxs]; subst.
  apply Forall_app. split; [|now apply IH].
  destruct Hp as (oc & -> & Ho).
  destruct Ho; repeat constructor; cbn; lia.
Qed.

Lemma enumerate_items (disp_choice : string) :
  map snd (enumerate (displacements_of disp_choice)) = displacements_of disp_choice
  /\ Forall (fun it => 0 <= fst it < len (displacements_of disp_choice))
            (enumerate (displacements_of disp_choice)).
Proof.
  unfold displacements_of. destruct (String.eqb disp_choice "Both"); cbn.
  - split; [reflexivity|]. repeat constructor; cbn; lia.
  - split; [reflexivity|]. repeat constructor; cbn; lia.
Qed.

Lemma prepare_l3_single_run (e_coord n_coord : Z) (disp_choice year id_value : string)
    (r : runtime World) :
  exists ress trs w',
    run_post (fun it _ => l3_single_post e_coord n_coord year id_value
                            (displacements_of disp_choice) it)
             (enumerate (displacements_of disp_choice)) 0 ress trs
    /\ prepare_l3_single e_coord n_coord disp_choice year id_value r
       = deliver_single e_coord n_coord year (kept ress)
           (mk w' (ui r ++ [Progress 0 1] ++ trs
                     ++ [Progress 1 1; StatusText "Preparing download..."])
               (session r)).
Proof.
  destruct (l3_single_loop_run e_coord n_coord year id_value
              (displacements_of disp_choice) (enumerate (displacements_of disp_choice))
              [] (mk (world r) (ui r ++ [Progress 0 1]) (session r)))
    as (ress & trs & w' & Hrun & Hpost).
  exists ress, trs, w'. split; [exact Hpost|].
  unfold prepare_l3_single, bind, progress, status_text, emit. cbn zeta.
  unfold mk, files in *. rewrite Hrun. cbn [fst snd world ui session app].
  rewrite <- !app_assoc. reflexivity.
Qed.

Lemma deliver_single_none (e_coord n_coord : Z) (year : string) (r : runtime World) :
  deliver_single e_coord n_coord year [] r = (tt, r).
Proof. reflexivity. Qed.

Lemma deliver_single_one (e_coord n_coord : Z) (year : string) (m : string * bytes)
    (r : runtime World) :
  deliver_single e_coord n_coord year (as_files [m]) r
  = (tt, mk (world r) (ui r ++ [StatusText "✅ Ready for download!"])
            {| download_ready := true;
               download_data := Some (snd m);
               download_filename := fst m |}).
Proof. reflexivity. Qed.

Lemma deliver_single_many (e_coord n_coord : Z) (year : string) (m1 m2 : string * bytes)
    (members : list (string * bytes)) (r : runtime World) :
  deliver_single e_coord n_coord year (as_files (m1 :: m2 :: members)) r
  = (tt, mk (world r) (ui r ++ [StatusText "✅ Ready for download!"])
            {| download_ready := true;
               download_data := Some (zip_getvalue (m1 :: m2 :: members));
               download_filename :=
                 "EGMS_L3_E" ++ str_int e_coord ++ "N" ++ str_int n_coord
                   ++ "_" ++ year ++ "_batch.zip" |}).
Proof.
  unfold deliver_single, create_batch_zip. rewrite written_as_files. reflexivity.
Qed.

(** *** The handlers against the batch result *)

Lemma l3_single_loop_successes (e_coord n_coord : Z) (year id_value : string)
    (ds : list string) (items : list (Z * string)) :
  forall (fd : files) (r : runtime World),
  exists trs w',
    for_each items (l3_single_step e_coord n_coord year id_value ds) fd r
    = ((fd ++ as_files (batch_successes
                          (fun d => filename_prefix_L3 "L3" e_coord n_coord d year)
                          (fun d => [BASE_URL_L3 "L3" e_coord n_coord d year id_value])
                          (map snd items) (world r)))%list,
       mk w' (ui r ++ trs) (session r)).
Proof.
  induction items as [|[i d] items IH]; intros fd r.
  - exists [], (world r). cbn. unfold ret, mk. rewrite !app_nil_r. destruct r; reflexivity.
  - set (r1 := mk (world r)
                  (ui r ++ [Progress i (len ds);
                            StatusText ("Fetching " ++ d ++ " displacement data...")])
                  (session r)).
    destruct (fetch_payload (filename_prefix_L3 "L3" e_coord n_coord d year)
                (BASE_URL_L3 "L3" e_coord n_coord d year id_value) r1)
      as (oc & Hf).
    set (found := payload_of (filename_prefix_L3 "L3" e_coord n_coord d year)
                    (BASE_URL_L3 "L3" e_coord n_coord d year id_value) (world r)).
    set (w1 := snd (curl_get (BASE_URL_L3 "L3" e_coord n_coord d year id_value) (world r))).
    set (tr := [Progress i (len ds);
                StatusText ("Fetching " ++ d ++ " displacement data...");
                StSpinner ("Fetching " ++ filename_prefix_L3 "L3" e_coord n_coord d year
                             ++ "...");
                HttpGet (BASE_URL_L3 "L3" e_coord n_coord d year id_value);
                oc; Sleep 1]).
    assert (Hstep : l3_single_step e_coord n_coord year id_value ds (i, d) fd r
                    = ((fd ++ as_files (success_of found))%list,
                       mk w1 (ui r ++ tr) (session r))).
    { unfold l3_single_step, bind, progress, status_text, sleep, emit, ret.
      cbn -[append].
      rewrite fetch_file_data_L3. rewrite <- app_assoc. cbn [app].
      unfold r1, mk in Hf. cbn [world ui session] in Hf. rewrite Hf.
      rewrite (keep_fetched _ _ _ fd).
      unfold mk, tr, found, w1. cbn [world ui session fst snd].
      rewrite <- !app_assoc. reflexivity. }
    destruct (IH (fd ++ as_files (success_of found))%list (mk w1 (ui r ++ tr) (session r)))
      as (trs & w2 & Hl).
    exists (tr ++ trs)%list, w2.
    cbn [for_each map snd batch_successes task_payload]. unfold bind at 1.
    rewrite Hstep. fold found. fold w1.
    etransitivity; [exact Hl|]. cbn [world ui session mk].
    unfold as_files. rewrite map_app, <- !app_assoc. reflexivity.
Qed.

Lemma prepare_l3_single_exact (e_coord n_coord : Z) (disp_choice year id_value : string)
    (r : runtime World) :
  exists tr w',
    prepare_l3_single e_coord n_coord disp_choice year id_value r
    = deliver_single e_coord n_coord year
        (as_files (batch_successes
                     (fun d => filename_prefix_L3 "L3" e_coord n_coord d year)
                     (fun d => [BASE_URL_L3 "L3" e_coord n_coord d year id_value])
                     (displacements_of disp_choice) (world r)))
        (mk w' (ui r ++ tr) (session r)).
Proof.
  destruct (l3_single_loop_successes e_coord n_coord year id_value
              (displacements_of disp_choice) (enumerate (displacements_of disp_choice))
              [] (mk (world r) (ui r ++ [Progress 0 1]) (session r)))
    as (trs & w' & Hrun).
  rewrite (proj1 (enumerate_items disp_choice)) in Hrun.
  exists ([Progress 0 1] ++ trs ++ [Progress 1 1; StatusText "Preparing download..."])%list,
    w'.
  unfold prepare_l3_single, bind, progress, status_text, emit. cbn zeta.
  unfold mk, files in *. rewrite Hrun. cbn [fst snd world ui session app].
  rewrite <- !app_assoc. reflexivity.
Qed.

Lemma prepare_l3_batch_exact (min_e max_e min_n max_n : Z)
    (disp_choice year id_value : string) (r : runtime World) :
  exists tr w',
    prepare_l3_batch min_e max_e min_n max_n disp_choice year id_value r
    = deliver_batch
        ("EGMS_L3_E" ++ str_int min_e ++ "-" ++ str_int max_e
           ++ "_N" ++ str_int min_n ++ "-" ++ str_int max_n
           ++ "_" ++ year ++ "_batch.zip")
        (as_files (batch_successes (l3_task_prefix year)
                     (fun t => [l3_task_url year id_value t])
                     (l3_tasks min_e max_e min_n max_n (displacements_of disp_choice))
                     (world r)))
        (mk w' (ui r ++ tr) (session r)).
Proof.
  destruct (l3_batch_loop_successes min_e max_e min_n max_n (displacements_of disp_choice)
              year id_value
              ((max_e - min_e + 1) * (max_n - min_n + 1)
               * len (displacements_of disp_choice))
              [] 0 (mk (world r) (ui r ++ [Progress 0 1]) (session r)))
    as (trs & w' & Hrun).
  exists ([Progress 0 1] ++ trs
            ++ [Progress 1 1; StatusText "Creating batch download..."])%list, w'.
  unfold prepare_l3_batch, bind, progress, status_text, emit. cbn zeta.
  unfold mk, files in *. rewrite Hrun. cbn [fst snd world ui session app].
  rewrite <- !app_assoc. reflexivity.
Qed.

Lemma l2_tasks_none (min_o max_o min_b max_b : Z) (ss ps : list string) :
  ss = [] \/ ps = [] -> l2_tasks min_o max_o min_b max_b ss ps = [].
Proof.
  intros H. unfold l2_tasks.
  replace (span min_o max_o * span min_b max_b * List.length ss * List.length ps)%nat
    with 0%nat; [reflexivity|].
  destruct H as [-> | ->]; cbn [List.length]; lia.
Qed.

Lemma prepare_l2_batch_exact (min_o max_o min_b max_b : Z) (ss ps : list string)
    (data_type year id_value : string) (r : runtime World) :
  data_type <> "L3" ->
  session (snd (prepare_l2_batch min_o max_o min_b max_b ss ps data_type year id_value r))
  = session (snd (deliver_batch ("EGMS_" ++ data_type ++ "_batch_" ++ year ++ ".zip")
                    (as_files (batch_successes (l2_task_prefix data_type year)
                                 (l2_task_urls data_type year id_value)
                                 (l2_tasks min_o max_o min_b max_b ss ps) (world r)))
                    r)).
Proof.
  intros Hdt.
  assert (Hsession : forall zn fd r1 r2,
             session r1 = session r2 ->
             session (snd (deliver_batch zn fd r1)) = session (snd (deliver_batch zn fd r2))).
  { intros zn fd r1 r2 H. destruct fd as [|f fd].
    - rewrite !deliver_batch_none. exact H.
    - rewrite !deliver_batch_some. reflexivity. }
  unfold prepare_l2_batch. cbn zeta.
  destruct (negb (truthy_list ss) || negb (truthy_list ps)) eqn:Hguard.
  - rewrite l2_tasks_none.
    + reflexivity.
    + destruct ss; [now left|]. destruct ps; [now right|discriminate].
  - destruct (l2_batch_loop_successes min_o max_o min_b max_b ss ps data_type year id_value
                ((max_o - min_o + 1) * (max_b - min_b + 1) * len ss * len ps)
                [] 0 (mk (world r) (ui r ++ [Progress 0 1]) (session r)) Hdt)
      as (trs & w' & Hrun).
    unfold bind, progress, status_text, emit.
    unfold mk, files in *. rewrite Hrun. cbn [fst snd world ui session app].
    apply Hsession. reflexivity.
Qed.

(** The session state a batch delivery leaves. *)
Lemma deliver_batch_members (zip_name : string) (members : list (string * bytes))
    (r : runtime World) :
  session (snd (deliver_batch zip_name (as_files members) r))
  = match members with
    | [] => session r
    | m :: more =>
        {| download_ready := true;
           download_data := Some (zip_getvalue (m :: more));
           download_filename := zip_name |}
    end.
Proof.
  destruct members as [|m more]; [reflexivity|].
  now rewrite deliver_batch_as_files.
Qed.

(** The session state a single-file delivery leaves. *)
Lemma deliver_single_members (e_coord n_coord : Z) (year : string)
    (members : list (string * bytes)) (r : runtime World) :
  session (snd (deliver_single e_coord n_coord year (as_files members) r))
  = match members with
    | [] => session r
    | [m] =>
        {| download_ready := true;
           download_data := Some (snd m);
           download_filename := fst m |}
    | m1 :: m2 :: more =>
        {| download_ready := true;
           download_data := Some (zip_getvalue (m1 :: m2 :: more));
           download_filename := "EGMS_L3_E" ++ str_int e_coord ++ "N" ++ str_int n_coord
                                  ++ "_" ++ year ++ "_batch.zip" |}
    end.
Proof.
  destruct members as [|m1 [|m2 more]]; [reflexivity|reflexivity|].
  now rewrite deliver_single_many.
Qed.

(** The single-file orbit handler stores the payload of its request. *)
Lemma prepare_l2_single_exact
    (data_type year id_value relative_orbit burst_cycle swath polarization : string)
    (r : runtime World) :
  data_type <> "L3" ->
  session (snd (prepare_l2_single data_type year id_value
                  relative_orbit burst_cycle swath polarization r))
  = match success_of
            (fst (task_payload
                    (filename_prefix_L2 data_type (Some relative_orbit) (Some burst_cycle)
                       (Some swath) (Some polarization) year)
                    (l2_single_urls data_type year id_value
                       relative_orbit burst_cycle swath polarization)
                    (world r))) with
    | [] => session r
    | m :: _ =>
        {| download_ready := true;
           download_data := Some (snd m);
           download_filename := fst m |}
    end.
Proof.
  intros Hdt. unfold prepare_l2_single, bind, l2_single_urls.
  destruct (all [truthy_str (Some relative_orbit); truthy_str (Some burst_cycle);
                 truthy_str (Some swath); truthy_str (Some polarization)]) eqn:Hall.
  - rewrite (fetch_file_data_L2 0 0 "" _ _ _ _ _ _ _ _ Hdt Hall).
    destruct (fetch_payload
                (filename_prefix_L2 data_type (Some relative_orbit) (Some burst_cycle)
                   (Some swath) (Some polarization) year)
                (url_L2 data_type (Some relative_orbit) (Some burst_cycle)
                   (Some swath) (Some polarization) year id_value) r)
      as (oc & Hf).
    rewrite Hf. cbn [task_payload fst snd].
    destruct (payload_of _ _ (world r)) as [[name data]|] eqn:Hfound; [|reflexivity].
    assert (Hname := payload_name_nonempty _ _ (payload_of_name _ _ _ _ _ Hfound)).
    destruct data as [|b data]; [reflexivity|].
    unfold fetched_ok, returned. cbn [fst snd truthy_bytes andb success_of].
    rewrite Hname. reflexivity.
  - rewrite (fetch_file_data_missing 0 0 "" _ _ _ _ _ _ _ _ Hdt Hall). reflexivity.
Qed.

(** C3. The Single File page delivers a lone success bare, under its own
    filename, and several successes as one container; the Batch pages
    deliver every non-empty batch result as a container, a lone success
    included.  The successes are those of the requests made
    ([batch_successes]): each task whose request yields a payload of at
    least one byte contributes its (filename, bytes) pair, tasks that fail
    contribute nothing, and the container holds exactly these pairs, in
    task order, each under its own filename.  With no success the session
    state is left as it was. *)
Theorem delivery_bare_or_container (e_coord n_coord : Z) (year zip_name : string)
    (s1 s2 : string * bytes) (rest : list (string * bytes))
    (data_type id_value relative_orbit burst_cycle swath polarization : string)
    (disp_choice : string) (min_e max_e min_n max_n : Z)
    (min_o max_o min_b max_b : Z) (ss ps : list string)
    (fd : files) (r : runtime World) :
  session (snd (deliver_single e_coord n_coord year (as_files [s1]) r))
  = {| download_ready := true;
       download_data := Some (snd s1);
       download_filename := fst s1 |}
  /\ session (snd (deliver_single e_coord n_coord year (as_files (s1 :: s2 :: rest)) r))
     = {| download_ready := true;
          download_data := Some (zip_getvalue (s1 :: s2 :: rest));
          download_filename := "EGMS_L3_E" ++ str_int e_coord ++ "N" ++ str_int n_coord
                                 ++ "_" ++ year ++ "_batch.zip" |}
  /\ session (snd (deliver_batch zip_name (as_files (s1 :: rest)) r))
     = {| download_ready := true;
          download_data := Some (zip_getvalue (s1 :: rest));
          download_filename := zip_name |}
  /\ keep fd (None, None) = fd
  /\ session (snd (prepare_l2_single data_type year id_value
                     relative_orbit burst_cycle swath polarization r))
     = (let res := fst (fetch_file_data 0 0 "" data_type year id_value
                          (Some relative_orbit) (Some burst_cycle)
                          (Some swath) (Some polarization) r) in
        if fetched_ok res
        then {| download_ready := true;
                download_data := fst res;
                download_filename := filename_of res |}
        else session r)
  /\ (forall (filename_prefix name : string) (b : byte) (data : bytes),
         is_payload filename_prefix name = true ->
         keep fd (Some (b :: data), Some name) = (fd ++ [(name, Some (b :: data))])%list)
  /\ session (snd (prepare_l3_single e_coord n_coord disp_choice year id_value r))
     = match batch_successes (fun d => filename_prefix_L3 "L3" e_coord n_coord d year)
               (fun d => [BASE_URL_L3 "L3" e_coord n_coord d year id_value])
               (displacements_of disp_choice) (world r) with
       | [] => session r
       | [m] =>
           {| download_ready := true;
              download_data := Some (snd m);
              download_filename := fst m |}
       | m1 :: m2 :: more =>
           {| download_ready := true;
              download_data := Some (zip_getvalue (m1 :: m2 :: more));
              download_filename := "EGMS_L3_E" ++ str_int e_coord ++ "N" ++ str_int n_coord
                                     ++ "_" ++ year ++ "_batch.zip" |}
       end
  /\ session (snd (prepare_l3_batch min_e max_e min_n max_n disp_choice year id_value r))
     = match batch_successes (l3_task_prefix year)
               (fun t => [l3_task_url year id_value t])
               (l3_tasks min_e max_e min_n max_n (displacements_of disp_choice))
               (world r) with
       | [] => session r
       | m :: more =>
           {| download_ready := true;
              download_data := Some (zip_getvalue (m :: more));
              download_filename := "EGMS_L3_E" ++ str_int min_e ++ "-" ++ str_int max_e
                                     ++ "_N" ++ str_int min_n ++ "-" ++ str_int max_n
                                     ++ "_" ++ year ++ "_batch.zip" |}
       end
  /\ (data_type <> "L3" ->
      session (snd (prepare_l2_batch min_o max_o min_b max_b ss ps
                      data_type year id_value r))
      = match batch_successes (l2_task_prefix data_type year)
                (l2_task_urls data_type year id_value)
                (l2_tasks min_o max_o min_b max_b ss ps) (world r) with
        | [] => session r
        | m :: more =>
            {| download_ready := true;
               download_data := Some (zip_getvalue (m :: more));
               download_filename := "EGMS_" ++ data_type ++ "_batch_" ++ year ++ ".zip" |}
        end)
  /\ (data_type <> "L3" ->
      session (snd (prepare_l2_single data_type year id_value
                      relative_orbit burst_cycle swath polarization r))
      = match success_of
                (fst (task_payload
                        (filename_prefix_L2 data_type (Some relative_orbit)
                           (Some burst_cycle) (Some swath) (Some polarization) year)
                        (l2_single_urls data_type year id_value
                           relative_orbit burst_cycle swath polarization)
                        (world r))) with
        | [] => session r
        | m :: _ =>
            {| download_ready := true;
               download_data := Some (snd m);
               download_filename := fst m |}
        end).
Proof.
  split; [reflexivity|].
  split.
  { unfold deliver_single, create_batch_zip.
    rewrite written_as_files. reflexivity. }
  split.
  { unfold deliver_batch, create_batch_zip.
    rewrite written_as_files. reflexivity. }
  split; [reflexivity|].
  split.
  { unfold prepare_l2_single, bind.
    destruct (fetch_file_data_spec 0 0 "" data_type year id_value
                (Some relative_orbit) (Some burst_cycle) (Some swath) (Some polarization) r)
      as (res & tr & w' & Hf & _).
    rewrite Hf. cbn [fst snd]. destruct (fetched_ok res); reflexivity. }
  split.
  { intros filename_prefix name b data Hpay.
    exact (keep_returned filename_prefix (Some (name, b :: data)) fd
             (fun n d H => eq_ind name (fun x => is_payload filename_prefix x = true) Hpay n
                             (f_equal (fun o => match o with
                                                | Some (x, _) => x
                                                | None => name
                                                end) H))). }
  split.
  { destruct (prepare_l3_single_exact e_coord n_coord disp_choice year id_value r)
      as (tr & w' & Heq).
    rewrite Heq. now rewrite deliver_single_members. }
  split.
  { destruct (prepare_l3_batch_exact min_e max_e min_n max_n disp_choice year id_value r)
      as (tr & w' & Heq).
    rewrite Heq. now rewrite deliver_batch_members. }
  split.
  { intros Hdt. rewrite (prepare_l2_batch_exact _ _ _ _ _ _ _ _ _ _ Hdt).
    now rewrite deliver_batch_members. }
  intros Hdt. now apply prepare_l2_single_exact.
Qed.

(** X10. The single-file grid handler asks for every selected channel, in
    the order E then U for "Both", whatever the first request returns: the
    requests made are those of the selected channels, each followed by its
    [sleep], and every fraction given to [st.progress] lies between 0 and 1. *)
Theorem single_l3_requests_every_channel (e_coord n_coord : Z)
    (disp_choice year id_value : string) (r : runtime World) :
  exists tr,
    ui (snd (prepare_l3_single e_coord n_coord disp_choice year id_value r))
    = (ui r ++ tr)%list
    /\ requested tr
       = map (fun d => BASE_URL_L3 "L3" e_coord n_coord d year id_value)
             (displacements_of disp_choice)
    /\ filter is_sleep tr
       = repeat (Sleep 1) (List.length (displacements_of disp_choice))
    /\ Forall progress_in_range tr.
Proof.
  destruct (prepare_l3_single_run e_coord n_coord disp_choice year id_value r)
    as (ress & trs & w' & Hpost & Heq).
  destruct (enumerate_items disp_choice) as [Hsnd Hidx].
  assert (Hstep := run_post_impl _
            (fun it (_ : Z) =>
               step_post ("Fetching " ++ snd it ++ " displacement data...")
                 (filename_prefix_L3 "L3" e_coord n_coord (snd it) year)
                 [BASE_URL_L3 "L3" e_coord n_coord (snd it) year id_value])
            _ _ _ _
            (fun it k res tr => l3_single_post_step e_coord n_coord year id_value
                                  (displacements_of disp_choice) it k res tr)
            Hpost).
  assert (Hreq := run_requested
            (fun it (_ : Z) => "Fetching " ++ snd it ++ " displacement data...")
            (fun it => filename_prefix_L3 "L3" e_coord n_coord (snd it) year)
            (fun it => [BASE_URL_L3 "L3" e_coord n_coord (snd it) year id_value])
            _ _ _ _ Hstep).
  assert (Hsl := run_sleeps
            (fun it (_ : Z) => "Fetching " ++ snd it ++ " displacement data...")
            (fun it => filename_prefix_L3 "L3" e_coord n_coord (snd it) year)
            (fun it => [BASE_URL_L3 "L3" e_coord n_coord (snd it) year id_value])
            _ _ _ _ Hstep).
  assert (Hpr := run_single_progress _ _ _ _ _ _ _ _ _ Hpost Hidx).
  rewrite flat_map_singleton in Hreq.
  rewrite <- (map_map snd (fun d => BASE_URL_L3 "L3" e_coord n_coord d year id_value)),
    Hsnd in Hreq.
  rewrite <- (length_map snd), Hsnd in Hsl.
  destruct (run_members
              (fun it (_ : Z) => "Fetching " ++ snd it ++ " displacement data...")
              (fun it => filename_prefix_L3 "L3" e_coord n_coord (snd it) year)
              (fun it => [BASE_URL_L3 "L3" e_coord n_coord (snd it) year id_value])
              _ _ _ _ Hstep) as (members & Hk & _ & _).
  rewrite Heq, Hk.
  destruct members as [|m1 [|m2 members]].
  - change (as_files []) with (@nil (string * option bytes)).
    rewrite deliver_single_none. cbn [snd ui mk].
    exists ([Progress 0 1] ++ trs
              ++ [Progress 1 1; StatusText "Preparing download..."])%list.
    split; [reflexivity|].
    split; [|split].
    + unfold requested in *. rewrite !filter_map_app, Hreq. cbn. now rewrite app_nil_r.
    + rewrite !filter_app, Hsl. cbn. now rewrite app_nil_r.
    + apply Forall_app. split; [repeat constructor; cbn; lia|].
      apply Forall_app. split; [exact Hpr|repeat constructor; cbn; lia].
  - rewrite deliver_single_one. cbn [snd ui mk].
    exists ([Progress 0 1] ++ trs
              ++ [Progress 1 1; StatusText "Preparing download...";
                  StatusText "✅ Ready for download!"])%list.
    split; [rewrite <- !app_assoc; reflexivity|].
    split; [|split].
    + unfold requested in *. rewrite !filter_map_app, Hreq. cbn. now rewrite app_nil_r.
    + rewrite !filter_app, Hsl. cbn. now rewrite app_nil_r.
    + apply Forall_app. split; [repeat constructor; cbn; lia|].
      apply Forall_app. split; [exact Hpr|repeat constructor; cbn; lia].
  - rewrite deliver_single_many. cbn [snd ui mk].
    exists ([Progress 0 1] ++ trs
              ++ [Progress 1 1; StatusText "Preparing download...";
                  StatusText "✅ Ready for download!"])%list.
    split; [rewrite <- !app_assoc; reflexivity|].
    split; [|split].
    + unfold requested in *. rewrite !filter_map_app, Hreq. cbn. now rewrite app_nil_r.
    + rewrite !filter_app, Hsl. cbn. now rewrite app_nil_r.
    + apply Forall_app. split; [repeat constructor; cbn; lia|].
      apply Forall_app. split; [exact Hpr|repeat constructor; cbn; lia].
Qed.

(** *** Session state and download buttons *)

Lemma truthy_nonempty (data : bytes) : data <> [] -> truthy_bytes (Some data) = true.
Proof. destruct data; [contradiction|reflexivity]. Qed.

Lemma render_bare_csv (name : string) (data : bytes) :
  data <> [] -> endswith name ".csv" = true ->
  render_l3_single {| download_ready := true; download_data := Some data;
                      download_filename := name |}
  = Some {| btn_label := "💾 Download File"; btn_data := Some data;
            btn_file_name := name; btn_mime := "text/csv" |}
  /\ render_l3_batch {| download_ready := true; download_data := Some data;
                        download_filename := name |} = None.
Proof.
  intros Hd Hcsv. unfold render_l3_single, render_l3_batch, ready_with_data.
  cbn [download_ready download_data download_filename].
  rewrite (truthy_nonempty _ Hd), (csv_is_not_zip _ Hcsv). split; reflexivity.
Qed.

Lemma deliver_batch_session (zip_name : string) (fd : files) (r : runtime World) :
  session (snd (deliver_batch zip_name fd r)) = session r
  \/ session (snd (deliver_batch zip_name fd r))
     = {| download_ready := true;
          download_data := Some (zip_getvalue (written fd));
          download_filename := zip_name |}.
Proof.
  destruct fd as [|f fd].
  - left. now rewrite deliver_batch_none.
  - right. now rewrite deliver_batch_some.
Qed.

(** Where the orbit batch handler ends: at the warning of line 431, or in the
    delivery of what its loop kept. *)
Lemma prepare_l2_batch_ends (min_o max_o min_b max_b : Z) (ss ps : list string)
    (data_type year id_value : string) (r : runtime World) :
  session (snd (prepare_l2_batch min_o max_o min_b max_b ss ps data_type year id_value r))
  = session r
  \/ exists fd r2,
      session r2 = session r
      /\ prepare_l2_batch min_o max_o min_b max_b ss ps data_type year id_value r
         = deliver_batch ("EGMS_" ++ data_type ++ "_batch_" ++ year ++ ".zip") fd r2.
Proof.
  unfold prepare_l2_batch. cbn zeta.
  destruct (negb (truthy_list ss) || negb (truthy_list ps)); [now left|].
  right.
  set (total := (max_o - min_o + 1) * (max_b - min_b + 1) * len ss * len ps).
  set (r1 := mk (world r) (ui r ++ [Progress 0 1]) (session r)).
  destruct (for_each_run (l2_task_step data_type year id_value total)
              (fun _ k _ tr => filter is_progress tr = [Progress k total])
              (l2_task_step_progress data_type year id_value total)
              (l2_tasks min_o max_o min_b max_b ss ps) [] 0 r1)
    as (ress & trs & w' & Hrun & _).
  rewrite <- l2_batch_loop_flat in Hrun.
  unfold bind, progress, status_text, emit.
  unfold mk, files in *. fold r1. rewrite Hrun.
  cbn [fst snd world ui session app].
  eexists _, _. split; [|reflexivity]. reflexivity.
Qed.

(** X11. What the single-file grid handler leaves behind, by the number of
    payloads it kept (each with at least one byte and a [.csv] name).  None:
    the session state is untouched and the last line shown is still
    "Preparing download...", no failure is announced.  One: the payload is
    stored bare under its own name, the button offers it as [text/csv], and
    the batch page's button (which wants a [.zip] name) would not show it.
    Several: they are stored as one archive under the tile's zip name,
    offered as [application/zip]. *)
Theorem single_l3_outcome (e_coord n_coord : Z) (disp_choice year id_value : string)
    (r : runtime World) :
  exists members tr,
    Forall (fun m => snd m <> [] /\ endswith (fst m) ".csv" = true) members
    /\ (List.length members <= List.length (displacements_of disp_choice))%nat
    /\ match members with
       | [] =>
           snd (prepare_l3_single e_coord n_coord disp_choice year id_value r)
           = mk (world (snd (prepare_l3_single e_coord n_coord disp_choice
                               year id_value r)))
                (ui r ++ tr ++ [StatusText "Preparing download..."])
                (session r)
       | [m] =>
           session (snd (prepare_l3_single e_coord n_coord disp_choice year id_value r))
           = {| download_ready := true; download_data := Some (snd m);
                download_filename := fst m |}
           /\ render_l3_single
                (session (snd (prepare_l3_single e_coord n_coord disp_choice
                                 year id_value r)))
              = Some {| btn_label := "💾 Download File"; btn_data := Some (snd m);
                        btn_file_name := fst m; btn_mime := "text/csv" |}
           /\ render_l3_batch
                (session (snd (prepare_l3_single e_coord n_coord disp_choice
                                 year id_value r)))
              = None
       | _ :: _ :: _ =>
           session (snd (prepare_l3_single e_coord n_coord disp_choice year id_value r))
           = {| download_ready := true;
                download_data := Some (zip_getvalue members);
                download_filename :=
                  "EGMS_L3_E" ++ str_int e_coord ++ "N" ++ str_int n_coord
                    ++ "_" ++ year ++ "_batch.zip" |}
           /\ render_l3_single
                (session (snd (prepare_l3_single e_coord n_coord disp_choice
                                 year id_value r)))
              = (if truthy_bytes (Some (zip_getvalue members))
                 then Some {| btn_label := "💾 Download File";
                              btn_data := Some (zip_getvalue members);
                              btn_file_name :=
                                "EGMS_L3_E" ++ str_int e_coord ++ "N" ++ str_int n_coord
                                  ++ "_" ++ year ++ "_batch.zip";
                              btn_mime := "application/zip" |}
                 else None)
       end.
Proof.
  destruct (prepare_l3_single_run e_coord n_coord disp_choice year id_value r)
    as (ress & trs & w' & Hpost & Heq).
  destruct (enumerate_items disp_choice) as [Hsnd _].
  assert (Hstep := run_post_impl _
            (fun it (_ : Z) =>
               step_post ("Fetching " ++ snd it ++ " displacement data...")
                 (filename_prefix_L3 "L3" e_coord n_coord (snd it) year)
                 [BASE_URL_L3 "L3" e_coord n_coord (snd it) year id_value])
            _ _ _ _
            (fun it k res tr => l3_single_post_step e_coord n_coord year id_value
                                  (displacements_of disp_choice) it k res tr)
            Hpost).
  destruct (run_members
              (fun it (_ : Z) => "Fetching " ++ snd it ++ " displacement data...")
              (fun it => filename_prefix_L3 "L3" e_coord n_coord (snd it) year)
              (fun it => [BASE_URL_L3 "L3" e_coord n_coord (snd it) year id_value])
              _ _ _ _ Hstep) as (members & Hk & Hall & Hlen).
  rewrite <- (length_map snd (enumerate (displacements_of disp_choice))), Hsnd in Hlen.
  exists members,
    ([Progress 0 1] ++ trs ++ [Progress 1 1])%list.
  split; [exact Hall|]. split; [exact Hlen|].
  rewrite Heq, Hk.
  destruct members as [|m1 [|m2 members]].
  - change (as_files []) with (@nil (string * option bytes)).
    rewrite deliver_single_none. unfold mk. cbn [snd world ui session].
    rewrite <- !app_assoc. reflexivity.
  - rewrite deliver_single_one. unfold mk. cbn [snd session].
    split; [reflexivity|].
    inversion Hall as [|? ? [Hd Hcsv] _]; subst.
    exact (render_bare_csv (fst m1) (snd m1) Hd Hcsv).
  - rewrite deliver_single_many. unfold mk. cbn [snd session].
    split; [reflexivity|].
    unfold render_l3_single, ready_with_data.
    cbn [download_ready download_data download_filename andb].
    assert (Hzipname : endswith ("EGMS_L3_E" ++ str_int e_coord ++ "N" ++ str_int n_coord
                                   ++ "_" ++ year ++ "_batch.zip") ".zip" = true).
    { do 6 apply endswith_append. reflexivity. }
    rewrite Hzipname. reflexivity.
Qed.

(** X12. No handler clears [download_ready] or the stored download: each of
    the four handlers either leaves the session state exactly as it was or
    ends with [download_ready] set. *)
Theorem download_ready_is_never_cleared
    (e_coord n_coord : Z) (disp_choice : string)
    (min_e max_e min_n max_n : Z)
    (min_o max_o min_b max_b : Z) (ss ps : list string)
    (data_type year id_value relative_orbit burst_cycle swath polarization : string)
    (r : runtime World) :
  (session (snd (prepare_l2_single data_type year id_value
                   relative_orbit burst_cycle swath polarization r)) = session r
   \/ download_ready
        (session (snd (prepare_l2_single data_type year id_value
                         relative_orbit burst_cycle swath polarization r))) = true)
  /\ (session (snd (prepare_l3_single e_coord n_coord disp_choice year id_value r))
      = session r
      \/ download_ready
           (session (snd (prepare_l3_single e_coord n_coord disp_choice
                            year id_value r))) = true)
  /\ (session (snd (prepare_l3_batch min_e max_e min_n max_n disp_choice
                      year id_value r)) = session r
      \/ download_ready
           (session (snd (prepare_l3_batch min_e max_e min_n max_n disp_choice
                            year id_value r))) = true)
  /\ (session (snd (prepare_l2_batch min_o max_o min_b max_b ss ps
                      data_type year id_value r)) = session r
      \/ download_ready
           (session (snd (prepare_l2_batch min_o max_o min_b max_b ss ps
                            data_type year id_value r))) = true).
Proof.
  split; [|split; [|split]].
  - unfold prepare_l2_single, bind.
    destruct (fetch_file_data_spec 0 0 "" data_type year id_value
                (Some relative_orbit) (Some burst_cycle) (Some swath) (Some polarization) r)
      as (res & tr & w' & Hf & _).
    rewrite Hf. destruct (fetched_ok res); [right|left]; reflexivity.
  - destruct (prepare_l3_single_run e_coord n_coord disp_choice year id_value r)
      as (ress & trs & w' & Hpost & Heq).
    rewrite Heq. unfold deliver_single, bind.
    destruct (truthy_list (kept ress)); [right|left; reflexivity].
    destruct (List.length (kept ress) =? 1)%nat; reflexivity.
  - destruct (prepare_l3_batch_run min_e max_e min_n max_n disp_choice year id_value r)
      as (ress & trs & w' & _ & Heq).
    rewrite Heq.
    match goal with
    | |- context [deliver_batch ?zn ?fd ?r2] =>
        destruct (deliver_batch_session zn fd r2) as [H|H]; rewrite H
    end; [left|right]; reflexivity.
  - destruct (prepare_l2_batch_ends min_o max_o min_b max_b ss ps data_type year id_value r)
      as [H|(fd & r2 & Hs & Heq)]; [now left|].
    rewrite Heq.
    destruct (deliver_batch_session ("EGMS_" ++ data_type ++ "_batch_" ++ year ++ ".zip")
                fd r2) as [H|H]; rewrite H; [left; exact Hs|right; reflexivity].
Qed.

(** X13. Provided the encoder never produces an empty byte string, a batch
    handler that changed the session state left a download the batch page
    offers: the button carries the stored archive, the batch's zip name
    (which ends in [.zip]) and the type [application/zip]. *)
Theorem batch_download_is_offered
    (min_e max_e min_n max_n : Z) (disp_choice : string)
    (min_o max_o min_b max_b : Z) (ss ps : list string)
    (data_type year id_value : string) (r : runtime World) :
  (forall members, zip_getvalue members <> []) ->
  (session (snd (prepare_l3_batch min_e max_e min_n max_n disp_choice year id_value r))
   = session r
   \/ render_l3_batch
        (session (snd (prepare_l3_batch min_e max_e min_n max_n disp_choice
                         year id_value r)))
      = Some {| btn_label := "💾 Download Batch ZIP";
                btn_data :=
                  download_data
                    (session (snd (prepare_l3_batch min_e max_e min_n max_n disp_choice
                                     year id_value r)));
                btn_file_name :=
                  "EGMS_L3_E" ++ str_int min_e ++ "-" ++ str_int max_e
                    ++ "_N" ++ str_int min_n ++ "-" ++ str_int max_n
                    ++ "_" ++ year ++ "_batch.zip";
                btn_mime := "application/zip" |})
  /\
  (session (snd (prepare_l2_batch min_o max_o min_b max_b ss ps data_type year id_value r))
   = session r
   \/ render_l2_batch
        (session (snd (prepare_l2_batch min_o max_o min_b max_b ss ps
                         data_type year id_value r)))
      = Some {| btn_label := "💾 Download L2 Batch ZIP";
                btn_data :=
                  download_data
                    (session (snd (prepare_l2_batch min_o max_o min_b max_b ss ps
                                     data_type year id_value r)));
                btn_file_name := "EGMS_" ++ data_type ++ "_batch_" ++ year ++ ".zip";
                btn_mime := "application/zip" |}).
Proof.
  intros Hzip. split.
  - destruct (prepare_l3_batch_run min_e max_e min_n max_n disp_choice year id_value r)
      as (ress & trs & w' & _ & Heq).
    rewrite Heq.
    match goal with
    | |- context [deliver_batch ?zn ?fd ?r2] =>
        destruct (deliver_batch_session zn fd r2) as [H|H]; rewrite H
    end; [now left|right].
    unfold render_l3_batch, ready_with_data.
    cbn [download_ready download_data download_filename andb].
    rewrite (truthy_nonempty _ (Hzip _)).
    assert (Hname : endswith ("EGMS_L3_E" ++ str_int min_e ++ "-" ++ str_int max_e
                                ++ "_N" ++ str_int min_n ++ "-" ++ str_int max_n
                                ++ "_" ++ year ++ "_batch.zip") ".zip" = true).
    { do 10 apply endswith_append. reflexivity. }
    rewrite Hname. reflexivity.
  - destruct (prepare_l2_batch_ends min_o max_o min_b max_b ss ps data_type year id_value r)
      as [H|(fd & r2 & Hs & Heq)]; [now left|].
    rewrite Heq.
    destruct (deliver_batch_session ("EGMS_" ++ data_type ++ "_batch_" ++ year ++ ".zip")
                fd r2) as [H|H]; rewrite H; [left; exact Hs|right].
    unfold render_l2_batch, ready_with_data.
    cbn [download_ready download_data download_filename andb].
    rewrite (truthy_nonempty _ (Hzip _)).
    assert (Hname : endswith ("EGMS_" ++ data_type ++ "_batch_" ++ year ++ ".zip") ".zip"
                    = true).
    { do 4 apply endswith_append. reflexivity. }
    rewrite Hname. reflexivity.
Qed.

(** *** Announced counts and empty ranges *)

Lemma span_ordered (lo hi : Z) : lo <= hi + 1 -> Z.of_nat (span lo hi) = hi - lo + 1.
Proof. intros H. unfold span. lia. Qed.

Lemma prepare_l3_batch_requests (min_e max_e min_n max_n : Z)
    (disp_choice year id_value : string) (r : runtime World) :
  requested (ui (snd (prepare_l3_batch min_e max_e min_n max_n disp_choice
                        year id_value r)))
  = (requested (ui r)
       ++ map (l3_task_url year id_value)
              (l3_tasks min_e max_e min_n max_n (displacements_of disp_choice)))%list.
Proof.
  destruct (prepare_l3_batch_run min_e max_e min_n max_n disp_choice year id_value r)
    as (ress & trs & w' & Hpost & Heq).
  rewrite Heq.
  match goal with
  | |- context [deliver_batch ?zn ?fd ?r2] =>
      destruct (deliver_batch_trace zn fd r2) as [line Hl]; rewrite Hl
  end.
  cbn [ui mk]. unfold requested. rewrite !filter_map_app.
  fold (requested trs).
  rewrite (run_requested
             (l3_task_label ((max_e - min_e + 1) * (max_n - min_n + 1)
                             * len (displacements_of disp_choice)))
             (l3_task_prefix year) (fun t => [l3_task_url year id_value t])
             _ _ _ _ Hpost).
  rewrite flat_map_singleton. cbn. now rewrite !app_nil_r.
Qed.

(** X14. When the bounds are in order ([min <= max] in both dimensions) the
    number of files announced before a grid batch is the number of tasks the
    handler runs and the number of requests it makes; likewise the number of
    combinations announced before an orbit batch is the number of its tasks. *)
Theorem announced_count_is_number_of_requests
    (min_e max_e min_n max_n : Z) (disp_choice : string)
    (min_o max_o min_b max_b : Z) (ss ps : list string)
    (year id_value : string) (r : runtime World) :
  min_e <= max_e -> min_n <= max_n -> min_o <= max_o -> min_b <= max_b ->
  l3_total_files min_e max_e min_n max_n disp_choice
  = len (l3_tasks min_e max_e min_n max_n (displacements_of disp_choice))
  /\ len (requested (ui (snd (prepare_l3_batch min_e max_e min_n max_n disp_choice
                                year id_value r))))
     = len (requested (ui r)) + l3_total_files min_e max_e min_n max_n disp_choice
  /\ l2_total_combinations min_o max_o min_b max_b ss ps
     = len (l2_tasks min_o max_o min_b max_b ss ps).
Proof.
  intros He Hn Ho Hb.
  assert (H3 : l3_total_files min_e max_e min_n max_n disp_choice
               = len (l3_tasks min_e max_e min_n max_n (displacements_of disp_choice))).
  { unfold len. rewrite l3_tasks_length, !Nat2Z.inj_mul, !span_ordered by lia.
    unfold l3_total_files, l3_total_tiles, displacements_of.
    destruct (String.eqb disp_choice "Both"); cbn [List.length]; lia. }
  split; [exact H3|]. split.
  - rewrite prepare_l3_batch_requests, H3. unfold len.
    rewrite length_app, length_map. lia.
  - unfold len. rewrite l2_tasks_length, !Nat2Z.inj_mul, !span_ordered by lia.
    reflexivity.
Qed.

(** X15. A grid batch whose east or north bounds are the wrong way round
    runs no task: no request, no sleep, the "No files could be downloaded"
    line and an untouched session state.  With both ranges reversed by two
    or more the count announced beforehand is nevertheless positive. *)
Theorem reversed_bounds_run_no_task (min_e max_e min_n max_n : Z)
    (disp_choice year id_value : string) (r : runtime World) :
  max_e < min_e \/ max_n < min_n ->
  prepare_l3_batch min_e max_e min_n max_n disp_choice year id_value r
  = (tt, mk (world r)
            (ui r ++ [Progress 0 1; Progress 1 1;
                      StatusText "Creating batch download...";
                      StatusText "❌ No files could be downloaded"])
            (session r))
  /\ (max_e + 1 < min_e -> max_n + 1 < min_n ->
      0 < l3_total_files min_e max_e min_n max_n disp_choice).
Proof.
  intros Hrev. split.
  - assert (Hnil : l3_tasks min_e max_e min_n max_n (displacements_of disp_choice) = []).
    { unfold l3_tasks.
      replace (span min_e max_e * span min_n max_n
               * List.length (displacements_of disp_choice))%nat with 0%nat;
        [reflexivity|].
      unfold span. destruct Hrev as [H|H].
      - replace (Z.to_nat (max_e + 1 - min_e)) with 0%nat by lia. reflexivity.
      - replace (Z.to_nat (max_n + 1 - min_n)) with 0%nat by lia. lia. }
    unfold prepare_l3_batch, bind, progress, status_text, emit. cbn zeta.
    rewrite l3_batch_loop_flat, Hnil. cbn [for_each]. unfold ret.
    cbn [fst snd world ui session].
    rewrite deliver_batch_none. unfold mk. cbn [world ui session].
    rewrite <- !app_assoc. reflexivity.
  - intros He Hn. unfold l3_total_files, l3_total_tiles.
    destruct (String.eqb disp_choice "Both"); nia.
Qed.

(** X16. In the single-file orbit handler an empty field sends nothing: the
    only thing shown is "Missing parameters", no request is made, the world
    and the session state are as before. *)
Theorem empty_field_sends_nothing
    (data_type year id_value relative_orbit burst_cycle swath polarization : string)
    (r : runtime World) :
  data_type <> "L3" ->
  relative_orbit = "" \/ burst_cycle = "" \/ swath = "" \/ polarization = "" ->
  prepare_l2_single data_type year id_value relative_orbit burst_cycle swath polarization r
  = (tt, mk (world r)
            (ui r ++ [StError ("Missing parameters for " ++ data_type ++ " download")])
            (session r)).
Proof.
  intros Hdt Hempty.
  assert (Hall : all [truthy_str (Some relative_orbit); truthy_str (Some burst_cycle);
                      truthy_str (Some swath); truthy_str (Some polarization)] = false).
  { unfold all. cbn.
    destruct Hempty as [-> | [-> | [-> | ->]]]; cbn;
      repeat rewrite ?andb_false_r, ?andb_false_l; reflexivity. }
  unfold prepare_l2_single, bind.
  rewrite (fetch_file_data_missing _ _ _ _ _ _ _ _ _ _ _ Hdt Hall). reflexivity.
Qed.

End Pipeline.

Arguments mk {World} w tr ss.
Arguments fetch {World} curl_get ZipFile filename_prefix url _.
Arguments fetch_file_data {World} curl_get ZipFile e n d data_type year id
  relative_orbit burst_cycle swath polarization _.
Arguments l3_batch_step {World} curl_get ZipFile year id_value total_tasks e n d st _.
Arguments l2_batch_step {World} curl_get ZipFile data_type year id_value
  total_combinations rel_orbit burst_cycle swath polarization st _.
Arguments l3_batch_loop {World} curl_get ZipFile min_e max_e min_n max_n displacements
  year id_value total_tasks st _.
Arguments l2_batch_loop {World} curl_get ZipFile min_relative_orbit max_relative_orbit
  min_burst_cycle max_burst_cycle selected_swaths selected_polarizations
  data_type year id_value total_combinations st _.
Arguments prepare_l2_single {World} curl_get ZipFile data_type year id_value
  relative_orbit burst_cycle swath polarization _.
Arguments prepare_l3_single {World} curl_get ZipFile zip_getvalue e_coord n_coord
  disp_choice year id_value _.
Arguments prepare_l3_batch {World} curl_get ZipFile zip_getvalue min_e max_e min_n max_n
  disp_choice year id_value _.
Arguments prepare_l2_batch {World} curl_get ZipFile zip_getvalue
  min_relative_orbit max_relative_orbit min_burst_cycle max_burst_cycle
  selected_swaths selected_polarizations data_type year id_value _.
Arguments deliver_single {World} zip_getvalue e_coord n_coord year files_data _.
Arguments deliver_batch {World} zip_getvalue zip_name files_data _.
Arguments payload_of {World} curl_get ZipFile filename_prefix url w.
Arguments task_payload {World} curl_get ZipFile filename_prefix urls w.
Arguments batch_successes {World} curl_get ZipFile {A} prefix_of urls_of tasks w.

(* ------------------------------------------------------------------ *)
(** ** The statements at concrete inputs *)

(** Two batches against a server that cannot be reached: both loops still
    run to their end and leave one report per task. *)
Lemma batch_loops_visit_every_task_witness :
  "L2A" <> "L3" /\
  (exists ress trs w',
      l3_batch_loop Demo.unreachable Demo.ZipFile 10 11 25 25 ["E"; "U"]
        "2019_2023" "tok" 4 ([], 0) Demo.r0
      = (([] ++ kept ress)%list, 0 + len (l3_tasks 10 11 25 25 ["E"; "U"]),
         mk w' (ui Demo.r0 ++ trs) (session Demo.r0))
      /\ List.length (filter is_outcome trs) = 4%nat) /\
  (exists ress trs w',
      l2_batch_loop Demo.unreachable Demo.ZipFile 50 51 715 715 ["IW1"] ["VV"]
        "L2A" "2019_2023" "tok" 4 ([], 0) Demo.r0
      = (([] ++ kept ress)%list, 0 + len (l2_tasks 50 51 715 715 ["IW1"] ["VV"]),
         mk w' (ui Demo.r0 ++ trs) (session Demo.r0))
      /\ List.length (filter is_outcome trs) = 2%nat).
Proof.
  assert (Hdt : "L2A" <> "L3") by (apply String.eqb_neq; reflexivity).
  split; [exact Hdt|].
  destruct (batch_loops_visit_every_task Demo.World Demo.unreachable Demo.ZipFile
              10 11 25 25 ["E"; "U"] 50 51 715 715 ["IW1"] ["VV"]
              "L2A" "2019_2023" "tok" 4 [] 0 Demo.r0 Hdt)
    as [(ress3 & trs3 & w3 & H3 & _ & _ & _ & Ho3 & _)
        (ress2 & trs2 & w2 & H2 & _ & _ & _ & Ho2 & _)].
  split.
  - exists ress3, trs3, w3. split; [exact H3|exact Ho3].
  - exists ress2, trs2, w2. split; [exact H2|exact Ho2].
Defined.

(** A 2 x 1 grid with both channels: the third turn (k = 2) asks for the
    second east index and the first channel; it is the one task that
    succeeds, and its payload is what the loop leaves in [files_data]. *)
Lemma batch_order_is_nested_witness :
  "L2A" <> "L3" /\
  exists ress trs w',
    l3_batch_loop Demo.east32 Demo.ZipFile 31 32 31 31 ["E"; "U"]
      "2019_2023" "tok" 4 ([], 0) Demo.r0
    = (kept ress, len (l3_tasks 31 32 31 31 ["E"; "U"]),
       mk w' (ui Demo.r0 ++ trs) (session Demo.r0))
    /\ nth_error (requested trs) 2
       = Some (BASE_URL_L3 "L3" 32 31 "E" "2019_2023" "tok")
    /\ kept ress
       = [("EGMS_L3_E32N31_100km_E_2019_2023_1.csv", Some [x31; x2c; x32])].
Proof.
  assert (Hdt : "L2A" <> "L3") by (apply String.eqb_neq; reflexivity).
  split; [exact Hdt|].
  destruct (batch_order_is_nested Demo.World Demo.east32 Demo.ZipFile
              31 32 31 31 ["E"; "U"] 50 51 715 715 ["IW1"] ["VV"]
              "L2A" "2019_2023" "tok" 4 Demo.r0 Hdt)
    as [(ress & trs & w' & Hrun & Hk & _ & Hkept) _].
  exists ress, trs, w'. split; [exact Hrun|].
  assert (Hlt : (2 < span 31 32 * span 31 31 * List.length ["E"; "U"])%nat)
    by (apply Nat.ltb_lt; reflexivity).
  split; [exact (proj2 (Hk 2%nat Hlt))|].
  exact Hkept.
Defined.

(** The archive of the specification's example: [readme.txt], then the
    payload. *)
Lemma extract_first_payload_witness :
  Demo.ZipFile [x01]
  = inr ([("readme.txt", inr [x68; x69])]
           ++ ("EGMS_L3_E32N31_100km_E_2019_2023_1.csv", inr [x31; x2c; x32]) :: [])%list
  /\ is_payload "EGMS_L3_E32N31_100km_E_2019_2023_1" "readme.txt" = false
  /\ is_payload "EGMS_L3_E32N31_100km_E_2019_2023_1"
                "EGMS_L3_E32N31_100km_E_2019_2023_1.csv" = true
  /\ fetch (Demo.always 200 [x01]) Demo.ZipFile
       "EGMS_L3_E32N31_100km_E_2019_2023_1" "https://tile" Demo.r0
     = ((Some [x31; x2c; x32], Some "EGMS_L3_E32N31_100km_E_2019_2023_1.csv"),
        mk 1%nat
           (ui Demo.r0
              ++ [StSpinner ("Fetching " ++ "EGMS_L3_E32N31_100km_E_2019_2023_1" ++ "...");
                  HttpGet "https://tile";
                  StSuccess ("Successfully fetched "
                               ++ "EGMS_L3_E32N31_100km_E_2019_2023_1.csv")])
           (session Demo.r0)).
Proof.
  split; [reflexivity|]. split; [reflexivity|]. split; [reflexivity|].
  refine (proj1 (proj2 (extract_first_payload Demo.World (Demo.always 200 [x01])
            Demo.ZipFile "EGMS_L3_E32N31_100km_E_2019_2023_1" "https://tile" Demo.r0
            {| status_code := 200; content := [x01] |} 1%nat
            [("readme.txt", inr [x68; x69])] []
            "EGMS_L3_E32N31_100km_E_2019_2023_1.csv" (inr [x31; x2c; x32])
            _ _ _ _ _)) [x31; x2c; x32] _); reflexivity.
Defined.

(** The same member name stored twice: the bytes returned are those of the
    second member, not of the first one that passes the test. *)
Lemma extract_repeated_name_counterexample :
  Demo.ZipFile [x02]
  = inr ([] ++ ("EGMS_L3_E32N31_100km_E_2019_2023_1.csv", inr [x61])
            :: [("EGMS_L3_E32N31_100km_E_2019_2023_1.csv", inr [x62])])%list
  /\ is_payload "EGMS_L3_E32N31_100km_E_2019_2023_1"
                "EGMS_L3_E32N31_100km_E_2019_2023_1.csv" = true
  /\ fst (fetch (Demo.always 200 [x02]) Demo.ZipFile
            "EGMS_L3_E32N31_100km_E_2019_2023_1" "https://tile" Demo.r0)
     = (Some [x62], Some "EGMS_L3_E32N31_100km_E_2019_2023_1.csv")
  /\ fst (fetch (Demo.always 200 [x02]) Demo.ZipFile
            "EGMS_L3_E32N31_100km_E_2019_2023_1" "https://tile" Demo.r0)
     <> (Some [x61], Some "EGMS_L3_E32N31_100km_E_2019_2023_1.csv").
Proof.
  split; [reflexivity|]. split; [reflexivity|]. split; [reflexivity|].
  vm_compute. discriminate.
Qed.

(** A first matching member that fails its CRC check: nothing is returned,
    although a later member matches and would read. *)
Lemma unreadable_member_example :
  Demo.ZipFile [x05] = inr Demo.damaged_archive
  /\ find (is_payload "EGMS_L3_E32N31_100km_E_2019_2023_1")
          (namelist Demo.damaged_archive)
     = Some "EGMS_L3_E32N31_100km_E_2019_2023_1.csv"
  /\ is_payload "EGMS_L3_E32N31_100km_E_2019_2023_1"
                "copy_of_EGMS_L3_E32N31_100km_E_2019_2023_1.csv" = true
  /\ fetch (Demo.always 200 [x05]) Demo.ZipFile
       "EGMS_L3_E32N31_100km_E_2019_2023_1" "https://tile" Demo.r0
     = ((None, None),
        mk 1%nat
           [StSpinner "Fetching EGMS_L3_E32N31_100km_E_2019_2023_1...";
            HttpGet "https://tile";
            StError ("Error fetching EGMS_L3_E32N31_100km_E_2019_2023_1: "
                       ++ "Bad CRC-32 for file 'EGMS_L3_E32N31_100km_E_2019_2023_1.csv'")]
           Demo.fresh_session).
Proof.
  split; [reflexivity|]. split; [reflexivity|]. split; reflexivity.
Qed.

(** One tile that answers, asked for in a 2 x 1 batch and on the Single
    File page: the batch wraps its lone success in a container, the
    single-file request delivers it bare; an orbit batch without a success
    leaves the session state as it was. *)
Lemma delivery_bare_or_container_witness :
  "L2A" <> "L3"
  /\ is_payload "EGMS_L3_E32N31_100km_E_2019_2023_1"
                "EGMS_L3_E32N31_100km_E_2019_2023_1.csv" = true
  /\ session (snd (prepare_l3_batch Demo.east32 Demo.ZipFile Demo.zip_getvalue
                     31 32 31 31 "Both" "2019_2023" "tok" Demo.r0))
     = {| download_ready := true;
          download_data :=
            Some (Demo.zip_getvalue
                    [("EGMS_L3_E32N31_100km_E_2019_2023_1.csv", [x31; x2c; x32])]);
          download_filename := "EGMS_L3_E31-32_N31-31_2019_2023_batch.zip" |}
  /\ session (snd (prepare_l3_single Demo.east32 Demo.ZipFile Demo.zip_getvalue
                     32 31 "Both" "2019_2023" "tok" Demo.r0))
     = {| download_ready := true;
          download_data := Some [x31; x2c; x32];
          download_filename := "EGMS_L3_E32N31_100km_E_2019_2023_1.csv" |}
  /\ session (snd (prepare_l2_batch Demo.east32 Demo.ZipFile Demo.zip_getvalue
                     50 51 715 715 ["IW1"] ["VV"] "L2A" "2019_2023" "tok" Demo.r0))
     = session Demo.r0
  /\ keep [] (Some [x31; x2c; x32], Some "EGMS_L3_E32N31_100km_E_2019_2023_1.csv")
     = [("EGMS_L3_E32N31_100km_E_2019_2023_1.csv", Some [x31; x2c; x32])].
Proof.
  assert (Hdt : "L2A" <> "L3") by (apply String.eqb_neq; reflexivity).
  assert (Hpay : is_payload "EGMS_L3_E32N31_100km_E_2019_2023_1"
                            "EGMS_L3_E32N31_100km_E_2019_2023_1.csv" = true)
    by reflexivity.
  split; [exact Hdt|]. split; [exact Hpay|].
  destruct (delivery_bare_or_container Demo.World Demo.east32 Demo.ZipFile
              Demo.zip_getvalue 32 31 "2019_2023" "batch.zip"
              ("a.csv", [x31]) ("b.csv", [x32]) []
              "L2A" "tok" "052" "0716" "IW2" "VV"
              "Both" 31 32 31 31 50 51 715 715 ["IW1"] ["VV"] [] Demo.r0)
    as (_ & _ & _ & _ & _ & Hkeep & Hsingle & Hbatch & Horbit & _).
  split; [exact Hbatch|]. split; [exact Hsingle|]. split; [exact (Horbit Hdt)|].
  exact (Hkeep "EGMS_L3_E32N31_100km_E_2019_2023_1"
           "EGMS_L3_E32N31_100km_E_2019_2023_1.csv" x31 [x2c; x32] Hpay).
Defined.

(** A 404 answer. *)
Lemma status_200_is_the_only_success_witness :
  Demo.always 404 [] "https://tile" (world Demo.r0)
  = (inr {| status_code := 404; content := [] |}, 1%nat)
  /\ fetch (Demo.always 404 []) Demo.ZipFile "EGMS_L3_E32N31_100km_E_2019_2023_1"
       "https://tile" Demo.r0
     = ((None, None),
        mk 1%nat
           [StSpinner "Fetching EGMS_L3_E32N31_100km_E_2019_2023_1...";
            HttpGet "https://tile";
            StError "Failed to fetch EGMS_L3_E32N31_100km_E_2019_2023_1 (Status: 404)"]
           Demo.fresh_session).
Proof.
  split; [reflexivity|].
  refine (proj1 (status_200_is_the_only_success Demo.World (Demo.always 404 [])
            Demo.ZipFile "EGMS_L3_E32N31_100km_E_2019_2023_1" "https://tile" Demo.r0
            {| status_code := 404; content := [] |} 1%nat _) _); [reflexivity|].
  apply Z.eqb_neq. reflexivity.
Defined.

(** A 204 answer that carries a good archive is turned down all the same. *)
Lemma status_2xx_rejected_counterexample :
  200 <= 204 < 300
  /\ Demo.ZipFile [x01] = inr Demo.tile_archive
  /\ find (is_payload "EGMS_L3_E32N31_100km_E_2019_2023_1") (namelist Demo.tile_archive)
     = Some "EGMS_L3_E32N31_100km_E_2019_2023_1.csv"
  /\ fetch (Demo.always 204 [x01]) Demo.ZipFile "EGMS_L3_E32N31_100km_E_2019_2023_1"
       "https://tile" Demo.r0
     = ((None, None),
        mk 1%nat
           [StSpinner "Fetching EGMS_L3_E32N31_100km_E_2019_2023_1...";
            HttpGet "https://tile";
            StError "Failed to fetch EGMS_L3_E32N31_100km_E_2019_2023_1 (Status: 204)"]
           Demo.fresh_session).
Proof.
  split; [lia|]. split; [reflexivity|]. split; reflexivity.
Qed.

(** An orbit request with an empty burst cycle. *)
Lemma missing_parameter_makes_no_request_witness :
  "L2A" <> "L3"
  /\ truthy_str (Some "") = false
  /\ fetch_file_data (Demo.always 200 [x04]) Demo.ZipFile 0 0 "" "L2A" "2019_2023" "tok"
       (Some "052") (Some "") (Some "IW2") (Some "VV") Demo.r0
     = ((None, None),
        mk (world Demo.r0)
           (ui Demo.r0 ++ [StError ("Missing parameters for " ++ "L2A" ++ " download")])
           (session Demo.r0)).
Proof.
  assert (Hdt : "L2A" <> "L3") by (apply String.eqb_neq; reflexivity).
  split; [exact Hdt|]. split; [reflexivity|].
  refine (proj1 (missing_parameter_makes_no_request Demo.World (Demo.always 200 [x04])
            Demo.ZipFile 0 0 "" "L2A" "2019_2023" "tok"
            (Some "052") (Some "") (Some "IW2") (Some "VV") Demo.r0 Hdt _)).
  right. left. reflexivity.
Defined.

(** A tile whose only matching member is empty. *)
Lemma empty_payload_is_dropped_witness :
  zread Demo.empty_member_archive "EGMS_L3_E32N31_100km_E_2019_2023_1.csv" = Some (inr [])
  /\ fetched_ok (Some [], Some "EGMS_L3_E32N31_100km_E_2019_2023_1.csv") = false
  /\ fst (l3_batch_step (Demo.always 200 [x03]) Demo.ZipFile "2019_2023" "tok" 1
            32 31 "E" ([], 0) Demo.r0)
     = ([], 0 + 1).
Proof.
  split; [reflexivity|].
  destruct (empty_payload_is_dropped Demo.World (Demo.always 200 [x03]) Demo.ZipFile
              32 31 "E" "2019_2023" "tok" 1 Demo.r0
              {| status_code := 200; content := [x03] |} 1%nat
              Demo.empty_member_archive "EGMS_L3_E32N31_100km_E_2019_2023_1.csv" [] 0
              eq_refl eq_refl eq_refl eq_refl eq_refl)
    as (_ & Hok & _ & _ & Hstep).
  split; [exact Hok|exact Hstep].
Defined.

(** Two batches against a server that cannot be reached. *)
Lemma all_failed_batch_delivers_nothing_witness :
  "L2A" <> "L3"
  /\ filter is_success
       (ui (snd (prepare_l3_batch Demo.unreachable Demo.ZipFile Demo.zip_getvalue
                   10 11 25 25 "Both" "2019_2023" "tok" Demo.r0)))
     = filter is_success (ui Demo.r0)
  /\ session (snd (prepare_l3_batch Demo.unreachable Demo.ZipFile Demo.zip_getvalue
                     10 11 25 25 "Both" "2019_2023" "tok" Demo.r0))
     = session Demo.r0
  /\ session (snd (prepare_l2_batch Demo.unreachable Demo.ZipFile Demo.zip_getvalue
                     50 51 715 715 ["IW1"] ["VV"] "L2A" "2019_2023" "tok" Demo.r0))
     = session Demo.r0.
Proof.
  assert (Hdt : "L2A" <> "L3") by (apply String.eqb_neq; reflexivity).
  split; [exact Hdt|]. split; [reflexivity|].
  assert (Hss : ["IW1"] <> @nil string) by (intros H; inversion H).
  assert (Hps : ["VV"] <> @nil string) by (intros H; inversion H).
  destruct (all_failed_batch_delivers_nothing Demo.World Demo.unreachable Demo.ZipFile
              Demo.zip_getvalue 10 11 25 25 "Both" 50 51 715 715 ["IW1"] ["VV"]
              "L2A" "2019_2023" "tok" Demo.r0 Hdt Hss Hps eq_refl eq_refl)
    as [[H3 _] [H2 _]].
  split; [exact H3|exact H2].
Defined.

(** Orbit 52, burst cycle 716. *)
Lemma batch_pads_orbit_and_burst_witness :
  "L2A" <> "L3" /\ 0 <= 52 <= 999 /\ 0 <= 716 <= 9999
  /\ format_0d 3 52 = "052" /\ format_0d 4 716 = "0716"
  /\ String.length (format_0d 3 52) = 3%nat
  /\ String.length (format_0d 4 716) = 4%nat.
Proof.
  assert (Hdt : "L2A" <> "L3") by (apply String.eqb_neq; reflexivity).
  assert (Ho : 0 <= 52 <= 999) by (split; apply Z.leb_le; reflexivity).
  assert (Hb : 0 <= 716 <= 9999) by (split; apply Z.leb_le; reflexivity).
  assert (Hs : "IW2" <> "") by (apply String.eqb_neq; reflexivity).
  assert (Hp : "VV" <> "") by (apply String.eqb_neq; reflexivity).
  split; [exact Hdt|]. split; [exact Ho|]. split; [exact Hb|].
  destruct (batch_pads_orbit_and_burst Demo.World Demo.unreachable Demo.ZipFile
              "L2A" "2019_2023" "tok" 2 52 716 "IW2" "VV" [] 0 Demo.r0
              Hdt Ho Hb Hs Hp)
    as (H3 & H4 & Hf3 & Hf4 & _).
  split; [exact Hf3|]. split; [exact Hf4|]. split; [exact H3|exact H4].
Defined.

(** A single-file request with the orbit typed as [52] and the burst cycle
    as [716]: the URL carries them as typed, not padded to [052] and [0716]. *)
Lemma single_request_not_padded_counterexample :
  requested (ui (snd (prepare_l2_single Demo.unreachable Demo.ZipFile
                        "L2A" "2019_2023" "tok" "52" "716" "IW2" "VV" Demo.r0)))
  = [ARCHIVE_ROOT ++ "EGMS_L2a_52_716_IW2_VV_2019_2023_1.zip?id=tok"]
  /\ requested (ui (snd (prepare_l2_single Demo.unreachable Demo.ZipFile
                           "L2A" "2019_2023" "tok" "52" "716" "IW2" "VV" Demo.r0)))
     <> [url_L2 "L2A" (Some (format_0d 3 52)) (Some (format_0d 4 716))
                (Some "IW2") (Some "VV") "2019_2023" "tok"].
Proof.
  split; [reflexivity|]. vm_compute. discriminate.
Qed.

(** C8. The orbit-mode prefix is built with the level as the caller gives
    it ([L2A], [L2B]) while the URL is built with the remapped level
    ([L2a], [L2b]); all the other fields are the same in both.  With the
    default inputs the prefix is not a substring of the URL (for a grid
    request it is), and an archive whose member is named after the file the
    URL asks for yields "No matching CSV found". *)
Theorem orbit_prefix_keeps_unmapped_level
    (relative_orbit burst_cycle swath polarization : option string) (year id : string) :
  let fields := "_" ++ str_opt relative_orbit ++ "_" ++ str_opt burst_cycle ++ "_"
                  ++ str_opt swath ++ "_" ++ str_opt polarization ++ "_" ++ year ++ "_1" in
  filename_prefix_L2 "L2A" relative_orbit burst_cycle swath polarization year
  = "EGMS_L2A" ++ fields
  /\ url_L2 "L2A" relative_orbit burst_cycle swath polarization year id
     = ARCHIVE_ROOT ++ ("EGMS_L2a" ++ fields) ++ ".zip?id=" ++ id
  /\ filename_prefix_L2 "L2B" relative_orbit burst_cycle swath polarization year
     = "EGMS_L2B" ++ fields
  /\ url_L2 "L2B" relative_orbit burst_cycle swath polarization year id
     = ARCHIVE_ROOT ++ ("EGMS_L2b" ++ fields) ++ ".zip?id=" ++ id
  /\ str_in (filename_prefix_L2 "L2A" (Some "052") (Some "0716") (Some "IW2") (Some "VV")
                                "2019_2023")
            (url_L2 "L2A" (Some "052") (Some "0716") (Some "IW2") (Some "VV")
                    "2019_2023" DEFAULT_ID) = false
  /\ str_in (filename_prefix_L3 "L3" 32 31 "E" "2019_2023")
            (BASE_URL_L3 "L3" 32 31 "E" "2019_2023" DEFAULT_ID) = true
  /\ Demo.ZipFile [x04] = inr [("EGMS_L2a_052_0716_IW2_VV_2019_2023_1.csv", inr [x31])]
  /\ fetch_file_data (Demo.always 200 [x04]) Demo.ZipFile 0 0 "" "L2A" "2019_2023"
       DEFAULT_ID (Some "052") (Some "0716") (Some "IW2") (Some "VV") Demo.r0
     = ((None, None),
        mk 1%nat
           [StSpinner "Fetching EGMS_L2A_052_0716_IW2_VV_2019_2023_1...";
            HttpGet (ARCHIVE_ROOT ++ "EGMS_L2a_052_0716_IW2_VV_2019_2023_1.zip?id="
                       ++ DEFAULT_ID);
            StError "No matching CSV found in the downloaded zip for EGMS_L2A_052_0716_IW2_VV_2019_2023_1"]
           Demo.fresh_session).
Proof.
  intros fields.
  assert (Hurl : forall lvl,
             BASE_URL_L2 lvl (str_opt relative_orbit) (str_opt burst_cycle)
               (str_opt swath) (str_opt polarization) year id
             = ARCHIVE_ROOT ++ (("EGMS_" ++ lvl) ++ fields) ++ ".zip?id=" ++ id).
  { intros lvl. unfold BASE_URL_L2, fields. f_equal.
    repeat rewrite !append_assoc. reflexivity. }
  split; [reflexivity|].
  split; [exact (Hurl "L2a")|].
  split; [reflexivity|].
  split; [exact (Hurl "L2b")|].
  split; [reflexivity|]. split; [reflexivity|]. split; reflexivity.
Qed.

(* ------------------------------------------------------------------ *)
(** ** The further properties at concrete inputs *)

(** Two orbits, one burst cycle, one swath and one polarization. *)
Lemma orbit_batch_requests_every_task_witness :
  "L2A" <> "L3"
  /\ Forall (fun s => s <> "") ["IW1"]
  /\ Forall (fun p => p <> "") ["VV"]
  /\ exists st' trs w',
      l2_batch_loop Demo.unreachable Demo.ZipFile 50 51 715 715 ["IW1"] ["VV"]
        "L2A" "2019_2023" "tok" 2 ([], 0) Demo.r0
      = (st', mk w' (ui Demo.r0 ++ trs) (session Demo.r0))
      /\ requested trs
         = [ARCHIVE_ROOT ++ "EGMS_L2a_050_0715_IW1_VV_2019_2023_1.zip?id=tok";
            ARCHIVE_ROOT ++ "EGMS_L2a_051_0715_IW1_VV_2019_2023_1.zip?id=tok"].
Proof.
  assert (Hdt : "L2A" <> "L3") by (apply String.eqb_neq; reflexivity).
  assert (Hne : forall s, String.eqb s "" = false -> s <> "")
    by (intros s H; now apply String.eqb_neq).
  assert (Hss : Forall (fun s => s <> "") ["IW1"])
    by (constructor; [apply Hne; reflexivity|constructor]).
  assert (Hps : Forall (fun p => p <> "") ["VV"])
    by (constructor; [apply Hne; reflexivity|constructor]).
  split; [exact Hdt|]. split; [exact Hss|]. split; [exact Hps|].
  destruct (orbit_batch_requests_every_task Demo.World Demo.unreachable Demo.ZipFile
              50 51 715 715 ["IW1"] ["VV"] "L2A" "2019_2023" "tok" 2 [] 0 Demo.r0
              Hdt Hss Hps)
    as (_ & st' & trs & w' & Hrun & Hreq & _).
  exists st', trs, w'. split; [exact Hrun|exact Hreq].
Defined.

(** A server that cannot be reached. *)
Lemma exceptions_end_in_error_report_witness :
  Demo.unreachable "https://tile" (world Demo.r0) = (inl "Connection refused", 1%nat)
  /\ fetch Demo.unreachable Demo.ZipFile "EGMS_L3_E32N31_100km_E_2019_2023_1"
       "https://tile" Demo.r0
     = ((None, None),
        mk 1%nat
           (ui Demo.r0
              ++ [StSpinner ("Fetching " ++ "EGMS_L3_E32N31_100km_E_2019_2023_1" ++ "...");
                  HttpGet "https://tile";
                  StError ("Error fetching " ++ "EGMS_L3_E32N31_100km_E_2019_2023_1"
                             ++ ": " ++ "Connection refused")])
           (session Demo.r0)).
Proof.
  split; [reflexivity|].
  apply (exceptions_end_in_error_report Demo.World Demo.unreachable Demo.ZipFile
           "EGMS_L3_E32N31_100km_E_2019_2023_1" "https://tile" Demo.r0
           "Connection refused" 1%nat).
  left. reflexivity.
Defined.

(** The tile archive, asked for the other channel. *)
Lemma no_matching_member_is_reported_witness :
  forallb (fun name => negb (is_payload "EGMS_L3_E32N31_100km_U_2019_2023_1" name))
          (namelist Demo.tile_archive) = true
  /\ fetch (Demo.always 200 [x01]) Demo.ZipFile "EGMS_L3_E32N31_100km_U_2019_2023_1"
       "https://tile" Demo.r0
     = ((None, None),
        mk 1%nat
           (ui Demo.r0
              ++ [StSpinner ("Fetching " ++ "EGMS_L3_E32N31_100km_U_2019_2023_1" ++ "...");
                  HttpGet "https://tile";
                  StError ("No matching CSV found in the downloaded zip for "
                             ++ "EGMS_L3_E32N31_100km_U_2019_2023_1")])
           (session Demo.r0)).
Proof.
  split; [reflexivity|].
  apply (no_matching_member_is_reported Demo.World (Demo.always 200 [x01]) Demo.ZipFile
           "EGMS_L3_E32N31_100km_U_2019_2023_1" "https://tile" Demo.r0
           {| status_code := 200; content := [x01] |} 1%nat Demo.tile_archive);
    reflexivity.
Defined.

(** A grid batch of two tiles and both channels of which one task succeeds. *)
Lemma batch_delivers_what_it_kept_witness :
  "L2A" <> "L3" /\ ["IW1"] <> @nil string /\ ["VV"] <> @nil string
  /\ exists members tr,
      (List.length members
       <= span 31 32 * span 31 31 * List.length (displacements_of "Both"))%nat
      /\ ((members = []
           /\ snd (prepare_l3_batch Demo.east32 Demo.ZipFile Demo.zip_getvalue
                     31 32 31 31 "Both" "2019_2023" "tok" Demo.r0)
              = mk (world (snd (prepare_l3_batch Demo.east32 Demo.ZipFile
                                  Demo.zip_getvalue 31 32 31 31 "Both"
                                  "2019_2023" "tok" Demo.r0)))
                   (ui Demo.r0 ++ tr ++ [StatusText "❌ No files could be downloaded"])
                   (session Demo.r0))
          \/ (members <> []
              /\ snd (prepare_l3_batch Demo.east32 Demo.ZipFile Demo.zip_getvalue
                        31 32 31 31 "Both" "2019_2023" "tok" Demo.r0)
                 = mk (world (snd (prepare_l3_batch Demo.east32 Demo.ZipFile
                                     Demo.zip_getvalue 31 32 31 31 "Both"
                                     "2019_2023" "tok" Demo.r0)))
                      (ui Demo.r0 ++ tr
                         ++ [StatusText ("✅ Ready! " ++ str_int (len members)
                                         ++ " files prepared for download")])
                      {| download_ready := true;
                         download_data := Some (Demo.zip_getvalue members);
                         download_filename :=
                           "EGMS_L3_E" ++ str_int 31 ++ "-" ++ str_int 32
                             ++ "_N" ++ str_int 31 ++ "-" ++ str_int 31
                             ++ "_" ++ "2019_2023" ++ "_batch.zip" |})).
Proof.
  assert (Hdt : "L2A" <> "L3") by (apply String.eqb_neq; reflexivity).
  assert (Hss : ["IW1"] <> @nil string) by (intros H; inversion H).
  assert (Hps : ["VV"] <> @nil string) by (intros H; inversion H).
  split; [exact Hdt|]. split; [exact Hss|]. split; [exact Hps|].
  destruct (batch_delivers_what_it_kept Demo.World Demo.east32 Demo.ZipFile
              Demo.zip_getvalue 31 32 31 31 "Both" 50 51 715 715 ["IW1"] ["VV"]
              "L2A" "2019_2023" "tok" Demo.r0 Hdt Hss Hps)
    as [(members & tr & _ & Hlen & Hcases) _].
  exists members, tr. split; [exact Hlen|exact Hcases].
Defined.

(** The demo encoder always writes its two-byte header. *)
Lemma batch_download_is_offered_witness :
  (forall members, Demo.zip_getvalue members <> [])
  /\ (session (snd (prepare_l3_batch Demo.east32 Demo.ZipFile Demo.zip_getvalue
                      31 32 31 31 "Both" "2019_2023" "tok" Demo.r0))
      = session Demo.r0
      \/ render_l3_batch
           (session (snd (prepare_l3_batch Demo.east32 Demo.ZipFile Demo.zip_getvalue
                            31 32 31 31 "Both" "2019_2023" "tok" Demo.r0)))
         = Some {| btn_label := "💾 Download Batch ZIP";
                   btn_data :=
                     download_data
                       (session (snd (prepare_l3_batch Demo.east32 Demo.ZipFile
                                        Demo.zip_getvalue 31 32 31 31 "Both"
                                        "2019_2023" "tok" Demo.r0)));
                   btn_file_name :=
                     "EGMS_L3_E" ++ str_int 31 ++ "-" ++ str_int 32
                       ++ "_N" ++ str_int 31 ++ "-" ++ str_int 31
                       ++ "_" ++ "2019_2023" ++ "_batch.zip";
                   btn_mime := "application/zip" |}).
Proof.
  assert (Hzip : forall members, Demo.zip_getvalue members <> [])
    by (intros members H; discriminate H).
  split; [exact Hzip|].
  exact (proj1 (batch_download_is_offered Demo.World Demo.east32 Demo.ZipFile
                  Demo.zip_getvalue 31 32 31 31 "Both" 50 51 715 715 ["IW1"] ["VV"]
                  "L2A" "2019_2023" "tok" Demo.r0 Hzip)).
Defined.

(** The default bounds of the batch page: 2 x 2 tiles, one channel. *)
Lemma announced_count_is_number_of_requests_witness :
  10 <= 11 /\ 25 <= 26 /\ 50 <= 52 /\ 715 <= 717
  /\ l3_total_files 10 11 25 26 "E" = 4
  /\ len (requested (ui (snd (prepare_l3_batch Demo.unreachable Demo.ZipFile
                                Demo.zip_getvalue 10 11 25 26 "E" "2019_2023" "tok"
                                Demo.r0)))) = 4
  /\ l2_total_combinations 50 52 715 717 ["IW1"; "IW2"; "IW3"] ["VV"] = 27.
Proof.
  assert (H1 : 10 <= 11) by (apply Z.leb_le; reflexivity).
  assert (H2 : 25 <= 26) by (apply Z.leb_le; reflexivity).
  assert (H3 : 50 <= 52) by (apply Z.leb_le; reflexivity).
  assert (H4 : 715 <= 717) by (apply Z.leb_le; reflexivity).
  split; [exact H1|]. split; [exact H2|]. split; [exact H3|]. split; [exact H4|].
  destruct (announced_count_is_number_of_requests Demo.World Demo.unreachable Demo.ZipFile
              Demo.zip_getvalue 10 11 25 26 "E" 50 52 715 717 ["IW1"; "IW2"; "IW3"] ["VV"]
              "2019_2023" "tok" Demo.r0 H1 H2 H3 H4) as (Ha & Hb & Hc).
  split; [exact Ha|]. split; [exact Hb|exact Hc].
Defined.

(** East bounds 12..10 and north bounds 12..10: one file is announced, none
    is asked for. *)
Lemma reversed_bounds_run_no_task_witness :
  (10 < 12 \/ 10 < 12)
  /\ l3_info 12 10 12 10 "E" = "This will attempt to download 1 files from 1 tiles"
  /\ prepare_l3_batch Demo.unreachable Demo.ZipFile Demo.zip_getvalue
       12 10 12 10 "E" "2019_2023" "tok" Demo.r0
     = (tt, mk (world Demo.r0)
               (ui Demo.r0 ++ [Progress 0 1; Progress 1 1;
                               StatusText "Creating batch download...";
                               StatusText "❌ No files could be downloaded"])
               (session Demo.r0)).
Proof.
  assert (H : 10 < 12 \/ 10 < 12) by (left; apply Z.ltb_lt; reflexivity).
  split; [exact H|]. split; [reflexivity|].
  exact (proj1 (reversed_bounds_run_no_task Demo.World Demo.unreachable Demo.ZipFile
                  Demo.zip_getvalue 12 10 12 10 "E" "2019_2023" "tok" Demo.r0 H)).
Defined.

(** The burst cycle field left empty. *)
Lemma empty_field_sends_nothing_witness :
  "L2A" <> "L3"
  /\ prepare_l2_single (Demo.always 200 [x04]) Demo.ZipFile "L2A" "2019_2023" "tok"
       "052" "" "IW2" "VV" Demo.r0
     = (tt, mk (world Demo.r0)
               (ui Demo.r0 ++ [StError ("Missing parameters for " ++ "L2A" ++ " download")])
               (session Demo.r0)).
Proof.
  assert (Hdt : "L2A" <> "L3") by (apply String.eqb_neq; reflexivity).
  split; [exact Hdt|].
  apply (empty_field_sends_nothing Demo.World (Demo.always 200 [x04]) Demo.ZipFile
           "L2A" "2019_2023" "tok" "052" "" "IW2" "VV" Demo.r0 Hdt).
  right. left. reflexivity.
Defined.
